(** * MIST: distributed training driver and dataset preprocessing

    A shallow embedding of

    - [mist/runtime/run.py]  ([Trainer.train] with its nested [train_step],
      [compute_loss] and [val_step]), and
    - [src/preprocess_data/preprocess.py]  ([preprocess_dataset]).

    Python statements are written in a small state-and-exception monad: a
    computation takes the interpreter state, returns either a value or a
    raised exception, and always returns the state it left behind, so the
    log of calls to external collaborators survives an exception.

    Tensor-valued losses are modelled by exact rationals ([Q]); rounding of
    machine floats is not part of this model. *)

From Stdlib Require Import List String ZArith QArith Qround Qpower Qfield Lia Bool Arith.
Import ListNotations.

Set Implicit Arguments.
Close Scope Q_scope.

(** ** Python exceptions and the state/exception monad *)

Module Py.

Inductive exn : Type :=
| InsufficientValidationSetError (val_size world_size : nat)
| ValueError (msg : string)
| UnboundLocalError (name : string)
| KeyError (key : string)
| IndexError
| TypeError (msg : string)
| ZeroDivisionError.

Inductive result (A : Type) : Type :=
| Val (a : A)
| Exc (e : exn).
Arguments Val {A} a.
Arguments Exc {A} e.

Definition M (S A : Type) : Type := S -> result A * S.

Definition ret {S A} (a : A) : M S A := fun s => (Val a, s).

Definition raise {S A} (e : exn) : M S A := fun s => (Exc e, s).

Definition bind {S A B} (m : M S A) (f : A -> M S B) : M S B :=
  fun s => match m s with
           | (Val a, s') => f a s'
           | (Exc e, s') => (Exc e, s')
           end.

Definition get {S} : M S S := fun s => (Val s, s).

Definition gets {S A} (f : S -> A) : M S A := fun s => (Val (f s), s).

Definition modify {S} (f : S -> S) : M S unit := fun s => (Val tt, f s).

(** Reading a local variable: unbound names raise [UnboundLocalError]. *)
Definition read_local {S A} (name : string) (f : S -> option A) : M S A :=
  fun s => match f s with
           | Some a => (Val a, s)
           | None => (Exc (UnboundLocalError name), s)
           end.

(** Subscripting a mapping with a key that may be absent. *)
Definition subscript {S A} (key : string) (o : option A) : M S A :=
  match o with
  | Some a => ret a
  | None => raise (KeyError key)
  end.

(** [a // b] and [a % b] on non-negative integers. *)
Definition floordiv {S} (a b : nat) : M S nat :=
  if (b =? 0)%nat then raise ZeroDivisionError else ret (Nat.div a b).

Definition pymod {S} (a b : nat) : M S nat :=
  if (b =? 0)%nat then raise ZeroDivisionError else ret (Nat.modulo a b).

(** [a[i]] along an axis of extent [n]. *)
Definition check_index {S} (i n : nat) : M S unit :=
  if (i <? n)%nat then ret tt else raise IndexError.

(** Loop control: the body of a [for] either falls through or breaks. *)
Inductive ctl : Type := Continue | Break.

(** [for x in xs: body x] with [break]. *)
Fixpoint for_each {S A} (xs : list A) (body : A -> M S ctl) : M S unit :=
  match xs with
  | [] => ret tt
  | x :: rest =>
      bind (body x) (fun c =>
        match c with
        | Continue => for_each rest body
        | Break => ret tt
        end)
  end.

(** [range(n)] *)
Definition range (n : nat) : list nat := seq 0 n.

(** [x in [a, b, ...]] for strings *)
Definition str_in (x : string) (l : list string) : bool :=
  existsb (String.eqb x) l.

(** Triples: started in a state satisfying [P], the computation ends in a
    state satisfying [Qv a] when it returns [a] and [Qe e] when it raises
    [e]. Computations are total functions, so every run ends. *)
Definition hoare {S A} (P : S -> Prop) (m : M S A)
    (Qv : A -> S -> Prop) (Qe : exn -> S -> Prop) : Prop :=
  forall s, P s ->
    match m s with
    | (Val a, s') => Qv a s'
    | (Exc e, s') => Qe e s'
    end.

(** [I] holds after the computation whenever it held before, whether it
    returns or raises. *)
Definition inv {S A} (I : S -> Prop) (m : M S A) : Prop :=
  hoare I m (fun _ => I) (fun _ => I).

Definition is_InsufficientValidationSetError (e : exn) : bool :=
  match e with
  | InsufficientValidationSetError _ _ => true
  | _ => false
  end.

(** The computation raises nothing that [bad] flags. *)
Definition never_raises {S A} (bad : exn -> bool) (m : M S A) : Prop :=
  hoare (fun _ => True) m (fun _ _ => True) (fun e _ => bad e = false).

Definition is_exc {A} (r : result A) : bool :=
  match r with
  | Exc _ => true
  | Val _ => false
  end.

End Py.

Import Py.

Declare Scope py_scope.
Delimit Scope py_scope with py.
Notation "x <- m ;; k" := (bind m (fun x => k))
  (at level 61, m at next level, right associativity) : py_scope.
Notation "m ;; k" := (bind m (fun _ => k))
  (at level 61, right associativity) : py_scope.
Notation "' pat <- m ;; k" :=
  (bind m (fun x => match x with pat => k end))
  (at level 61, pat pattern, m at next level, right associativity) : py_scope.

(** ** User arguments ([self.mist_arguments])

    The attributes that [Trainer.train] and its nested functions read.
    [steps_per_epoch] is the one attribute the trainer assigns; it lives in
    the interpreter state. *)

Record mist_arguments : Type := {
  folds : list nat;
  epochs : nat;
  batch_size : nat;
  val_percent : Q;
  seed_val : option Z;
  use_dtms : bool;
  loss : string;
  model : string;
  amp : bool;
  clip_norm : bool;
  arg_deep_supervision : bool;
  arg_vae_reg : bool;
  vae_penalty : Q;
  l2_reg : bool;
  l2_penalty : Q;
  l1_reg : bool;
  l1_penalty : Q
}.

Definition default_arguments : mist_arguments :=
  {| folds := [0]; epochs := 1; batch_size := 1;
     val_percent := Qmake 1 10; seed_val := Some 42%Z;
     use_dtms := false; loss := "dice_ce"; model := "nnunet";
     amp := false; clip_norm := false;
     arg_deep_supervision := false; arg_vae_reg := false;
     vae_penalty := 0%Q; l2_reg := false; l2_penalty := 0%Q;
     l1_reg := false; l1_penalty := 0%Q |}.

Definition with_deep_supervision (b : bool) (a : mist_arguments)
    : mist_arguments :=
  {| folds := folds a; epochs := epochs a; batch_size := batch_size a;
     val_percent := val_percent a; seed_val := seed_val a;
     use_dtms := use_dtms a; loss := loss a; model := model a;
     amp := amp a; clip_norm := clip_norm a;
     arg_deep_supervision := b; arg_vae_reg := arg_vae_reg a;
     vae_penalty := vae_penalty a; l2_reg := l2_reg a;
     l2_penalty := l2_penalty a; l1_reg := l1_reg a;
     l1_penalty := l1_penalty a |}.

(** ** [compute_loss] (run.py, nested in [train_step]) *)

Module Loss.

Local Open Scope Q_scope.

(** [0.5 ** n] *)
Definition half_pow (n : nat) : Q := Qpower (1 # 2) (Z.of_nat n).

(** [c_norm = 1 / (2 - 2 ** -(n + 1))] with [n] the number of heads. *)
Definition c_norm (n : nat) : Q :=
  1 / (2 - Qpower 2 (- (Z.of_nat n + 1))).

Section ComputeLoss.

Variable tensor : Type.
Variable param : Type.

(** What [model(image)] returns: a mapping with [prediction] and,
    depending on the architecture, [deep_supervision] and [vae_reg]. *)
Record model_output : Type := {
  prediction : tensor;
  deep_supervision : option (list tensor);
  vae_reg : option tensor
}.

(** The three call shapes of the configured loss function. *)
Inductive loss_call : Type :=
| Call2 (label pred : tensor)
| Call3 (label pred : tensor) (alpha : option Q)
| Call4 (label pred : tensor) (dtm : option tensor) (alpha : option Q).

Variable args : mist_arguments.
Variable loss_fn : loss_call -> Q.
Variable vae_loss_fn : tensor -> tensor -> Q.
Variable norm : positive -> param -> Q.      (* torch.norm(param, p=...) *)
Variable parameters : list param.           (* model.parameters() *)

(** One call of [loss_fn] on a prediction, by the run's convention. *)
Definition call_loss (label p : tensor) (dtm : option tensor)
    (alpha : option Q) : Q :=
  if use_dtms args then loss_fn (Call4 label p dtm alpha)
  else if str_in (loss args) ["cldice"%string]
       then loss_fn (Call3 label p alpha)
       else loss_fn (Call2 label p).

(** [for k, p in enumerate(heads): loss += 0.5 ** (k + 1) * loss_fn(...)]
    started at index [k]. *)
Fixpoint deep_supervision_loop (label : tensor) (dtm : option tensor)
    (alpha : option Q) (k : nat) (heads : list tensor) (acc : Q) : Q :=
  match heads with
  | [] => acc
  | p :: rest =>
      deep_supervision_loop label dtm alpha (S k) rest
        (acc + half_pow (k + 1) * call_loss label p dtm alpha)
  end.

(** The loss up to and including the deep-supervision rescaling. *)
Definition supervised_loss {S} (label : tensor) (dtm : option tensor)
    (alpha : option Q) (output : model_output) : M S Q :=
  let l0 := call_loss label (prediction output) dtm alpha in
  if arg_deep_supervision args then
    (heads <- subscript "deep_supervision" (deep_supervision output) ;;
     let l := deep_supervision_loop label dtm alpha 0 heads l0 in
     ret (l * c_norm (List.length heads)))%py
  else ret l0.

(** [for param in model.parameters(): acc += torch.norm(param, p)] *)
Definition norm_of_model_parameters (p : positive) : Q :=
  fold_left (fun acc th => acc + norm p th) parameters 0.

Definition compute_loss {S} (image label : tensor) (dtm : option tensor)
    (alpha : option Q) (output : model_output) : M S Q :=
  (l <- supervised_loss label dtm alpha output ;;
   l <- (if arg_vae_reg args then
           v <- subscript "vae_reg" (vae_reg output) ;;
           ret (l + vae_penalty args * vae_loss_fn image v)
         else ret l) ;;
   let l := if l2_reg args
            then l + l2_penalty args * norm_of_model_parameters 2
            else l in
   let l := if l1_reg args
            then l + l1_penalty args * norm_of_model_parameters 1
            else l in
   ret l)%py.

(** The sum the specification writes as
    [Σ_{k=0}^{H-1} 0.5^(k+1) × L_k]. *)
Fixpoint head_sum (H : nat) (L : nat -> Q) : Q :=
  match H with
  | O => 0
  | S h => head_sum h L + half_pow (h + 1) * L h
  end.

End ComputeLoss.

(** Sum of the weights as the specification lists them: primary weight 1
    plus [0.5^(k+1)] for [k = 0 .. H-1]. *)
Definition weight_sum (H : nat) : Q := 1 + head_sum H (fun _ => 1).

(** The weight that a loss value common to the primary prediction and all
    [H] heads receives in [supervised_loss]: the value [supervised_loss]
    returns when every call of the loss function returns 1. *)
Definition effective_total_weight (H : nat) : result Q :=
  fst (supervised_loss
         (with_deep_supervision true default_arguments)
         (fun _ : loss_call unit => 1) tt None None
         {| prediction := tt;
            deep_supervision := Some (repeat tt H);
            vae_reg := None |} tt).

End Loss.

(** ** [Trainer.train] (run.py) *)

Module Run.

Import Loss.

(** [utils.RunningMean] is not among the sources under study.

    Modelled from the spec: utils.RunningMean, "streaming accumulator
    (count, sum)"; calling it with a value folds the value in and returns
    the mean so far, [reset_states] clears it. *)
Record RunningMean : Type := { rm_count : nat; rm_total : Q }.

Definition RunningMean_new : RunningMean := {| rm_count := 0; rm_total := 0 |}.

Definition RunningMean_call (m : RunningMean) (v : Q) : RunningMean * Q :=
  let m' := {| rm_count := S (rm_count m); rm_total := (rm_total m + v)%Q |} in
  (m', (rm_total m' / inject_Z (Z.of_nat (rm_count m')))%Q).

(** [np.Inf] or a finite loss value. *)
Inductive best_loss : Type :=
| Inf
| Finite (v : Q).

(** [running_val_loss < best_validation_loss] *)
Definition lt_best (v : Q) (best : best_loss) : bool :=
  match best with
  | Inf => true
  | Finite b => negb (Qle_bool b v)
  end.

(** What the star-unpacking [zip] leaves in [train_dtms] (a tuple), next
    to [None] and a list:
    line 366 asks [isinstance(train_dtms, list)]. *)
Inductive py_seq (A : Type) : Type :=
| PyNone
| PyTuple (l : list A)
| PyList (l : list A).
Arguments PyNone {A}.

Definition isinstance_list {A} (x : py_seq A) : option (list A) :=
  match x with
  | PyList l => Some l
  | _ => None
  end.

(** Files the rank-0 loop writes with [ants.image_write]:
    [myimageNN_00.nii.gz], [myimageNN_01.nii.gz], [mylabelNN_0.nii.gz]. *)
Inductive nifti_file : Type :=
| myimage (patch_counter channel : nat)
| mylabel (patch_counter : nat).

Inductive loader : Type := train_loader | validation_loader.

(** Calls to external collaborators, in the order they happen. *)
Inductive event : Type :=
| init_process_group (rank world_size : nat)
| cuda_set_device (rank : nat)
| console_print (text : string)
| call_train_test_split (fold : nat)
| get_training_dataset (fold : nat)
| get_validation_dataset (fold : nat)
| get_loss
| get_model
| configure_pretrained_model
| convert_sync_batchnorm
| model_to (rank : nat)
| wrap_DDP (find_unused_parameters : bool)
| get_optimizer
| get_lr_schedule
| new_GradScaler
| new_SummaryWriter (fold : nat)
| model_train
| loader_next (l : loader)
| image_write (f : nifti_file)
| ipdb_set_trace
| alpha_schedule (epoch : nat)
| zero_grad
| model_forward
| backward (scaled : bool)
| scaler_unscale
| clip_grad_norm
| optimizer_step (through_scaler : bool)
| scaler_update
| lr_scheduler_step
| dist_reduce
| progress_update
| dist_barrier
| model_eval
| sliding_window
| torch_save (fold : nat)
| loader_reset (l : loader)
| writer_add_scalars (epoch : nat)
| writer_flush
| writer_close
| destroy_process_group.

(** The calls that make up one training step: the alpha schedule, the
    forward and backward pass, clipping, the optimizer and learning-rate
    steps and the reduction of the loss. *)
Definition training_step_event (e : event) : bool :=
  match e with
  | alpha_schedule _ | zero_grad | model_forward | backward _
  | scaler_unscale | clip_grad_norm | optimizer_step _ | scaler_update
  | lr_scheduler_step | dist_reduce => true
  | _ => false
  end.

(** The calls of lines 241-746: joining the group, setting a fold up,
    reading training batches, writing them to NIfTI files, the debugger. *)
Definition fold_event (e : event) : bool :=
  match e with
  | init_process_group _ _ | cuda_set_device _ | console_print _
  | call_train_test_split _ | get_training_dataset _
  | get_validation_dataset _ | get_loss | get_model
  | configure_pretrained_model | convert_sync_batchnorm | model_to _
  | wrap_DDP _ | get_optimizer | get_lr_schedule | new_GradScaler
  | new_SummaryWriter _ | model_train | loader_next train_loader
  | image_write _ | ipdb_set_trace => true
  | _ => false
  end.

(** The calls of the rank-0 loop of lines 706-741. *)
Definition dump_event (e : event) : bool :=
  match e with
  | model_train | loader_next train_loader | console_print _
  | image_write _ => true
  | _ => false
  end.

Definition fold_or_training_step_event (e : event) : bool :=
  fold_event e || training_step_event e.

Definition is_optimizer_step (e : event) : bool :=
  match e with
  | optimizer_step _ => true
  | _ => false
  end.

Definition is_loader_next (e : event) : bool :=
  match e with
  | loader_next _ => true
  | _ => false
  end.

Definition is_model_train (e : event) : bool :=
  match e with
  | model_train => true
  | _ => false
  end.

Definition is_label_write (e : event) : bool :=
  match e with
  | image_write (mylabel _) => true
  | _ => false
  end.

Definition is_image_write (e : event) : bool :=
  match e with
  | image_write (myimage _ 0) => true
  | _ => false
  end.

Definition count_events (p : event -> bool) (l : list event) : nat :=
  List.length (filter p l).

(** A batch mapping: [image], [label] and, when distance maps are loaded,
    [dtm]. *)
Record batch (tensor : Type) : Type := {
  image : tensor;
  label : tensor;
  dtm : option tensor
}.

(** One row of [train_paths.csv]. *)
Record row : Type := { row_id : nat; row_fold : nat }.

(** *** External collaborators

    Libraries and modules [run.py] imports; the trainer only calls them. *)
Module Ext.
Record collaborators (tensor path param weights rng : Type) : Type := {
  (* mist.runtime.utils *)
  get_numpy_file_paths_list : string -> list nat -> list path;
  boundary_loss_weighting_schedule : nat -> Q;
  (* numpy / scikit-learn *)
  RandomState : Z -> rng;
  permutation : rng -> nat -> list nat * rng;
  validate_shuffle_split : Q -> nat -> option (nat * nat);
  (* DALI loaders: the batch a fold's loader yields at a position *)
  training_batch : nat -> nat -> batch tensor;
  validation_batch : nat -> nat -> batch tensor;
  shape : tensor -> nat -> nat;
  (* model, losses, optimizer, collective *)
  initial_weights : nat -> weights;
  forward : weights -> tensor -> model_output tensor;
  parameters : weights -> list param;
  loss_fn : loss_call tensor -> Q;
  vae_loss_fn : tensor -> tensor -> Q;
  norm : positive -> param -> Q;
  optimizer_update : weights -> Q -> weights;
  (* torch.amp.GradScaler: whether the gradients of this step hold an inf
     or a NaN; [step] then leaves [optimizer.step()] out *)
  scaler_found_inf : weights -> Q -> bool;
  sliding_window_inference : weights -> tensor -> tensor;
  validation_loss_fn : tensor -> tensor -> Q;
  reduced : Q -> Q
}.
End Ext.

Section Trainer.

Variables tensor path param weights rng : Type.
Variable ext : Ext.collaborators tensor path param weights rng.

Local Abbreviation get_numpy_file_paths_list := (Ext.get_numpy_file_paths_list ext).
Local Abbreviation boundary_loss_weighting_schedule :=
  (Ext.boundary_loss_weighting_schedule ext).
Local Abbreviation RandomState := (Ext.RandomState ext).
Local Abbreviation permutation := (Ext.permutation ext).
Local Abbreviation validate_shuffle_split := (Ext.validate_shuffle_split ext).
Local Abbreviation training_batch := (Ext.training_batch ext).
Local Abbreviation validation_batch := (Ext.validation_batch ext).
Local Abbreviation shape := (Ext.shape ext).
Local Abbreviation initial_weights := (Ext.initial_weights ext).
Local Abbreviation forward := (Ext.forward ext).
Local Abbreviation parameters := (Ext.parameters ext).
Local Abbreviation loss_fn := (Ext.loss_fn ext).
Local Abbreviation vae_loss_fn := (Ext.vae_loss_fn ext).
Local Abbreviation norm := (Ext.norm ext).
Local Abbreviation optimizer_update := (Ext.optimizer_update ext).
Local Abbreviation scaler_found_inf := (Ext.scaler_found_inf ext).
Local Abbreviation sliding_window_inference := (Ext.sliding_window_inference ext).
Local Abbreviation validation_loss_fn := (Ext.validation_loss_fn ext).
Local Abbreviation reduced := (Ext.reduced ext).

(** *** The trainer object and the interpreter state *)

Variable mist_args : mist_arguments.
Variable training_paths_dataframe : list row.

(** Names bound once per fold before the epoch loop ([val_steps],
    [train_loader], [model], [optimizer], [train_step], ...). *)
Record fold_objects : Type := {
  fo_fold : nat;
  val_steps : nat;
  train_dtms : py_seq path
}.

(** Names bound only under [if rank == 0] at lines 428-446. *)
Record rank0_objects : Type := {
  running_loss_train : RunningMean;
  running_loss_validation : RunningMean;
  best_validation_loss : best_loss
}.

Record state : Type := {
  trace : list event;
  (* outside the frame of [train] *)
  global_rng : rng;
  steps_per_epoch : option nat;
  train_loader_position : nat;
  validation_loader_position : nat;
  model_weights : weights;
  (* local variables of [train] *)
  epoch : option nat;
  data : option (batch tensor);
  pb : option unit;
  running_val_loss : option Q;
  patch_counter : option nat;
  fold_scope : option fold_objects;
  rank0_scope : option rank0_objects
}.

Definition set_trace (v : list event) (s : state) : state :=
  {| trace := v; global_rng := global_rng s;
     steps_per_epoch := steps_per_epoch s;
     train_loader_position := train_loader_position s;
     validation_loader_position := validation_loader_position s;
     model_weights := model_weights s;
     epoch := epoch s; data := data s; pb := pb s;
     running_val_loss := running_val_loss s;
     patch_counter := patch_counter s;
     fold_scope := fold_scope s; rank0_scope := rank0_scope s |}.

Definition set_global_rng (v : rng) (s : state) : state :=
  {| trace := trace s; global_rng := v;
     steps_per_epoch := steps_per_epoch s;
     train_loader_position := train_loader_position s;
     validation_loader_position := validation_loader_position s;
     model_weights := model_weights s;
     epoch := epoch s; data := data s; pb := pb s;
     running_val_loss := running_val_loss s;
     patch_counter := patch_counter s;
     fold_scope := fold_scope s; rank0_scope := rank0_scope s |}.

Definition set_steps_per_epoch (v : option nat) (s : state) : state :=
  {| trace := trace s; global_rng := global_rng s;
     steps_per_epoch := v;
     train_loader_position := train_loader_position s;
     validation_loader_position := validation_loader_position s;
     model_weights := model_weights s;
     epoch := epoch s; data := data s; pb := pb s;
     running_val_loss := running_val_loss s;
     patch_counter := patch_counter s;
     fold_scope := fold_scope s; rank0_scope := rank0_scope s |}.

Definition set_loader_position (l : loader) (v : nat) (s : state) : state :=
  {| trace := trace s; global_rng := global_rng s;
     steps_per_epoch := steps_per_epoch s;
     train_loader_position :=
       match l with train_loader => v
                  | validation_loader => train_loader_position s end;
     validation_loader_position :=
       match l with train_loader => validation_loader_position s
                  | validation_loader => v end;
     model_weights := model_weights s;
     epoch := epoch s; data := data s; pb := pb s;
     running_val_loss := running_val_loss s;
     patch_counter := patch_counter s;
     fold_scope := fold_scope s; rank0_scope := rank0_scope s |}.

Definition set_model_weights (v : weights) (s : state) : state :=
  {| trace := trace s; global_rng := global_rng s;
     steps_per_epoch := steps_per_epoch s;
     train_loader_position := train_loader_position s;
     validation_loader_position := validation_loader_position s;
     model_weights := v;
     epoch := epoch s; data := data s; pb := pb s;
     running_val_loss := running_val_loss s;
     patch_counter := patch_counter s;
     fold_scope := fold_scope s; rank0_scope := rank0_scope s |}.

Definition set_epoch (v : option nat) (s : state) : state :=
  {| trace := trace s; global_rng := global_rng s;
     steps_per_epoch := steps_per_epoch s;
     train_loader_position := train_loader_position s;
     validation_loader_position := validation_loader_position s;
     model_weights := model_weights s;
     epoch := v; data := data s; pb := pb s;
     running_val_loss := running_val_loss s;
     patch_counter := patch_counter s;
     fold_scope := fold_scope s; rank0_scope := rank0_scope s |}.

Definition set_data (v : option (batch tensor)) (s : state) : state :=
  {| trace := trace s; global_rng := global_rng s;
     steps_per_epoch := steps_per_epoch s;
     train_loader_position := train_loader_position s;
     validation_loader_position := validation_loader_position s;
     model_weights := model_weights s;
     epoch := epoch s; data := v; pb := pb s;
     running_val_loss := running_val_loss s;
     patch_counter := patch_counter s;
     fold_scope := fold_scope s; rank0_scope := rank0_scope s |}.

Definition set_pb (v : option unit) (s : state) : state :=
  {| trace := trace s; global_rng := global_rng s;
     steps_per_epoch := steps_per_epoch s;
     train_loader_position := train_loader_position s;
     validation_loader_position := validation_loader_position s;
     model_weights := model_weights s;
     epoch := epoch s; data := data s; pb := v;
     running_val_loss := running_val_loss s;
     patch_counter := patch_counter s;
     fold_scope := fold_scope s; rank0_scope := rank0_scope s |}.

Definition set_running_val_loss (v : option Q) (s : state) : state :=
  {| trace := trace s; global_rng := global_rng s;
     steps_per_epoch := steps_per_epoch s;
     train_loader_position := train_loader_position s;
     validation_loader_position := validation_loader_position s;
     model_weights := model_weights s;
     epoch := epoch s; data := data s; pb := pb s;
     running_val_loss := v;
     patch_counter := patch_counter s;
     fold_scope := fold_scope s; rank0_scope := rank0_scope s |}.

Definition set_patch_counter (v : option nat) (s : state) : state :=
  {| trace := trace s; global_rng := global_rng s;
     steps_per_epoch := steps_per_epoch s;
     train_loader_position := train_loader_position s;
     validation_loader_position := validation_loader_position s;
     model_weights := model_weights s;
     epoch := epoch s; data := data s; pb := pb s;
     running_val_loss := running_val_loss s;
     patch_counter := v;
     fold_scope := fold_scope s; rank0_scope := rank0_scope s |}.

Definition set_fold_scope (v : option fold_objects) (s : state) : state :=
  {| trace := trace s; global_rng := global_rng s;
     steps_per_epoch := steps_per_epoch s;
     train_loader_position := train_loader_position s;
     validation_loader_position := validation_loader_position s;
     model_weights := model_weights s;
     epoch := epoch s; data := data s; pb := pb s;
     running_val_loss := running_val_loss s;
     patch_counter := patch_counter s;
     fold_scope := v; rank0_scope := rank0_scope s |}.

Definition set_rank0_scope (v : option rank0_objects) (s : state) : state :=
  {| trace := trace s; global_rng := global_rng s;
     steps_per_epoch := steps_per_epoch s;
     train_loader_position := train_loader_position s;
     validation_loader_position := validation_loader_position s;
     model_weights := model_weights s;
     epoch := epoch s; data := data s; pb := pb s;
     running_val_loss := running_val_loss s;
     patch_counter := patch_counter s;
     fold_scope := fold_scope s; rank0_scope := v |}.

(** The state in which [train] is entered: nothing is bound yet. *)
Definition initial_state (g : rng) (steps : option nat) (w : weights)
    : state :=
  {| trace := []; global_rng := g; steps_per_epoch := steps;
     train_loader_position := 0; validation_loader_position := 0;
     model_weights := w;
     epoch := None; data := None; pb := None;
     running_val_loss := None; patch_counter := None;
     fold_scope := None; rank0_scope := None |}.

Definition T (A : Type) : Type := M state A.

Definition emit (e : event) : T unit :=
  modify (fun s => set_trace (trace s ++ [e]) s).

Local Open Scope py_scope.

(** *** scikit-learn's [train_test_split] on two sequences *)

Definition take_indices {A} (xs : list A) (idx : list nat) : list A :=
  flat_map (fun i => match nth_error xs i with
                     | Some x => [x]
                     | None => []
                     end) idx.

(** [check_random_state] followed by [rng.permutation(n)]: an integer
    seeds a generator of its own, [None] draws from the global one. *)
Definition draw_permutation (random_state : option Z) (n : nat)
    : T (list nat) :=
  match random_state with
  | Some seed => ret (fst (permutation (RandomState seed) n))
  | None => fun s => let (p, g) := permutation (global_rng s) n in
                     (Val p, set_global_rng g s)
  end.

Definition train_test_split {A B} (xs : list A) (ys : list B)
    (test_size : Q) (random_state : option Z)
    : T (list A * list A * list B * list B) :=
  if negb (List.length xs =? List.length ys)%nat then
    raise (ValueError "Found input variables with inconsistent numbers of samples")
  else
    match validate_shuffle_split test_size (List.length xs) with
    | None => raise (ValueError "invalid test_size for the number of samples")
    | Some (n_train, n_test) =>
        p <- draw_permutation random_state (List.length xs) ;;
        let ind_test := firstn n_test p in
        let ind_train := firstn n_train (skipn n_test p) in
        ret (take_indices xs ind_train, take_indices xs ind_test,
             take_indices ys ind_train, take_indices ys ind_test)
    end.

(** [a, b = zip(...)] unpacking a sequence of pairs into two tuples *)
Definition unpack_pairs {A B} (l : list (A * B)) : T (list A * list B) :=
  match l with
  | [] => raise (ValueError "not enough values to unpack (expected 2, got 0)")
  | _ => ret (List.split l)
  end.

(** *** Lines 254-303: the fold's train/validation split *)

Record fold_split : Type := {
  train_images : list path;
  val_images : list path;
  train_labels : list path;
  val_labels : list path;
  split_train_dtms : py_seq path
}.

Definition split_fold (fold : nat) : T fold_split :=
  let train_ids :=
    map row_id (filter (fun r => negb (row_fold r =? fold)%nat)
                       training_paths_dataframe) in
  let images := get_numpy_file_paths_list "images" train_ids in
  let labels := get_numpy_file_paths_list "labels" train_ids in
  if use_dtms mist_args then
    let dtms := get_numpy_file_paths_list "dtms" train_ids in
    emit (call_train_test_split fold) ;;
    ' (tr_i, va_i, tr_ld, va_ld) <-
        train_test_split images (combine labels dtms)
          (val_percent mist_args) (seed_val mist_args) ;;
    ' (tr_l, tr_d) <- unpack_pairs tr_ld ;;
    ' (va_l, _) <- unpack_pairs va_ld ;;
    ret {| train_images := tr_i; val_images := va_i;
           train_labels := tr_l; val_labels := va_l;
           split_train_dtms := PyTuple tr_d |}
  else
    emit (call_train_test_split fold) ;;
    ' (tr_i, va_i, tr_l, va_l) <-
        train_test_split images labels
          (val_percent mist_args) (seed_val mist_args) ;;
    ret {| train_images := tr_i; val_images := va_i;
           train_labels := tr_l; val_labels := va_l;
           split_train_dtms := PyNone |}.

(** *** Lines 305-446 and 703: everything of a fold before its epoch loop *)

Definition boundary_losses : list string :=
  ["bl"%string; "hdl"%string; "gsl"%string].

Definition use_dtms_message : string :=
  ("For loss function '" ++ loss mist_args ++
   "', the --use-dtms flag must be enabled.")%string.

(** Lines 305-310 *)
Definition check_validation_size (sp : fold_split) (world_size : nat)
    : T unit :=
  if (List.length (val_images sp) <? world_size)%nat
  then raise (InsufficientValidationSetError
                (List.length (val_images sp)) world_size)
  else ret tt.

(** Lines 312-446 and 703 *)
Definition build_fold (rank world_size fold : nat) (sp : fold_split)
    : T unit :=
  vs <- floordiv (List.length (val_images sp)) world_size ;;
  _ <- floordiv (batch_size mist_args) world_size ;;
  emit (get_training_dataset fold) ;;
  modify (set_loader_position train_loader 0) ;;
  emit (get_validation_dataset fold) ;;
  modify (set_loader_position validation_loader 0) ;;
  spe <- gets steps_per_epoch ;;
  match spe with
  | None =>
      n <- floordiv (List.length (train_images sp)) (batch_size mist_args) ;;
      modify (set_steps_per_epoch (Some n))
  | Some n => modify (set_steps_per_epoch (Some n))
  end ;;
  emit get_loss ;;
  (if str_in (loss mist_args) boundary_losses then
     (if negb (use_dtms mist_args)
      then raise (ValueError use_dtms_message)
      else ret tt) ;;
     match isinstance_list (split_train_dtms sp) with
     | Some dtms =>
         if negb ((List.length (train_images sp)
                     =? List.length (train_labels sp))%nat
                  && (List.length (train_labels sp)
                        =? List.length dtms)%nat)
         then raise (ValueError "Mismatch in the number of training images, labels, and distance transforms.")
         else ret tt
     | None => ret tt
     end
   else ret tt) ;;
  (if negb (String.eqb (model mist_args) "pretrained")
   then emit get_model
   else emit configure_pretrained_model) ;;
  modify (set_model_weights (initial_weights fold)) ;;
  emit convert_sync_batchnorm ;;
  emit (model_to rank) ;;
  emit (wrap_DDP (String.eqb (model mist_args) "pretrained")) ;;
  emit get_optimizer ;;
  emit get_lr_schedule ;;
  (if amp mist_args then emit new_GradScaler else ret tt) ;;
  (if (rank =? 0)%nat then
     modify (set_rank0_scope
               (Some {| running_loss_train := RunningMean_new;
                        running_loss_validation := RunningMean_new;
                        best_validation_loss := Inf |})) ;;
     emit (new_SummaryWriter fold)
   else ret tt) ;;
  modify (set_fold_scope
            (Some {| fo_fold := fold; val_steps := vs;
                     train_dtms := split_train_dtms sp |})) ;;
  modify (set_patch_counter (Some 0)).

Definition prepare_fold (rank world_size fold : nat) : T unit :=
  sp <- split_fold fold ;;
  check_validation_size sp world_size ;;
  build_fold rank world_size fold sp.

(** *** Lines 706-746: the epoch loop of a fold and what follows it *)

(** [loader.next()[0]] *)
Definition next_batch (l : loader) (fold : nat) : T (batch tensor) :=
  emit (loader_next l) ;;
  s <- get ;;
  match l with
  | train_loader =>
      modify (set_loader_position l (S (train_loader_position s))) ;;
      ret (training_batch fold (train_loader_position s))
  | validation_loader =>
      modify (set_loader_position l (S (validation_loader_position s))) ;;
      ret (validation_batch fold (validation_loader_position s))
  end.

(** Lines 720-741, one pass through the body of the rank-0 step loop. *)
Definition dump_step (fold : nat) : T ctl :=
  pc <- read_local "patch_counter" patch_counter ;;
  if (50 <=? pc)%nat then ret Break
  else
    d <- next_batch train_loader fold ;;
    modify (set_data (Some d)) ;;
    let mylbl := label d in
    let myimg := image d in
    emit (console_print "myimg.shape") ;;
    _ <- pymod pc (shape myimg 0) ;;
    check_index 0 (shape myimg 1) ;;
    emit (image_write (myimage pc 0)) ;;
    (if (1 <? shape myimg 1)%nat then
       _ <- pymod pc (shape myimg 0) ;;
       emit (image_write (myimage pc 1))
     else ret tt) ;;
    _ <- pymod pc (shape mylbl 0) ;;
    check_index 0 (shape mylbl 1) ;;
    emit (image_write (mylabel pc)) ;;
    modify (set_patch_counter (Some (S pc))) ;;
    ret Continue.

(** [range(self.mist_arguments.steps_per_epoch)] *)
Definition range_steps_per_epoch : T nat :=
  spe <- gets steps_per_epoch ;;
  match spe with
  | Some n => ret n
  | None => raise (TypeError "'NoneType' object cannot be interpreted as an integer")
  end.

(** Lines 706-744, the body of [for epoch in range(epochs)]. *)
Definition epoch_body (rank fold e : nat) : T ctl :=
  modify (set_epoch (Some e)) ;;
  emit model_train ;;
  (if (rank =? 0)%nat then
     n <- range_steps_per_epoch ;;
     for_each (range n) (fun _ => dump_step fold)
   else ret tt) ;;
  pc <- read_local "patch_counter" patch_counter ;;
  if (50 <=? pc)%nat then ret Break else ret Continue.

Definition epoch_loop (rank fold : nat) : T unit :=
  for_each (range (epochs mist_args)) (epoch_body rank fold).

(** Lines 254-746, the body of [for fold in folds]. The debugger session
    that [ipdb.set_trace()] opens is taken to be resumed. *)
Definition fold_body (rank world_size fold : nat) : T unit :=
  prepare_fold rank world_size fold ;;
  epoch_loop rank fold ;;
  emit ipdb_set_trace.

(** *** Lines 448-701: [train_step] and [val_step] *)

(** [compute_loss()]: one forward pass, then the composite loss. *)
Definition forward_and_loss (x y : tensor) (d : option tensor)
    (alpha : option Q) : T Q :=
  emit model_forward ;;
  w <- gets model_weights ;;
  compute_loss mist_args loss_fn vae_loss_fn norm (parameters w)
               x y d alpha (forward w x).

Definition apply_optimizer (l : Q) : T unit :=
  modify (fun s => set_model_weights (optimizer_update (model_weights s) l) s).

Definition train_step (x y : tensor) (d : option tensor)
    (alpha : option Q) : T Q :=
  emit zero_grad ;;
  if amp mist_args then
    l <- forward_and_loss x y d alpha ;;
    emit (backward true) ;;
    (if clip_norm mist_args
     then emit scaler_unscale ;; emit clip_grad_norm
     else ret tt) ;;
    (* amp_gradient_scaler.step(optimizer) *)
    emit (optimizer_step true) ;;
    w <- gets model_weights ;;
    (if scaler_found_inf w l then ret tt else apply_optimizer l) ;;
    emit scaler_update ;;
    ret l
  else
    l <- forward_and_loss x y d alpha ;;
    emit (backward false) ;;
    (if clip_norm mist_args then emit clip_grad_norm else ret tt) ;;
    emit (optimizer_step false) ;;
    apply_optimizer l ;;
    ret l.

Definition val_step (x y : tensor) : T Q :=
  emit sliding_window ;;
  w <- gets model_weights ;;
  ret (validation_loss_fn y (sliding_window_inference w x)).

(** *** Lines 753-920: the statements after the fold loop

    These lines sit at the indentation of the body of [train], below the
    [for fold] loop. *)

(** Lines 753-774 (and again 796-807): choose the arguments of
    [train_step] from [data] and call it. *)
Definition call_train_step (e : nat) : T Q :=
  emit (alpha_schedule e) ;;
  let alpha := boundary_loss_weighting_schedule e in
  if use_dtms mist_args then
    b <- read_local "data" data ;;
    dt <- subscript "dtm" (dtm b) ;;
    _ <- read_local "train_step" fold_scope ;;
    train_step (image b) (label b) (Some dt) (Some alpha)
  else
    b <- read_local "data" data ;;
    _ <- read_local "train_step" fold_scope ;;
    if str_in (loss mist_args) ["cldice"%string]
    then train_step (image b) (label b) None (Some alpha)
    else train_step (image b) (label b) None None.

(** [loss.item() / world_size] *)
Definition average (l : Q) (world_size : nat) : T Q :=
  if (world_size =? 0)%nat then raise ZeroDivisionError
  else ret (l / inject_Z (Z.of_nat world_size))%Q.

(** [dist.reduce(loss, dst=0)] followed by the average over workers *)
Definition reduce_and_average (l : Q) (world_size : nat) : T Q :=
  emit dist_reduce ;;
  average (reduced l) world_size.

(** Lines 793-813 *)
Definition other_ranks_step : T ctl :=
  fo <- read_local "train_loader" fold_scope ;;
  b <- next_batch train_loader (fo_fold fo) ;;
  modify (set_data (Some b)) ;;
  e <- read_local "epoch" epoch ;;
  l <- call_train_step e ;;
  emit lr_scheduler_step ;;
  emit dist_reduce ;;
  ret Continue.

(** Lines 826-847 *)
Definition rank0_validation_step (world_size : nat) : T ctl :=
  fo <- read_local "validation_loader" fold_scope ;;
  b <- next_batch validation_loader (fo_fold fo) ;;
  modify (set_data (Some b)) ;;
  v <- val_step (image b) (label b) ;;
  current_val_loss <- reduce_and_average v world_size ;;
  r0 <- read_local "running_loss_validation" rank0_scope ;;
  let (m, mean) := RunningMean_call (running_loss_validation r0)
                                    current_val_loss in
  modify (set_rank0_scope
            (Some {| running_loss_train := running_loss_train r0;
                     running_loss_validation := m;
                     best_validation_loss := best_validation_loss r0 |})) ;;
  modify (set_running_val_loss (Some mean)) ;;
  _ <- read_local "pb" pb ;;
  emit progress_update ;;
  ret Continue.

(** Lines 849-873: keep the checkpoint if the validation mean improved. *)
Definition checkpoint_if_improved : T unit :=
  rv <- read_local "running_val_loss" running_val_loss ;;
  r0 <- read_local "best_validation_loss" rank0_scope ;;
  if lt_best rv (best_validation_loss r0) then
    emit (console_print "Validation loss IMPROVED") ;;
    modify (set_rank0_scope
              (Some {| running_loss_train := running_loss_train r0;
                       running_loss_validation := running_loss_validation r0;
                       best_validation_loss := Finite rv |})) ;;
    fo <- read_local "model" fold_scope ;;
    emit (torch_save (fo_fold fo))
  else
    emit (console_print "Validation loss did NOT improve").

(** Lines 877-886 *)
Definition other_ranks_validation_step : T ctl :=
  fo <- read_local "validation_loader" fold_scope ;;
  b <- next_batch validation_loader (fo_fold fo) ;;
  modify (set_data (Some b)) ;;
  _ <- val_step (image b) (label b) ;;
  emit dist_reduce ;;
  ret Continue.

Definition after_folds (rank world_size : nat) : T unit :=
  (* 753-774 *)
  e <- read_local "epoch" epoch ;;
  l <- call_train_step e ;;
  (* 777-789 *)
  _ <- read_local "learning_rate_scheduler" fold_scope ;;
  emit lr_scheduler_step ;;
  current_loss <- reduce_and_average l world_size ;;
  r0 <- read_local "running_loss_train" rank0_scope ;;
  let (m, running_loss) := RunningMean_call (running_loss_train r0)
                                            current_loss in
  modify (set_rank0_scope
            (Some {| running_loss_train := m;
                     running_loss_validation := running_loss_validation r0;
                     best_validation_loss := best_validation_loss r0 |})) ;;
  _ <- read_local "pb" pb ;;
  emit progress_update ;;
  (* 793-813 *)
  n <- range_steps_per_epoch ;;
  for_each (range n) (fun _ => other_ranks_step) ;;
  (* 816-819 *)
  emit dist_barrier ;;
  _ <- read_local "model" fold_scope ;;
  emit model_eval ;;
  (* 820-886 *)
  (if (rank =? 0)%nat then
     fo <- read_local "val_steps" fold_scope ;;
     modify (set_pb (Some tt)) ;;
     for_each (range (val_steps fo)) (fun _ => rank0_validation_step world_size) ;;
     checkpoint_if_improved
   else
     fo <- read_local "val_steps" fold_scope ;;
     for_each (range (val_steps fo)) (fun _ => other_ranks_validation_step)) ;;
  (* 889-890 *)
  _ <- read_local "train_loader" fold_scope ;;
  emit (loader_reset train_loader) ;;
  modify (set_loader_position train_loader 0) ;;
  emit (loader_reset validation_loader) ;;
  modify (set_loader_position validation_loader 0) ;;
  (* 894-909 *)
  (if (rank =? 0)%nat then
     _ <- read_local "running_val_loss" running_val_loss ;;
     _ <- read_local "writer" rank0_scope ;;
     e <- read_local "epoch" epoch ;;
     emit (writer_add_scalars (e + 1)) ;;
     emit writer_flush ;;
     r0 <- read_local "running_loss_train" rank0_scope ;;
     modify (set_rank0_scope
               (Some {| running_loss_train := RunningMean_new;
                        running_loss_validation := RunningMean_new;
                        best_validation_loss := best_validation_loss r0 |}))
   else ret tt) ;;
  (* 912-920 *)
  emit dist_barrier ;;
  (if (rank =? 0)%nat then
     _ <- read_local "writer" rank0_scope ;;
     emit writer_close
   else ret tt) ;;
  emit destroy_process_group.

(** *** [Trainer.train] *)

Definition train (rank world_size : nat) : T unit :=
  emit (init_process_group rank world_size) ;;
  emit (cuda_set_device rank) ;;
  (if (rank =? 0)%nat
   then emit (console_print "Starting training")
   else ret tt) ;;
  for_each (folds mist_args)
           (fun fold => fold_body rank world_size fold ;; ret Continue) ;;
  after_folds rank world_size.

(** *** Assertions on the log of calls

    [within ok n s0 s]: since [s0] the log has grown by calls that all
    satisfy [ok], at most [n] of them optimizer steps, and the local [pb]
    is as it was. *)
Definition within (ok : event -> bool) (n : nat) (s0 s : state) : Prop :=
  (exists added,
      trace s = trace s0 ++ added
      /\ forallb ok added = true
      /\ count_events is_optimizer_step added <= n)
  /\ pb s = pb s0.

(** Every training batch has at least one sample and one channel, in the
    image and in the label. *)
Definition well_shaped_batches : Prop :=
  forall fold pos,
    let b := training_batch fold pos in
    0 < shape (image b) 0 /\ 0 < shape (image b) 1
    /\ 0 < shape (label b) 0 /\ 0 < shape (label b) 1.

(** [dumped s s' batches started]: between [s] and [s'] the rank-0 loop
    logged only its own calls: [batches] batches were read and for each the
    first image channel and the label were written, and [started] epochs
    were begun; [steps_per_epoch] is unchanged. *)
Definition dumped (s s' : state) (batches started : nat) : Prop :=
  steps_per_epoch s' = steps_per_epoch s
  /\ exists added,
       trace s' = trace s ++ added
       /\ forallb dump_event added = true
       /\ count_events is_loader_next added = batches
       /\ count_events is_image_write added = batches
       /\ count_events is_label_write added = batches
       /\ count_events is_model_train added = started.

End Trainer.

Arguments initial_state {tensor path weights rng} g steps w.

End Run.

(** ** [preprocess_dataset] (preprocess.py) *)

Module Preprocess.

Inductive event : Type :=
| create_empty_dir (dir : string)
| console_print (text : string)
| get_progress_bar (title : string)
| read_fg_bboxes_csv
| convert_nifti_to_numpy (i : nat)
| preprocess_example (i : nat).

Section PreprocessDataset.

Variables patient bbox : Type.

(** [fg_bboxes.csv] as [pd.read_csv] returns it. *)
Variable fg_bboxes_csv : list bbox.

(** The keys of [config.json] and the attribute of [args] that decide the
    control flow of the patient loop. *)
Variable crop_to_fg : bool.
Variable no_preprocess : bool.

Record state : Type := {
  trace : list event;
  fg_bboxes : option (list bbox)     (* local variable of the function *)
}.

Definition emit (e : event) : M state unit :=
  modify (fun s => {| trace := trace s ++ [e]; fg_bboxes := fg_bboxes s |}).

Definition assign_fg_bboxes (t : list bbox) : M state unit :=
  modify (fun s => {| trace := trace s; fg_bboxes := Some t |}).

Local Open Scope py_scope.

(** [fg_bboxes.iloc[i]] *)
Definition iloc (t : list bbox) (i : nat) : M state bbox :=
  match nth_error t i with
  | Some b => ret b
  | None => raise IndexError
  end.

(** Lines 256-272, the body of the loop over the rows of [df]. *)
Definition patient_step (i : nat) : M state ctl :=
  if no_preprocess then
    emit (convert_nifti_to_numpy i) ;;
    ret Continue
  else
    (if crop_to_fg then
       emit read_fg_bboxes_csv ;;
       assign_fg_bboxes fg_bboxes_csv
     else ret tt) ;;
    t <- read_local "fg_bboxes" fg_bboxes ;;
    _ <- iloc t i ;;
    emit (preprocess_example i) ;;
    ret Continue.

(** Lines 238-272 of [preprocess_dataset], for a data frame [df]. *)
Definition preprocess_dataset (df : list patient) : M state unit :=
  emit (create_empty_dir "images") ;;
  emit (create_empty_dir "labels") ;;
  emit (console_print "Preprocessing dataset") ;;
  (if no_preprocess
   then emit (get_progress_bar "Converting nifti to npy")
   else emit (get_progress_bar "Preprocessing")) ;;
  for_each (range (List.length df)) patient_step.

(** The function is entered with no local bound. *)
Definition initial_state : state := {| trace := []; fg_bboxes := None |}.

(** An example was handled: converted or preprocessed. *)
Definition handles_example (e : event) : bool :=
  match e with
  | convert_nifti_to_numpy _ | preprocess_example _ => true
  | _ => false
  end.

End PreprocessDataset.

End Preprocess.

(** ** A concrete run-time environment

    Small stand-ins for the collaborators, used to run the model of the
    trainer on explicit inputs. *)

Module Demo.

Import Run.

Definition validate_shuffle_split (test_size : Q) (n : nat)
    : option (nat * nat) :=
  let n_test := Z.to_nat (Qceiling (test_size * inject_Z (Z.of_nat n))) in
  if (n <=? n_test)%nat then None else Some (n - n_test, n_test).

Definition ext : Ext.collaborators nat (string * nat) unit nat Z :=
  {| Ext.get_numpy_file_paths_list := fun folder ids => map (pair folder) ids;
     Ext.boundary_loss_weighting_schedule := fun _ => Qmake 1 2;
     Ext.RandomState := fun seed => seed;
     Ext.permutation := fun g n => (rev (seq 0 n), (g + 1)%Z);
     Ext.validate_shuffle_split := validate_shuffle_split;
     Ext.training_batch := fun fold pos =>
       {| image := pos; label := pos; dtm := None |};
     Ext.validation_batch := fun fold pos =>
       {| image := pos; label := pos; dtm := None |};
     Ext.shape := fun _ _ => 2;
     Ext.initial_weights := fun _ => 0;
     Ext.forward := fun _ x =>
       {| Loss.prediction := x; Loss.deep_supervision := None;
          Loss.vae_reg := None |};
     Ext.parameters := fun _ => [];
     Ext.loss_fn := fun _ => 1%Q;
     Ext.vae_loss_fn := fun _ _ => 0%Q;
     Ext.norm := fun _ _ => 0%Q;
     Ext.optimizer_update := fun w _ => S w;
     Ext.scaler_found_inf := fun _ _ => false;
     Ext.sliding_window_inference := fun _ x => x;
     Ext.validation_loss_fn := fun _ _ => Qmake 1 2;
     Ext.reduced := fun l => l |}.

(** Ten patients, two per fold. *)
Definition dataframe : list row :=
  map (fun i => {| row_id := i; row_fold := i mod 5 |}) (seq 0 10).

(** One fold, [epochs] epochs of [steps] steps each. *)
Definition arguments (epochs : nat) (loss : string) : mist_arguments :=
  {| folds := [0]; epochs := epochs; batch_size := 2;
     val_percent := Qmake 1 4; seed_val := Some 42%Z;
     use_dtms := false; loss := loss; model := "nnunet";
     amp := false; clip_norm := false;
     arg_deep_supervision := false; arg_vae_reg := false;
     vae_penalty := 0%Q; l2_reg := false; l2_penalty := 0%Q;
     l1_reg := false; l1_penalty := 0%Q |}.

Definition start (steps : option nat) : state nat (string * nat) nat Z :=
  initial_state 0%Z steps 0.

(** The split of fold 0: patients 0 and 5 are held out, the reversed order
    of the other eight puts 9 and 8 in the validation subset. *)
Definition split0 : fold_split (string * nat) :=
  {| train_images := map (pair "images"%string) [7; 6; 4; 3; 2; 1];
     val_images := map (pair "images"%string) [9; 8];
     train_labels := map (pair "labels"%string) [7; 6; 4; 3; 2; 1];
     val_labels := map (pair "labels"%string) [9; 8];
     split_train_dtms := PyNone |}.

Definition after_split0 (steps : option nat)
    : state nat (string * nat) nat Z :=
  set_trace [call_train_test_split 0] (start steps).

(** A loss function that returns the prediction it is given, and a model
    output with three auxiliary heads. *)
Definition loss_of_prediction (c : Loss.loss_call nat) : Q :=
  match c with
  | Loss.Call2 _ p | Loss.Call3 _ p _ | Loss.Call4 _ p _ _ =>
      inject_Z (Z.of_nat p)
  end.

Definition output_with_heads (heads : list nat) : Loss.model_output nat :=
  {| Loss.prediction := 3; Loss.deep_supervision := Some heads;
     Loss.vae_reg := None |}.

End Demo.

(** ** Further vocabulary for the trainer's log *)

Module RunAux.

Import Run.

(** The error of lines 374-382, named by the first sentence of its message. *)
Definition mismatch_message : string :=
  "Mismatch in the number of training images, labels, and distance transforms.".

Definition is_mismatch_error (e : exn) : bool :=
  match e with
  | ValueError m => String.eqb m mismatch_message
  | _ => false
  end.

Definition raises_mismatch {A} (r : result A) : bool :=
  match r with
  | Exc e => is_mismatch_error e
  | Val _ => false
  end.

(** The calls of a worker that neither reads data nor computes: joining
    the group, setting a fold up, switching the model to training mode,
    the debugger, and looking the alpha schedule up. *)
Definition idle_event (e : event) : bool :=
  match e with
  | init_process_group _ _ | cuda_set_device _
  | call_train_test_split _ | get_training_dataset _
  | get_validation_dataset _ | get_loss | get_model
  | configure_pretrained_model | convert_sync_batchnorm | model_to _
  | wrap_DDP _ | get_optimizer | get_lr_schedule | new_GradScaler
  | model_train | ipdb_set_trace | alpha_schedule _ => true
  | _ => false
  end.

End RunAux.

(** ** Further vocabulary for the composite loss *)

Module LossAux.

Import Loss.
Local Open Scope Q_scope.

Definition is_none {A} (o : option A) : bool :=
  match o with
  | None => true
  | Some _ => false
  end.

(** The key of the model output that a switched-on term needs and does not
    find, deep supervision before the VAE term. *)
Definition missing_key {tensor} (args : mist_arguments)
    (o : model_output tensor) : option string :=
  if arg_deep_supervision args && is_none (deep_supervision o)
  then Some "deep_supervision"%string
  else if arg_vae_reg args && is_none (vae_reg o)
       then Some "vae_reg"%string
       else None.

Definition heads_of {tensor} (o : model_output tensor) : list tensor :=
  match deep_supervision o with
  | Some heads => heads
  | None => []
  end.

(** The sum of the [p]-norms of the parameters. *)
Definition sum_norms {param} (norm : positive -> param -> Q) (p : positive)
    (ps : list param) : Q :=
  fold_right (fun th acc => norm p th + acc) 0 ps.

End LossAux.

(** ** [Trainer.__init__] and its helpers (run.py, lines 44-214) *)

Module Init.

(** Values as [json.load] returns them and as the argument parser hands
    them over. *)
#[local] Unset Elimination Schemes.
Inductive json : Type :=
| JNull
| JBool (b : bool)
| JNum (q : Q)
| JStr (s : string)
| JArr (l : list json)
| JObj (d : list (string * json)).
#[local] Set Elimination Schemes.

(** A Python [dict] with string keys, in insertion order. *)
Definition dict : Type := list (string * json).

Fixpoint dict_get (k : string) (d : dict) : option json :=
  match d with
  | [] => None
  | (k', v) :: rest => if String.eqb k k' then Some v else dict_get k rest
  end.

(** [d[k] = v]: replaces the value of a key that is there, appends a new
    key. *)
Fixpoint dict_set (k : string) (v : json) (d : dict) : dict :=
  match d with
  | [] => [(k, v)]
  | (k', v') :: rest =>
      if String.eqb k k' then (k, v) :: rest
      else (k', v') :: dict_set k v rest
  end.

(** [d.update(other)] *)
Definition dict_update (d other : dict) : dict :=
  fold_left (fun acc kv => dict_set (fst kv) (snd kv) acc) other d.

Inductive error : Type :=
| FileNotFoundError (msg : string)
| KeyError (key : string)
| TypeError (msg : string)
| AttributeError (msg : string)
| OtherError (name : string).

Inductive outcome (A : Type) : Type :=
| Ok (a : A)
| Err (e : error).
Arguments Ok {A} a.
Arguments Err {A} e.

(** A call of [utils.write_json_file]. *)
Definition write : Type := (string * json)%type.

(** Computations that log their writes. *)
Definition W (A : Type) : Type := list write -> outcome A * list write.

Definition wret {A} (a : A) : W A := fun w => (Ok a, w).

Definition wraise {A} (e : error) : W A := fun w => (Err e, w).

Definition wbind {A B} (m : W A) (f : A -> W B) : W B :=
  fun w => match m w with
           | (Ok a, w') => f a w'
           | (Err e, w') => (Err e, w')
           end.

Definition lift {A} (o : outcome A) : W A := fun w => (o, w).

(** [v[k]] *)
Definition getitem (v : json) (k : string) : outcome json :=
  match v with
  | JObj d => match dict_get k d with
              | Some x => Ok x
              | None => Err (KeyError k)
              end
  | _ => Err (TypeError "indices must be integers or the object is not subscriptable")
  end.

(** [v[k] = x] *)
Definition setitem (v : json) (k : string) (x : json) : outcome json :=
  match v with
  | JObj d => Ok (JObj (dict_set k x d))
  | _ => Err (TypeError "object does not support item assignment with a string key")
  end.

(** [v.update(other)] *)
Definition update (v : json) (other : dict) : outcome json :=
  match v with
  | JObj d => Ok (JObj (dict_update d other))
  | _ => Err (AttributeError "object has no attribute 'update'")
  end.

(** [len(v)]; a [dict] counts its keys. *)
Definition len (v : json) : outcome nat :=
  match v with
  | JArr l => Ok (List.length l)
  | JObj d => Ok (List.length (nodup string_dec (map fst d)))
  | JStr s => Ok (String.length s)
  | _ => Err (TypeError "object has no len()")
  end.

Definition of_nat (n : nat) : json := JNum (inject_Z (Z.of_nat n)).

(** The attributes of the user arguments that [__init__] reads. *)
Record arguments : Type := {
  data : string;
  results : string;
  model : string;
  patch_size : option json;
  deep_supervision : json;
  deep_supervision_heads : json;
  pocket : json;
  vae_reg : json;
  use_res_block : json;
  pretrained_model_path : string;
  use_config_class_weights : bool
}.

(** [self.file_paths] *)
Record file_paths : Type := {
  dataset_description_path : string;
  mist_configuration_path : string;
  model_configuration_path : string;
  training_paths_dataframe_path : string
}.

Section Trainer.

(** The file system and the readers of [utils] and pandas. *)
Variable dataframe : Type.
Variable path_join : list string -> string.
Variable path_exists : string -> bool.
Variable read_json_file : string -> outcome json.
Variable read_csv : string -> outcome dataframe.
Variable write_json_file : string -> json -> outcome unit.

(** [self.data_structures]; the model configuration comes last. *)
Record data_structures : Type := {
  dataset_description : json;
  mist_configuration : json;
  training_paths_dataframe : dataframe;
  model_configuration : option json
}.

Record trainer : Type := {
  mist_arguments : arguments;
  paths : file_paths;
  structures : data_structures;
  class_weights : option json
}.

Declare Scope w_scope.
Local Notation "x <- m ;; k" := (wbind m (fun x => k))
  (at level 61, m at next level, right associativity) : w_scope.
Local Notation "m ;; k" := (wbind m (fun _ => k))
  (at level 61, right associativity) : w_scope.
Local Open Scope w_scope.

(** Lines 88-101 *)
Definition _initialize_file_paths (args : arguments) : file_paths :=
  {| dataset_description_path := data args;
     mist_configuration_path := path_join [results args; "config.json"%string];
     model_configuration_path :=
       path_join [results args; "models"%string; "model_config.json"%string];
     training_paths_dataframe_path :=
       path_join [results args; "train_paths.csv"%string] |}.

(** Lines 115-116 *)
Definition require_file (file_path : string) : W unit :=
  if path_exists file_path then wret tt
  else wraise (FileNotFoundError ("File not found: " ++ file_path)).

(** Lines 103-131 *)
Definition _initialize_data_structures (fp : file_paths) : W data_structures :=
  require_file (dataset_description_path fp) ;;
  require_file (mist_configuration_path fp) ;;
  require_file (training_paths_dataframe_path fp) ;;
  dd <- lift (read_json_file (dataset_description_path fp)) ;;
  mc <- lift (read_json_file (mist_configuration_path fp)) ;;
  df <- lift (read_csv (training_paths_dataframe_path fp)) ;;
  wret {| dataset_description := dd; mist_configuration := mc;
          training_paths_dataframe := df; model_configuration := None |}.

Definition pretrained_model_config_path (args : arguments) : string :=
  path_join [pretrained_model_path args; "model_config.json"%string].

(** Lines 133-214 *)
Definition _create_model_configuration (args : arguments) (fp : file_paths)
    (ds : data_structures) : W data_structures :=
  images <- lift (getitem (dataset_description ds) "images") ;;
  number_of_channels <- lift (len images) ;;
  labels <- lift (getitem (dataset_description ds) "labels") ;;
  number_of_classes <- lift (len labels) ;;
  ds' <-
    (if negb (String.eqb (model args) "pretrained") then
       mc <- match patch_size args with
             | Some p => lift (setitem (mist_configuration ds) "patch_size" p)
             | None => wret (mist_configuration ds)
             end ;;
       ps <- lift (getitem mc "patch_size") ;;
       ts <- lift (getitem mc "target_spacing") ;;
       wret {| dataset_description := dataset_description ds;
               mist_configuration := mc;
               training_paths_dataframe := training_paths_dataframe ds;
               model_configuration :=
                 Some (JObj
                   [("model_name"%string, JStr (model args));
                    ("n_channels"%string, of_nat number_of_channels);
                    ("n_classes"%string, of_nat number_of_classes);
                    ("deep_supervision"%string, deep_supervision args);
                    ("deep_supervision_heads"%string,
                     deep_supervision_heads args);
                    ("pocket"%string, pocket args);
                    ("patch_size"%string, ps);
                    ("target_spacing"%string, ts);
                    ("vae_reg"%string, vae_reg args);
                    ("use_res_block"%string, use_res_block args)]) |}
     else
       (if path_exists (pretrained_model_config_path args) then wret tt
        else wraise (FileNotFoundError
                       ("Pretrained model configuration file not found: "
                        ++ pretrained_model_config_path args))) ;;
       loaded <- lift (read_json_file (pretrained_model_config_path args)) ;;
       cfg <- lift (update loaded
                      [("n_channels"%string, of_nat number_of_channels);
                       ("n_classes"%string, of_nat number_of_classes)]) ;;
       ps <- lift (getitem cfg "patch_size") ;;
       mc <- lift (setitem (mist_configuration ds) "patch_size" ps) ;;
       wret {| dataset_description := dataset_description ds;
               mist_configuration := mc;
               training_paths_dataframe := training_paths_dataframe ds;
               model_configuration := Some cfg |}) ;;
  match model_configuration ds' with
  | Some cfg =>
      (fun w => (write_json_file (model_configuration_path fp) cfg,
                 w ++ [(model_configuration_path fp, cfg)])) ;;
      wret ds'
  | None => wraise (KeyError "model_configuration")
  end.

(** Lines 44-86, up to the class weights; the alpha schedule and the fixed
    loss functions that follow are objects of other modules. *)
Definition init (args : arguments) : W trainer :=
  let fp := _initialize_file_paths args in
  ds <- _initialize_data_structures fp ;;
  ds <- _create_model_configuration args fp ds ;;
  cw <- (if use_config_class_weights args
         then x <- lift (getitem (mist_configuration ds) "class_weights") ;;
              wret (Some x)
         else wret None) ;;
  wret {| mist_arguments := args; paths := fp; structures := ds;
          class_weights := cw |}.

End Trainer.

End Init.

(** ** Further concrete inputs *)

Module DemoMore.

Import Run.

(** The arguments of [Demo] with distance maps in use. *)
Definition arguments_with_dtms : mist_arguments :=
  {| folds := [0]; epochs := 1; batch_size := 2;
     val_percent := Qmake 1 4; seed_val := Some 42%Z;
     use_dtms := true; loss := "bl"; model := "nnunet";
     amp := false; clip_norm := false;
     arg_deep_supervision := false; arg_vae_reg := false;
     vae_penalty := 0%Q; l2_reg := false; l2_penalty := 0%Q;
     l1_reg := false; l1_penalty := 0%Q |}.

(** A boundary loss without distance maps, and no batch size. *)
Definition arguments_bl_batch0 : mist_arguments :=
  {| folds := [0]; epochs := 1; batch_size := 0;
     val_percent := Qmake 1 4; seed_val := Some 42%Z;
     use_dtms := false; loss := "bl"; model := "nnunet";
     amp := false; clip_norm := false;
     arg_deep_supervision := false; arg_vae_reg := false;
     vae_penalty := 0%Q; l2_reg := false; l2_penalty := 0%Q;
     l1_reg := false; l1_penalty := 0%Q |}.

(** Mixed precision with clipping, and a scaler that finds an overflow on
    every step. *)
Definition arguments_amp : mist_arguments :=
  {| folds := [0]; epochs := 1; batch_size := 2;
     val_percent := Qmake 1 4; seed_val := Some 42%Z;
     use_dtms := false; loss := "dice_ce"; model := "nnunet";
     amp := true; clip_norm := true;
     arg_deep_supervision := false; arg_vae_reg := false;
     vae_penalty := 0%Q; l2_reg := false; l2_penalty := 0%Q;
     l1_reg := false; l1_penalty := 0%Q |}.

Definition ext_overflow : Ext.collaborators nat (string * nat) unit nat Z :=
  {| Ext.get_numpy_file_paths_list := Ext.get_numpy_file_paths_list Demo.ext;
     Ext.boundary_loss_weighting_schedule :=
       Ext.boundary_loss_weighting_schedule Demo.ext;
     Ext.RandomState := Ext.RandomState Demo.ext;
     Ext.permutation := Ext.permutation Demo.ext;
     Ext.validate_shuffle_split := Ext.validate_shuffle_split Demo.ext;
     Ext.training_batch := Ext.training_batch Demo.ext;
     Ext.validation_batch := Ext.validation_batch Demo.ext;
     Ext.shape := Ext.shape Demo.ext;
     Ext.initial_weights := Ext.initial_weights Demo.ext;
     Ext.forward := Ext.forward Demo.ext;
     Ext.parameters := Ext.parameters Demo.ext;
     Ext.loss_fn := Ext.loss_fn Demo.ext;
     Ext.vae_loss_fn := Ext.vae_loss_fn Demo.ext;
     Ext.norm := Ext.norm Demo.ext;
     Ext.optimizer_update := Ext.optimizer_update Demo.ext;
     Ext.scaler_found_inf := fun _ _ => true;
     Ext.sliding_window_inference := Ext.sliding_window_inference Demo.ext;
     Ext.validation_loss_fn := Ext.validation_loss_fn Demo.ext;
     Ext.reduced := Ext.reduced Demo.ext |}.

(** The end of a validation pass on rank 0 with mean loss 1/2 and no
    checkpoint yet. *)
Definition after_validation : state nat (string * nat) nat Z :=
  set_running_val_loss (Some (Qmake 1 2))
    (set_rank0_scope
       (Some {| running_loss_train := RunningMean_new;
                running_loss_validation := RunningMean_new;
                best_validation_loss := Inf |})
       (set_fold_scope
          (Some {| fo_fold := 0; val_steps := 1; train_dtms := PyNone |})
          (Demo.start (Some 2)))).

(** *** A file system for [Trainer.__init__] *)

Import Init.

Definition path_join (parts : list string) : string := String.concat "/" parts.

Definition num (n : nat) : json := of_nat n.

Definition json_files : list (string * json) :=
  [("data.json"%string,
    JObj [("images"%string,
           JObj [("t1"%string, JArr [JStr "t1.nii.gz"]);
                 ("t2"%string, JArr [JStr "t2.nii.gz"])]);
          ("labels"%string, JArr [num 0; num 1; num 2])]);
   ("results/config.json"%string,
    JObj [("patch_size"%string, JArr [num 64; num 64; num 64]);
          ("target_spacing"%string, JArr [num 1; num 1; num 1]);
          ("class_weights"%string, JNull)]);
   ("pretrained/model_config.json"%string,
    JObj [("model_name"%string, JStr "nnunet");
          ("n_channels"%string, num 4);
          ("n_classes"%string, num 5);
          ("patch_size"%string, JArr [num 96; num 96; num 96]);
          ("pocket"%string, JBool true)])].

Definition path_exists (p : string) : bool :=
  existsb (String.eqb p)
    ("results/train_paths.csv"%string :: map fst json_files).

Definition read_json_file (p : string) : outcome json :=
  match dict_get p json_files with
  | Some v => Ok v
  | None => Err (FileNotFoundError p)
  end.

Definition read_csv (p : string) : outcome (list string) :=
  Ok ["patient_0"%string; "patient_1"%string].

Definition write_json_file (p : string) (v : json) : outcome unit := Ok tt.

(** A new model with a patch size given on the command line, and a
    pretrained one. *)
Definition new_model : arguments :=
  {| data := "data.json"; results := "results"; model := "nnunet";
     patch_size := Some (JArr [num 128; num 128; num 128]);
     deep_supervision := JBool false; deep_supervision_heads := num 2;
     pocket := JBool false; vae_reg := JBool false;
     use_res_block := JBool false; pretrained_model_path := "";
     use_config_class_weights := false |}.

Definition pretrained_model : arguments :=
  {| data := "data.json"; results := "results"; model := "pretrained";
     patch_size := Some (JArr [num 128; num 128; num 128]);
     deep_supervision := JBool false; deep_supervision_heads := num 2;
     pocket := JBool false; vae_reg := JBool false;
     use_res_block := JBool false; pretrained_model_path := "pretrained";
     use_config_class_weights := false |}.

Definition init (args : arguments) : W (trainer (list string)) :=
  Init.init path_join path_exists read_json_file read_csv write_json_file
    args.

(** The same with [train_paths.csv] missing. *)
Definition path_exists_without_csv (p : string) : bool :=
  existsb (String.eqb p) (map fst json_files).

End DemoMore.

(** * Properties *)

Unset Implicit Arguments.

(** ** The composite loss *)

Module LossFacts.

Import Loss.
Local Open Scope Q_scope.

Lemma half_pow_S (n : nat) : half_pow (S n) == (1 # 2) * half_pow n.
Proof.
  unfold half_pow. rewrite Nat2Z.inj_succ. unfold Z.succ.
  rewrite Qpower_plus by discriminate. rewrite Qpower_1_r. ring.
Qed.

Lemma half_pow_pos (n : nat) : 0 < half_pow n.
Proof. apply Qpower_0_lt. reflexivity. Qed.

Lemma half_pow_le_1 (n : nat) : half_pow n <= 1.
Proof.
  induction n as [|n IH].
  - discriminate.
  - rewrite half_pow_S. pose proof (half_pow_pos n) as Hp.
    apply Qle_trans with (half_pow n); [|exact IH].
    setoid_replace (half_pow n) with ((1 # 2) * half_pow n + (1 # 2) * half_pow n) at 2 by ring.
    rewrite <- (Qplus_0_r ((1 # 2) * half_pow n)) at 1.
    apply Qplus_le_r. apply Qmult_le_0_compat; [discriminate|].
    apply Qlt_le_weak, Hp.
Qed.

(** [2 ** -n] is [0.5 ** n]. *)
Lemma pow2_neg (n : nat) : Qpower 2 (- Z.of_nat n) == half_pow n.
Proof.
  unfold half_pow. rewrite Qpower_opp, <- Qinv_power.
  apply Qpower_comp; reflexivity.
Qed.

Lemma c_norm_half_pow (n : nat) : c_norm n == 1 / (2 - half_pow (S n)).
Proof.
  unfold c_norm.
  replace (- (Z.of_nat n + 1))%Z with (- Z.of_nat (S n))%Z by lia.
  rewrite pow2_neg. reflexivity.
Qed.

Lemma c_norm_denominator_pos (n : nat) : 0 < 2 - half_pow (S n).
Proof.
  pose proof (half_pow_le_1 (S n)) as H.
  apply Qlt_le_trans with (2 - 1); [reflexivity|].
  apply Qplus_le_r. apply Qopp_le_compat. exact H.
Qed.

Lemma head_sum_ext (H : nat) (L L' : nat -> Q) :
  (forall k, (k < H)%nat -> L k == L' k) -> head_sum H L == head_sum H L'.
Proof.
  induction H as [|h IH]; intros E; simpl.
  - reflexivity.
  - rewrite IH by (intros; apply E; lia). rewrite (E h) by lia. reflexivity.
Qed.

(** The geometric sum of the head weights. *)
Lemma head_sum_ones (H : nat) : head_sum H (fun _ => 1) == 1 - half_pow H.
Proof.
  induction H as [|h IH]; simpl.
  - reflexivity.
  - rewrite IH. replace (h + 1)%nat with (S h) by lia.
    rewrite half_pow_S. ring.
Qed.

Section Loop.

Variable tensor : Type.
Variable args : mist_arguments.
Variable loss_fn : loss_call tensor -> Q.
Variables (label : tensor) (dtm : option tensor) (alpha : option Q).

Local Abbreviation call := (fun p => call_loss args loss_fn label p dtm alpha).
Local Abbreviation loop := (deep_supervision_loop args loss_fn label dtm alpha).

Lemma deep_supervision_loop_snoc (heads : list tensor) (p : tensor) :
  forall k acc,
    loop k (heads ++ [p]) acc
    = loop k heads acc + half_pow (k + List.length heads + 1) * call p.
Proof.
  induction heads as [|h hs IH]; intros k acc; simpl.
  - replace (k + 0 + 1)%nat with (k + 1)%nat by lia. reflexivity.
  - rewrite IH.
    replace (S k + List.length hs + 1)%nat
      with (k + S (List.length hs) + 1)%nat by lia.
    reflexivity.
Qed.

(** The loop adds to the primary term what the specification's sum adds. *)
Lemma deep_supervision_loop_head_sum (d : tensor) (heads : list tensor) (l0 : Q) :
  loop 0%nat heads l0
  == l0 + head_sum (List.length heads) (fun k => call (nth k heads d)).
Proof.
  induction heads as [|p hs IH] using rev_ind.
  - simpl. ring.
  - rewrite deep_supervision_loop_snoc, IH.
    rewrite length_app. simpl List.length.
    replace (List.length hs + 1)%nat with (S (List.length hs)) by lia.
    simpl head_sum.
    rewrite (head_sum_ext (List.length hs)
               (fun k => call (nth k (hs ++ [p]) d))
               (fun k => call (nth k hs d))).
    + rewrite app_nth2 by lia. rewrite Nat.sub_diag. simpl nth.
      replace (0 + List.length hs + 1)%nat with (List.length hs + 1)%nat by lia.
      ring.
    + intros k Hk. rewrite app_nth1 by exact Hk. reflexivity.
Qed.

(** What [supervised_loss] returns when deep supervision is on. *)
Lemma supervised_loss_value (S : Type) (s : S) (output : model_output tensor)
    (heads : list tensor) :
  arg_deep_supervision args = true ->
  deep_supervision output = Some heads ->
  supervised_loss args loss_fn label dtm alpha output s
  = (Val (loop 0%nat heads (call (prediction output))
          * c_norm (List.length heads)), s).
Proof.
  intros Hds Hheads. unfold supervised_loss. rewrite Hds, Hheads. reflexivity.
Qed.

End Loop.

(** C2. With deep supervision enabled and [H] auxiliary heads, the loss
    before the VAE and parameter-norm terms is
    [(L0 + sum_{k<H} 0.5^(k+1) * L_k) * 1 / (2 - 2^-(H+1))], where [L0] is
    the loss of the primary prediction and [L_k] the loss of head [k]. *)
Theorem supervised_loss_normalized (tensor S : Type) (args : mist_arguments)
    (loss_fn : loss_call tensor -> Q) (label : tensor) (dtm : option tensor)
    (alpha : option Q) (output : model_output tensor) (heads : list tensor)
    (s : S) :
  arg_deep_supervision args = true ->
  deep_supervision output = Some heads ->
  let H := List.length heads in
  let L0 := call_loss args loss_fn label (prediction output) dtm alpha in
  let L := fun k => call_loss args loss_fn label
                      (nth k heads (prediction output)) dtm alpha in
  exists total,
    supervised_loss args loss_fn label dtm alpha output s = (Val total, s)
    /\ total == (L0 + head_sum H L) * (1 / (2 - Qpower 2 (- (Z.of_nat H + 1)))).
Proof.
  intros Hds Hheads H L0 L.
  eexists. split.
  - apply supervised_loss_value; eassumption.
  - rewrite (deep_supervision_loop_head_sum tensor args loss_fn label dtm alpha
               (prediction output) heads).
    reflexivity.
Qed.

(** The loss is the supervised loss plus the VAE and parameter-norm terms
    that are switched on. *)
Lemma compute_loss_plain (tensor param S : Type) (args : mist_arguments)
    (loss_fn : loss_call tensor -> Q) (vae_loss_fn : tensor -> tensor -> Q)
    (norm : positive -> param -> Q) (parameters : list param)
    (x label : tensor) (dtm : option tensor) (alpha : option Q)
    (output : model_output tensor) (s : S) :
  arg_vae_reg args = false -> l2_reg args = false -> l1_reg args = false ->
  compute_loss args loss_fn vae_loss_fn norm parameters x label dtm alpha output s
  = supervised_loss args loss_fn label dtm alpha output s.
Proof.
  intros Hv H2 H1. unfold compute_loss, bind. rewrite Hv, H2, H1.
  destruct (supervised_loss args loss_fn label dtm alpha output s) as [[v|e] s'];
    reflexivity.
Qed.

Lemma effective_total_weight_unfold (H : nat) :
  effective_total_weight H
  = Val (deep_supervision_loop (with_deep_supervision true default_arguments)
           (fun _ : loss_call unit => 1) tt None None 0 (repeat tt H) 1
         * c_norm H).
Proof.
  unfold effective_total_weight.
  rewrite (supervised_loss_value _ _ _ _ _ _ _ _ _ (repeat tt H));
    [|reflexivity|reflexivity].
  simpl fst. rewrite repeat_length. reflexivity.
Qed.

Lemma weight_sum_closed (H : nat) : weight_sum H == 2 - half_pow H.
Proof. unfold weight_sum. rewrite head_sum_ones. ring. Qed.

(** C3, as the code has it. The weights (1 for the primary term, [0.5^(k+1)]
    for head [k < H]) sum to [2 - 2^-H]; after the rescaling by
    [c = 1 / (2 - 2^-(H+1))] a loss value common to all terms is weighted by
    [(2 - 2^-H) / (2 - 2^-(H+1))], which is below 1 for every [H]. *)
Theorem effective_total_weight_below_one (H : nat) :
  weight_sum H == 2 - Qpower 2 (- Z.of_nat H)
  /\ exists w,
       effective_total_weight H = Val w
       /\ w == (2 - Qpower 2 (- Z.of_nat H))
               / (2 - Qpower 2 (- (Z.of_nat H + 1)))
       /\ w < 1.
Proof.
  split.
  - rewrite pow2_neg. apply weight_sum_closed.
  - eexists. split; [apply effective_total_weight_unfold|].
    assert (E : deep_supervision_loop (with_deep_supervision true default_arguments)
                  (fun _ : loss_call unit => 1) tt None None 0 (repeat tt H) 1
                == 2 - half_pow H).
    { rewrite (deep_supervision_loop_head_sum _ _ _ _ _ _ tt).
      rewrite repeat_length. unfold call_loss. simpl.
      rewrite head_sum_ones. ring. }
    pose proof (c_norm_denominator_pos H) as Hd.
    pose proof (half_pow_pos H) as Hp.
    replace (- (Z.of_nat H + 1))%Z with (- Z.of_nat (S H))%Z by lia.
    rewrite !pow2_neg, E, c_norm_half_pow.
    split.
    + field. intros Hz. rewrite Hz in Hd. discriminate.
    + setoid_replace ((2 - half_pow H) * (1 / (2 - half_pow (S H))))
        with ((2 - half_pow H) / (2 - half_pow (S H)))
        by (field; intros Hz; rewrite Hz in Hd; discriminate).
      apply Qlt_shift_div_r; [exact Hd|].
      rewrite half_pow_S.
      setoid_replace (1 * (2 - (1 # 2) * half_pow H))
        with ((2 - half_pow H) + (1 # 2) * half_pow H) by ring.
      rewrite <- (Qplus_0_r (2 - half_pow H)) at 1.
      apply Qplus_lt_r.
      setoid_replace 0 with ((1 # 2) * 0) by ring.
      apply Qmult_lt_l; [reflexivity|exact Hp].
Qed.

End LossFacts.

(** ** Rules for triples *)

Module PyFacts.

Section Rules.

Context {S : Type}.

Lemma hoare_conseq {A} (P P' : S -> Prop) (m : M S A)
    (Qv Qv' : A -> S -> Prop) (Qe Qe' : exn -> S -> Prop) :
  hoare P' m Qv' Qe' ->
  (forall s, P s -> P' s) ->
  (forall a s, Qv' a s -> Qv a s) ->
  (forall e s, Qe' e s -> Qe e s) ->
  hoare P m Qv Qe.
Proof.
  intros H HP HQv HQe s Hs. specialize (H s (HP s Hs)).
  destruct (m s) as [[a|e] s']; auto.
Qed.

Lemma hoare_bind {A B} (P : S -> Prop) (m : M S A) (R : A -> S -> Prop)
    (f : A -> M S B) (Qv : B -> S -> Prop) (Qe : exn -> S -> Prop) :
  hoare P m R Qe ->
  (forall a, hoare (R a) (f a) Qv Qe) ->
  hoare P (bind m f) Qv Qe.
Proof.
  intros Hm Hf s Hs. unfold bind. specialize (Hm s Hs).
  destruct (m s) as [[a|e] s']; [apply (Hf a s' Hm)|exact Hm].
Qed.

(** Nothing needs to be shown of code that cannot be reached. *)
Lemma hoare_unreachable {A} (m : M S A) (Qv : A -> S -> Prop)
    (Qe : exn -> S -> Prop) :
  hoare (fun _ => False) m Qv Qe.
Proof. intros s []. Qed.

Lemma inv_bind {A B} (I : S -> Prop) (m : M S A) (f : A -> M S B) :
  inv I m -> (forall a, inv I (f a)) -> inv I (bind m f).
Proof. intros Hm Hf. eapply hoare_bind; [exact Hm|exact Hf]. Qed.

(** A prefix that keeps [I], followed by code specified from [I]. *)
Lemma hoare_after_inv {A B} (I : S -> Prop) (m : M S A) (f : A -> M S B)
    (Qv : B -> S -> Prop) (Qe : exn -> S -> Prop) :
  inv I m ->
  (forall e s, I s -> Qe e s) ->
  (forall a, hoare I (f a) Qv Qe) ->
  hoare I (bind m f) Qv Qe.
Proof.
  intros Hm HQe Hf. eapply hoare_bind; [|exact Hf].
  eapply hoare_conseq; [exact Hm| | |]; simpl; auto.
Qed.

Lemma inv_ret {A} (I : S -> Prop) (a : A) : inv I (ret a).
Proof. intros s Hs. exact Hs. Qed.

Lemma inv_raise {A} (I : S -> Prop) (e : exn) : inv I (@raise S A e).
Proof. intros s Hs. exact Hs. Qed.

Lemma inv_get (I : S -> Prop) : inv I get.
Proof. intros s Hs. exact Hs. Qed.

Lemma inv_gets {A} (I : S -> Prop) (f : S -> A) : inv I (gets f).
Proof. intros s Hs. exact Hs. Qed.

Lemma inv_modify (I : S -> Prop) (f : S -> S) :
  (forall s, I s -> I (f s)) -> inv I (modify f).
Proof. intros H s Hs. apply H, Hs. Qed.

Lemma inv_read_local {A} (I : S -> Prop) (name : string) (f : S -> option A) :
  inv I (read_local name f).
Proof. intros s Hs. unfold read_local. destruct (f s); exact Hs. Qed.

Lemma inv_subscript {A} (I : S -> Prop) (key : string) (o : option A) :
  inv I (subscript key o).
Proof. destruct o; [apply inv_ret|apply inv_raise]. Qed.

Lemma inv_floordiv (I : S -> Prop) (a b : nat) : inv I (floordiv a b).
Proof. unfold floordiv. destruct (b =? 0)%nat; [apply inv_raise|apply inv_ret]. Qed.

Lemma inv_pymod (I : S -> Prop) (a b : nat) : inv I (pymod a b).
Proof. unfold pymod. destruct (b =? 0)%nat; [apply inv_raise|apply inv_ret]. Qed.

Lemma inv_check_index (I : S -> Prop) (i n : nat) : inv I (check_index i n).
Proof. unfold check_index. destruct (i <? n)%nat; [apply inv_ret|apply inv_raise]. Qed.

Lemma inv_for_each {A} (I : S -> Prop) (xs : list A) (body : A -> M S ctl) :
  (forall x, inv I (body x)) -> inv I (for_each xs body).
Proof.
  intros Hb. induction xs as [|x rest IH]; simpl.
  - apply inv_ret.
  - apply inv_bind; [apply Hb|]. intros [|]; [exact IH|apply inv_ret].
Qed.

Lemma inv_True {A} (m : M S A) : inv (fun _ => True) m.
Proof. intros s _. destruct (m s) as [[a|e] s']; exact I. Qed.

(** What an invariant says about a run. *)
Lemma inv_run {A} (I : S -> Prop) (m : M S A) (s : S) :
  inv I m -> I s -> I (snd (m s)).
Proof.
  intros H Hs. specialize (H s Hs). destruct (m s) as [[a|e] s']; exact H.
Qed.

(** *** Which exceptions a computation can raise *)

Lemma never_raises_bind {A B} (bad : exn -> bool) (m : M S A) (f : A -> M S B) :
  never_raises bad m -> (forall a, never_raises bad (f a)) ->
  never_raises bad (bind m f).
Proof.
  intros Hm Hf. eapply hoare_bind; [exact Hm|].
  intros a s _. apply (Hf a s I).
Qed.

Lemma never_raises_ret {A} (bad : exn -> bool) (a : A) :
  never_raises bad (@ret S A a).
Proof. intros s _. exact I. Qed.

Lemma never_raises_raise {A} (bad : exn -> bool) (e : exn) :
  bad e = false -> never_raises bad (@raise S A e).
Proof. intros H s _. exact H. Qed.

Lemma never_raises_get (bad : exn -> bool) : never_raises bad (@get S).
Proof. intros s _. exact I. Qed.

Lemma never_raises_gets {A} (bad : exn -> bool) (f : S -> A) :
  never_raises bad (gets f).
Proof. intros s _. exact I. Qed.

Lemma never_raises_modify (bad : exn -> bool) (f : S -> S) :
  never_raises bad (modify f).
Proof. intros s _. exact I. Qed.

Lemma never_raises_read_local {A} (bad : exn -> bool) (name : string)
    (f : S -> option A) :
  bad (UnboundLocalError name) = false -> never_raises bad (read_local name f).
Proof. intros H s _. unfold read_local. destruct (f s); [exact I|exact H]. Qed.

Lemma never_raises_subscript {A} (bad : exn -> bool) (key : string)
    (o : option A) :
  bad (KeyError key) = false -> never_raises bad (@subscript S A key o).
Proof.
  intros H. destruct o; [apply never_raises_ret|apply never_raises_raise, H].
Qed.

Lemma never_raises_floordiv (bad : exn -> bool) (a b : nat) :
  bad ZeroDivisionError = false -> never_raises bad (@floordiv S a b).
Proof.
  intros H. unfold floordiv.
  destruct (b =? 0)%nat; [apply never_raises_raise, H|apply never_raises_ret].
Qed.

Lemma never_raises_pymod (bad : exn -> bool) (a b : nat) :
  bad ZeroDivisionError = false -> never_raises bad (@pymod S a b).
Proof.
  intros H. unfold pymod.
  destruct (b =? 0)%nat; [apply never_raises_raise, H|apply never_raises_ret].
Qed.

Lemma never_raises_check_index (bad : exn -> bool) (i n : nat) :
  bad IndexError = false -> never_raises bad (@check_index S i n).
Proof.
  intros H. unfold check_index.
  destruct (i <? n)%nat; [apply never_raises_ret|apply never_raises_raise, H].
Qed.

Lemma never_raises_for_each {A} (bad : exn -> bool) (xs : list A)
    (body : A -> M S ctl) :
  (forall x, never_raises bad (body x)) -> never_raises bad (for_each xs body).
Proof.
  intros Hb. induction xs as [|x rest IH]; simpl.
  - apply never_raises_ret.
  - apply never_raises_bind; [apply Hb|].
    intros [|]; [exact IH|apply never_raises_ret].
Qed.

Lemma never_raises_run {A} (bad : exn -> bool) (m : M S A) (s : S) (e : exn) :
  never_raises bad m -> fst (m s) = Exc e -> bad e = false.
Proof.
  intros H Hr. specialize (H s I).
  destruct (m s) as [[a|e'] s']; simpl in Hr; [discriminate|].
  injection Hr as <-. exact H.
Qed.

End Rules.

End PyFacts.

(** ** The trainer *)

Module RunFacts.

Import Run PyFacts.

Create HintDb run_defs discriminated.

#[export] Hint Unfold
  split_fold check_validation_size build_fold prepare_fold train_test_split unpack_pairs next_batch dump_step
  epoch_body epoch_loop fold_body range_steps_per_epoch forward_and_loss
  apply_optimizer train_step val_step call_train_step average
  reduce_and_average other_ranks_step rank0_validation_step
  checkpoint_if_improved other_ranks_validation_step
  Loss.compute_loss Loss.supervised_loss : run_defs.

Lemma count_events_app (p : event -> bool) (l1 l2 : list event) :
  count_events p (l1 ++ l2) = count_events p l1 + count_events p l2.
Proof. unfold count_events. rewrite filter_app, length_app. reflexivity. Qed.

Lemma fold_event_not_training_step (e : event) :
  fold_event e = true -> training_step_event e = false.
Proof. destruct e as [| | | | | | | | | | | | | | | | |[|]| | | | | | | | | | | | | | | | | | | | | |]; simpl; congruence. Qed.

Lemma forallb_not_in (ok : event -> bool) (l : list event) (e : event) :
  forallb ok l = true -> ok e = false -> ~ In e l.
Proof.
  intros Hl He Hin. rewrite forallb_forall in Hl.
  specialize (Hl e Hin). congruence.
Qed.

Lemma forallb_count_zero (ok p : event -> bool) (l : list event) :
  (forall e, ok e = true -> p e = false) ->
  forallb ok l = true -> count_events p l = 0.
Proof.
  intros H. induction l as [|e l IH]; simpl; intros Hl; [reflexivity|].
  apply andb_prop in Hl. destruct Hl as [He Hl].
  unfold count_events in *. simpl. rewrite (H e He). apply IH, Hl.
Qed.

Section Trainer.

Variables tensor path param weights rng : Type.
Variable ext : Ext.collaborators tensor path param weights rng.
Variable mist_args : mist_arguments.
Variable training_paths_dataframe : list row.

Local Abbreviation state := (Run.state tensor path weights rng).

(** *** [within] along a run *)

Lemma within_refl (ok : event -> bool) (n : nat) (s : state) : within ok n s s.
Proof.
  split; [|reflexivity]. exists []. rewrite app_nil_r.
  repeat split. apply Nat.le_0_l.
Qed.

Lemma within_weaken (ok : event -> bool) (n n' : nat) (s0 s : state) :
  n <= n' -> within ok n s0 s -> within ok n' s0 s.
Proof.
  intros Hn [[added [Ht [Hok Hc]]] Hpb]. split; [|exact Hpb].
  exists added. repeat split; auto. lia.
Qed.

Lemma within_emit (ok : event -> bool) (n : nat) (s0 : state) (e : event) :
  ok e = true -> is_optimizer_step e = false ->
  inv (within ok n s0) (emit e).
Proof.
  intros Hok Hno s [[added [Ht [Hadd Hc]]] Hpb]. simpl.
  split; [|exact Hpb]. exists (added ++ [e]). repeat split.
  - rewrite Ht, app_assoc. reflexivity.
  - rewrite forallb_app, Hadd. simpl. rewrite Hok. reflexivity.
  - rewrite count_events_app. unfold count_events at 2. simpl.
    rewrite Hno. simpl. lia.
Qed.

Lemma within_optimizer_step (ok : event -> bool) (s0 : state) (b : bool) :
  ok (optimizer_step b) = true ->
  hoare (within ok 0 s0) (emit (optimizer_step b))
        (fun _ => within ok 1 s0) (fun _ => within ok 1 s0).
Proof.
  intros Hok s [[added [Ht [Hadd Hc]]] Hpb]. simpl.
  split; [|exact Hpb]. exists (added ++ [optimizer_step b]). repeat split.
  - rewrite Ht, app_assoc. reflexivity.
  - rewrite forallb_app, Hadd. simpl. rewrite Hok. reflexivity.
  - rewrite count_events_app. unfold count_events at 2. simpl. lia.
Qed.

(** Assignments that touch neither the log nor [pb]. *)
Lemma within_frame (ok : event -> bool) (n : nat) (s0 : state)
    (f : state -> state) :
  (forall s, trace (f s) = trace s) -> (forall s, pb (f s) = pb s) ->
  inv (within ok n s0) (modify f).
Proof.
  intros Ht Hp. apply inv_modify. intros s [[added H] Hpb].
  split; [exists added; rewrite Ht; exact H|rewrite Hp; exact Hpb].
Qed.

Lemma within_draw_permutation (ok : event -> bool) (n : nat) (s0 : state)
    (random_state : option Z) (k : nat) :
  inv (within ok n s0) (draw_permutation ext random_state k).
Proof.
  destruct random_state as [seed|]; simpl.
  - apply inv_ret.
  - intros s Hs. destruct (Ext.permutation ext (global_rng s) k) as [p g].
    destruct Hs as [[added H] Hpb]. split; [exists added; exact H|exact Hpb].
Qed.

Ltac inv_auto :=
  lazymatch goal with
  | |- inv _ (bind _ _) => apply inv_bind; [inv_auto | intros; inv_auto]
  | |- inv _ (ret _) => apply inv_ret
  | |- inv _ (raise _) => apply inv_raise
  | |- inv _ (gets _) => apply inv_gets
  | |- inv _ get => apply inv_get
  | |- inv _ (read_local _ _) => apply inv_read_local
  | |- inv _ (subscript _ _) => apply inv_subscript
  | |- inv _ (floordiv _ _) => apply inv_floordiv
  | |- inv _ (pymod _ _) => apply inv_pymod
  | |- inv _ (check_index _ _) => apply inv_check_index
  | |- inv _ (for_each _ _) => apply inv_for_each; intros; inv_auto
  | |- inv _ (draw_permutation _ _ _) => apply within_draw_permutation
  | |- inv _ (emit _) =>
      apply within_emit; [solve [reflexivity | auto] | reflexivity]
  | |- inv _ (modify _) => apply within_frame; intros; reflexivity
  | |- inv _ (let _ := _ in _) => cbv zeta; inv_auto
  | |- inv _ (if ?b then _ else _) => destruct b; inv_auto
  | |- inv _ (match ?x with _ => _ end) => destruct x; inv_auto
  | |- inv _ _ => progress autounfold with run_defs; inv_auto
  end.

(** A fold's body logs fold events only and leaves [pb] alone. *)
Lemma fold_body_within (ok : event -> bool) (n : nat) (s0 : state)
    (rank world_size fold : nat) :
  (forall e, fold_event e = true -> ok e = true) ->
  inv (within ok n s0)
      (fold_body ext mist_args training_paths_dataframe rank world_size fold).
Proof. intros Hok. inv_auto. Qed.

(** *** The split of a fold (lines 254-303) *)

Lemma bind_run {A B} (m : M state A) (f : A -> M state B) (s : state) :
  bind m f s = match m s with
               | (Val a, s') => f a s'
               | (Exc e, s') => (Exc e, s')
               end.
Proof. reflexivity. Qed.

Lemma emit_run (e : event) (s : state) :
  emit e s = (Val tt, set_trace (trace s ++ [e]) s).
Proof. reflexivity. Qed.

Ltac run_emit := rewrite bind_run, emit_run; cbv beta iota zeta.

(** With an integer seed the split reads nothing of the interpreter state
    and leaves it as it was. *)
Lemma train_test_split_seeded {A B} (xs : list A) (ys : list B) (p : Q)
    (seed : Z) :
  exists r, forall s : state,
    train_test_split ext xs ys p (Some seed) s = (r, s).
Proof.
  unfold train_test_split.
  destruct (negb (List.length xs =? List.length ys)%nat);
    [eexists; intros; reflexivity|].
  destruct (Ext.validate_shuffle_split ext p (List.length xs))
    as [[n_train n_test]|]; eexists; intros; reflexivity.
Qed.

Lemma split_fold_seeded (seed : Z) (fold : nat) :
  seed_val mist_args = Some seed ->
  exists r, forall s : state,
    fst (split_fold ext mist_args training_paths_dataframe fold s) = r.
Proof.
  intros Hseed. unfold split_fold. rewrite Hseed.
  destruct (use_dtms mist_args).
  - match goal with
    | |- context [train_test_split ext ?xs ?ys ?p (Some seed)] =>
        destruct (train_test_split_seeded xs ys p seed) as [r Hr]
    end.
    destruct r as [[[[tr_i va_i] tr_ld] va_ld]|e].
    + destruct tr_ld as [|[x1 x2] tr_ld]; [|destruct va_ld as [|[y1 y2] va_ld]];
        try (destruct (List.split tr_ld) as [l1 l2] eqn:E1);
        try (destruct (List.split va_ld) as [l3 l4] eqn:E2);
        eexists; intros s; run_emit; rewrite bind_run, Hr; simpl;
        rewrite ?E1, ?E2; cbv [bind ret raise]; simpl; reflexivity.
    + eexists; intros s; run_emit; rewrite bind_run, Hr; simpl; reflexivity.
  - match goal with
    | |- context [train_test_split ext ?xs ?ys ?p (Some seed)] =>
        destruct (train_test_split_seeded xs ys p seed) as [r Hr]
    end.
    destruct r as [[[[tr_i va_i] tr_l] va_l]|e];
      eexists; intros s; run_emit; rewrite bind_run, Hr; simpl; reflexivity.
Qed.

(** C8. Given a seed, the fold's split is a function of the fold and the
    ordered rows alone: from any two interpreter states -- in particular
    when it is performed twice in a row -- [split_fold] yields the same
    train and validation partitions (or the same error). *)
Theorem split_fold_deterministic (seed : Z) (fold : nat) (s1 s2 : state) :
  seed_val mist_args = Some seed ->
  fst (split_fold ext mist_args training_paths_dataframe fold s1)
  = fst (split_fold ext mist_args training_paths_dataframe fold s2).
Proof.
  intros Hseed. destruct (split_fold_seeded seed fold Hseed) as [r Hr].
  rewrite (Hr s1), (Hr s2). reflexivity.
Qed.

(** The split logs one call and leaves [steps_per_epoch] alone. *)
Lemma train_test_split_state {A B} (xs : list A) (ys : list B) (p : Q)
    (random_state : option Z) (s : state) :
  let s' := snd (train_test_split ext xs ys p random_state s) in
  trace s' = trace s /\ steps_per_epoch s' = steps_per_epoch s.
Proof.
  unfold train_test_split.
  destruct (negb (List.length xs =? List.length ys)%nat); [split; reflexivity|].
  destruct (Ext.validate_shuffle_split ext p (List.length xs))
    as [[n_train n_test]|]; [|split; reflexivity].
  rewrite bind_run. destruct random_state as [seed|]; simpl.
  - split; reflexivity.
  - destruct (Ext.permutation ext (global_rng s) (List.length xs)) as [q g].
    split; reflexivity.
Qed.

Lemma split_fold_state (fold : nat) (s s1 : state) (sp : fold_split path) :
  split_fold ext mist_args training_paths_dataframe fold s = (Val sp, s1) ->
  trace s1 = trace s ++ [call_train_test_split fold]
  /\ steps_per_epoch s1 = steps_per_epoch s.
Proof.
  unfold split_fold. destruct (use_dtms mist_args); run_emit;
    rewrite bind_run;
    match goal with
    | |- context [train_test_split ext ?xs ?ys ?p ?rs ?s0] =>
        pose proof (train_test_split_state xs ys p rs s0) as Hst;
        destruct (train_test_split ext xs ys p rs s0) as [[x|e] s']
    end; simpl in Hst; try discriminate.
  - destruct x as [[[tr_i va_i] tr_ld] va_ld].
    cbv [bind unpack_pairs raise ret].
    destruct tr_ld as [|[x1 x2] tr_ld]; [discriminate|].
    destruct va_ld as [|[y1 y2] va_ld]; simpl;
      destruct (List.split tr_ld) as [l1 l2]; [discriminate|].
    destruct (List.split va_ld) as [l3 l4].
    intros E. injection E as _ <-. exact Hst.
  - destruct x as [[[tr_i va_i] tr_l] va_l]. cbv [ret].
    intros E. injection E as _ <-. exact Hst.
Qed.

(** *** The validation-size check (lines 305-310) *)

Lemma never_raises_draw_permutation (bad : exn -> bool)
    (random_state : option Z) (k : nat) :
  never_raises bad (draw_permutation ext random_state k).
Proof.
  destruct random_state as [seed|]; simpl.
  - apply never_raises_ret.
  - intros s _. destruct (Ext.permutation ext (global_rng s) k). exact I.
Qed.

Ltac exn_auto :=
  lazymatch goal with
  | |- never_raises _ (bind _ _) =>
      apply never_raises_bind; [exn_auto | intros; exn_auto]
  | |- never_raises _ (ret _) => apply never_raises_ret
  | |- never_raises _ (raise _) => apply never_raises_raise; reflexivity
  | |- never_raises _ (gets _) => apply never_raises_gets
  | |- never_raises _ get => apply never_raises_get
  | |- never_raises _ (read_local _ _) =>
      apply never_raises_read_local; reflexivity
  | |- never_raises _ (subscript _ _) =>
      apply never_raises_subscript; reflexivity
  | |- never_raises _ (floordiv _ _) => apply never_raises_floordiv; reflexivity
  | |- never_raises _ (pymod _ _) => apply never_raises_pymod; reflexivity
  | |- never_raises _ (check_index _ _) =>
      apply never_raises_check_index; reflexivity
  | |- never_raises _ (for_each _ _) =>
      apply never_raises_for_each; intros; exn_auto
  | |- never_raises _ (draw_permutation _ _ _) =>
      apply never_raises_draw_permutation
  | |- never_raises _ (emit _) => apply never_raises_modify
  | |- never_raises _ (modify _) => apply never_raises_modify
  | |- never_raises _ (let _ := _ in _) => cbv zeta; exn_auto
  | |- never_raises _ (if ?b then _ else _) => destruct b; exn_auto
  | |- never_raises _ (match ?x with _ => _ end) => destruct x; exn_auto
  | |- never_raises _ _ => progress autounfold with run_defs; exn_auto
  end.

(** Past the check, nothing in a fold raises the validation-size error. *)
Lemma rest_of_fold_never_insufficient (rank world_size fold : nat)
    (sp : fold_split path) :
  never_raises is_InsufficientValidationSetError
    (bind (build_fold ext mist_args rank world_size fold sp)
          (fun _ => bind (epoch_loop ext mist_args rank fold)
                         (fun _ => emit ipdb_set_trace))).
Proof. exn_auto. Qed.

(** C5. In every fold the validation-size error is raised exactly when the
    validation subset is smaller than [world_size] -- not at equality --
    and when it is raised nothing but the split has been logged: no loader
    has been constructed. *)
Theorem insufficient_validation_set_iff (rank world_size fold : nat)
    (s s1 : state) (sp : fold_split path) :
  split_fold ext mist_args training_paths_dataframe fold s = (Val sp, s1) ->
  let r := fold_body ext mist_args training_paths_dataframe
             rank world_size fold s in
  ((exists e, fst r = Exc e /\ is_InsufficientValidationSetError e = true)
   <-> List.length (val_images sp) < world_size)
  /\ (List.length (val_images sp) < world_size ->
      fst r = Exc (InsufficientValidationSetError
                     (List.length (val_images sp)) world_size)
      /\ trace (snd r) = trace s ++ [call_train_test_split fold]).
Proof.
  intros Hsplit r.
  assert (Hr : r = bind (check_validation_size sp world_size)
                 (fun _ => bind (build_fold ext mist_args rank world_size fold sp)
                   (fun _ => bind (epoch_loop ext mist_args rank fold)
                     (fun _ => emit ipdb_set_trace))) s1).
  { unfold r, fold_body, prepare_fold. rewrite !bind_run, Hsplit.
    unfold check_validation_size.
    destruct (List.length (val_images sp) <? world_size)%nat; simpl.
    - reflexivity.
    - destruct (build_fold ext mist_args rank world_size fold sp s1)
        as [[a|e] s2]; reflexivity. }
  destruct (split_fold_state fold s s1 sp Hsplit) as [Htrace _].
  assert (Hlt : List.length (val_images sp) < world_size ->
                r = (Exc (InsufficientValidationSetError
                            (List.length (val_images sp)) world_size), s1)).
  { intros Hlt. rewrite Hr, bind_run. unfold check_validation_size.
    apply Nat.ltb_lt in Hlt. rewrite Hlt. reflexivity. }
  split; [split|].
  - intros [e [He Hbad]].
    destruct (Nat.ltb_spec (List.length (val_images sp)) world_size) as [Hlt'|Hge];
      [exact Hlt'|exfalso].
    rewrite Hr, bind_run in He. unfold check_validation_size in He.
    apply Nat.ltb_ge in Hge. rewrite Hge in He. simpl in He.
    pose proof (never_raises_run _ _ s1 e
                  (rest_of_fold_never_insufficient rank world_size fold sp) He).
    congruence.
  - intros Hlt'. rewrite (Hlt Hlt'). eexists. split; reflexivity.
  - intros Hlt'. rewrite (Hlt Hlt'). split; [reflexivity|exact Htrace].
Qed.

(** *** The boundary-loss check (lines 357-382) *)

(** C4, as the code has it. With a boundary-based loss ([bl], [hdl], [gsl])
    and no distance maps, a fold that passes the validation-size check,
    run with at least one worker and, when [steps_per_epoch] is not given,
    with a batch size other than 0 (the divisions of lines 314, 321 and 345
    are then defined), stops with a [ValueError]; by then both data loaders
    of the fold have been constructed and the loss function fetched, while
    the model has not been built and no training step has run. *)
Theorem boundary_loss_without_dtms (rank world_size fold : nat)
    (s s1 : state) (sp : fold_split path) :
  str_in (loss mist_args) boundary_losses = true ->
  use_dtms mist_args = false ->
  split_fold ext mist_args training_paths_dataframe fold s = (Val sp, s1) ->
  world_size <= List.length (val_images sp) ->
  0 < world_size ->
  (steps_per_epoch s = None -> 0 < batch_size mist_args) ->
  let r := fold_body ext mist_args training_paths_dataframe
             rank world_size fold s in
  fst r = Exc (ValueError (use_dtms_message mist_args))
  /\ trace (snd r)
     = trace s ++ [call_train_test_split fold; get_training_dataset fold;
                   get_validation_dataset fold; get_loss].
Proof.
  intros Hloss Hdtms Hsplit Hval Hws Hsteps r.
  destruct (split_fold_state fold s s1 sp Hsplit) as [Htrace Hspe].
  assert (Hlt : (List.length (val_images sp) <? world_size)%nat = false)
    by (apply Nat.ltb_ge; exact Hval).
  assert (Hz : (world_size =? 0)%nat = false) by (apply Nat.eqb_neq; lia).
  unfold r, fold_body, prepare_fold. rewrite !bind_run, Hsplit.
  unfold check_validation_size. rewrite Hlt.
  cbv [ret build_fold bind floordiv emit modify gets raise].
  rewrite Hz, Hloss, Hdtms. simpl. rewrite Hspe.
  destruct (steps_per_epoch s) as [n|] eqn:Hn; simpl.
  - rewrite Htrace, <- !app_assoc. auto.
  - assert (Hb : (batch_size mist_args =? 0)%nat = false)
      by (apply Nat.eqb_neq; specialize (Hsteps eq_refl); lia).
    rewrite Hb. simpl. rewrite Htrace, <- !app_assoc. auto.
Qed.

(** *** The epoch loop on rank 0 (lines 703-746) *)

Local Arguments Nat.min : simpl never.

Lemma dumped_refl (s : state) : dumped s s 0 0.
Proof.
  split; [reflexivity|]. exists []. rewrite app_nil_r. repeat split.
Qed.

Lemma dumped_trans (s s1 s2 : state) (b1 b2 e1 e2 : nat) :
  dumped s s1 b1 e1 -> dumped s1 s2 b2 e2 -> dumped s s2 (b1 + b2) (e1 + e2).
Proof.
  intros [Hs1 [a1 [Ht1 [Hd1 [Hn1 [Hi1 [Hl1 Hm1]]]]]]]
         [Hs2 [a2 [Ht2 [Hd2 [Hn2 [Hi2 [Hl2 Hm2]]]]]]].
  split; [congruence|]. exists (a1 ++ a2).
  rewrite Ht2, Ht1, app_assoc, forallb_app, Hd1, Hd2, !count_events_app.
  repeat split; congruence.
Qed.

Lemma dump_step_break (fold pc : nat) (s : state) :
  patch_counter s = Some pc -> 50 <= pc ->
  dump_step ext fold s = (Val Break, s).
Proof.
  intros Hpc Hge. unfold dump_step. rewrite bind_run. unfold read_local.
  rewrite Hpc. apply Nat.leb_le in Hge. rewrite Hge. reflexivity.
Qed.

Lemma dump_step_run (fold pc : nat) (s : state) :
  well_shaped_batches ext ->
  patch_counter s = Some pc -> pc < 50 ->
  exists s',
    dump_step ext fold s = (Val Continue, s')
    /\ patch_counter s' = Some (S pc)
    /\ dumped s s' 1 0.
Proof.
  intros Hshape Hpc Hlt.
  destruct (Hshape fold (train_loader_position s)) as [H0 [H1 [H2 H3]]].
  cbv zeta in H0, H1, H2, H3.
  unfold dump_step. rewrite bind_run. unfold read_local. rewrite Hpc.
  assert (Hge : (50 <=? pc)%nat = false) by (apply Nat.leb_gt; exact Hlt).
  rewrite Hge.
  cbv [bind next_batch emit modify get ret raise pymod check_index].
  simpl.
  apply Nat.neq_0_lt_0, Nat.eqb_neq in H0. rewrite H0.
  pose proof H1 as H1'. apply Nat.ltb_lt in H1'. rewrite H1'.
  apply Nat.neq_0_lt_0, Nat.eqb_neq in H2. rewrite H2.
  apply Nat.ltb_lt in H3. rewrite H3.
  destruct (1 <? Ext.shape ext
                   (image (Ext.training_batch ext fold (train_loader_position s))) 1)%nat;
    simpl; rewrite ?H0; simpl;
    (eexists; split; [reflexivity|]; split; [reflexivity|];
     split; [reflexivity|]; eexists; split;
     [simpl; rewrite <- !app_assoc; reflexivity|repeat split]).
Qed.

(** The step loop from a counter [pc]: it reads batches until the counter
    is 50 or the steps are used up. *)
Lemma step_loop_run (fold : nat) :
  well_shaped_batches ext ->
  forall (xs : list nat) (s : state) (pc : nat),
    patch_counter s = Some pc -> pc <= 50 ->
    exists s',
      for_each xs (fun _ => dump_step ext fold) s = (Val tt, s')
      /\ patch_counter s' = Some (Nat.min 50 (pc + List.length xs))
      /\ dumped s s' (Nat.min 50 (pc + List.length xs) - pc) 0.
Proof.
  intros Hshape xs. induction xs as [|x xs IH]; intros s pc Hpc Hle; simpl.
  - exists s. split; [reflexivity|].
    replace (Nat.min 50 (pc + 0)) with pc by lia.
    split; [exact Hpc|]. rewrite Nat.sub_diag. apply dumped_refl.
  - rewrite bind_run. destruct (Nat.eq_dec pc 50) as [->|Hne].
    + rewrite (dump_step_break fold 50 s Hpc) by lia.
      exists s. split; [reflexivity|].
      replace (Nat.min 50 (50 + S (List.length xs))) with 50 by lia.
      split; [exact Hpc|]. rewrite Nat.sub_diag. apply dumped_refl.
    + destruct (dump_step_run fold pc s Hshape Hpc) as [s1 [Hrun [Hpc1 Hd1]]];
        [lia|].
      rewrite Hrun.
      destruct (IH s1 (S pc) Hpc1) as [s' [Hloop [Hpc' Hd']]]; [lia|].
      exists s'. split; [exact Hloop|].
      replace (pc + S (List.length xs)) with (S pc + List.length xs) by lia.
      split; [exact Hpc'|].
      replace (Nat.min 50 (S pc + List.length xs) - pc)
        with (1 + (Nat.min 50 (S pc + List.length xs) - S pc)) by lia.
      apply (dumped_trans s s1 s' _ _ 0 0 Hd1 Hd').
Qed.

(** One epoch on rank 0: the counter carries over from the epoch before,
    and the epoch loop is left as soon as it stands at 50. *)
Lemma epoch_body_run (fold e n pc : nat) (s : state) :
  well_shaped_batches ext ->
  patch_counter s = Some pc -> pc <= 50 -> steps_per_epoch s = Some n ->
  exists s',
    epoch_body ext 0 fold e s
    = (Val (if (50 <=? pc + n)%nat then Break else Continue), s')
    /\ patch_counter s' = Some (Nat.min 50 (pc + n))
    /\ dumped s s' (Nat.min 50 (pc + n) - pc) 1.
Proof.
  intros Hshape Hpc Hle Hn. unfold epoch_body.
  rewrite bind_run. cbv [modify]. cbv beta iota.
  run_emit. set (s1 := set_trace _ _).
  assert (Hn1 : steps_per_epoch s1 = Some n) by exact Hn.
  assert (Hpc1 : patch_counter s1 = Some pc) by exact Hpc.
  rewrite bind_run. change (0 =? 0)%nat with true. cbv iota.
  rewrite bind_run. unfold range_steps_per_epoch at 1.
  rewrite bind_run. cbv [gets]. cbv beta iota.
  rewrite Hn1. cbv [ret]. cbv beta iota.
  destruct (step_loop_run fold Hshape (range n) s1 pc)
    as [s' [Hloop [Hpc' Hd]]]; [exact Hpc1|exact Hle|].
  unfold range in *. rewrite length_seq in *.
  rewrite Hloop. cbv beta iota. rewrite bind_run. unfold read_local.
  rewrite Hpc'. exists s'. split; [|split; [exact Hpc'|]].
  - destruct (Nat.leb_spec 50 (pc + n)) as [H|H];
      destruct (Nat.leb_spec 50 (Nat.min 50 (pc + n))) as [H'|H'];
      try reflexivity; lia.
  - assert (H1 : dumped s s1 0 1).
    { split; [reflexivity|]. exists [model_train]. repeat split. }
    apply (dumped_trans s s1 s' 0 _ 1 0 H1 Hd).
Qed.

(** The epoch loop: [m] epochs are begun, and a further one only while the
    counter is below 50. *)
Lemma epoch_loop_run (fold n : nat) :
  well_shaped_batches ext ->
  forall (k a : nat) (s : state) (pc : nat),
    patch_counter s = Some pc -> pc < 50 -> steps_per_epoch s = Some n ->
    exists (s' : state) (m : nat),
      for_each (seq a k) (epoch_body ext 0 fold) s = (Val tt, s')
      /\ m <= k
      /\ (m < k -> 50 <= pc + m * n)
      /\ (0 < m -> pc + (m - 1) * n < 50)
      /\ patch_counter s' = Some (Nat.min 50 (pc + m * n))
      /\ dumped s s' (Nat.min 50 (pc + m * n) - pc) m.
Proof.
  intros Hshape k. induction k as [|k IH]; intros a s pc Hpc Hlt Hn; simpl.
  - exists s, 0. split; [reflexivity|].
    split; [lia|]. split; [lia|]. split; [lia|]. split.
    + replace (Nat.min 50 (pc + 0 * n)) with pc by lia. exact Hpc.
    + replace (Nat.min 50 (pc + 0 * n) - pc) with 0 by lia. apply dumped_refl.
  - rewrite bind_run.
    destruct (epoch_body_run fold a n pc s Hshape Hpc) as [s1 [Hrun [Hpc1 Hd1]]];
      [lia|exact Hn|].
    rewrite Hrun. destruct (Nat.leb_spec 50 (pc + n)) as [Hfull|Hmore].
    + exists s1, 1. split; [reflexivity|].
      replace (pc + 1 * n) with (pc + n) by lia.
      split; [lia|]. split; [lia|]. split; [lia|].
      split; assumption.
    + assert (Hn1 : steps_per_epoch s1 = Some n)
        by (destruct Hd1 as [E _]; rewrite E; exact Hn).
      replace (Nat.min 50 (pc + n)) with (pc + n) in * by lia.
      destruct (IH (S a) s1 (pc + n) Hpc1 Hmore Hn1)
        as [s' [m [Hloop [Hm [Hstop [Hlast [Hpc' Hd']]]]]]].
      exists s', (S m). split; [exact Hloop|].
      replace (pc + S m * n) with (pc + n + m * n) by lia.
      split; [lia|]. split; [|split; [|split]].
      * intros H. apply Hstop. lia.
      * intros _. destruct m as [|m']; simpl; [lia|].
        assert (H : pc + n + (S m' - 1) * n < 50) by (apply Hlast; lia).
        simpl in H. rewrite Nat.sub_0_r in H. lia.
      * exact Hpc'.
      * replace (Nat.min 50 (pc + n + m * n) - pc)
          with ((pc + n - pc) + (Nat.min 50 (pc + n + m * n) - (pc + n)))
          by lia.
        apply (dumped_trans s s1 s' _ _ 1 m Hd1 Hd').
Qed.

(** Assignments and calls that leave [steps_per_epoch] alone. *)
Ltac inv_conv :=
  lazymatch goal with
  | |- inv _ (bind _ _) => apply inv_bind; [inv_conv | intros; inv_conv]
  | |- inv _ (ret _) => apply inv_ret
  | |- inv _ (raise _) => apply inv_raise
  | |- inv _ (emit _) => apply inv_modify; intros ? H; exact H
  | |- inv _ (modify _) => apply inv_modify; intros ? H; exact H
  | |- inv _ (if ?b then _ else _) => destruct b; inv_conv
  | |- inv _ (match ?x with _ => _ end) => destruct x; inv_conv
  end.

(** A fold that is set up enters its epoch loop with the counter at 0
    (line 703) and a number of steps per epoch. *)
Lemma prepare_fold_post (rank world_size fold : nat) (s0 s : state) :
  prepare_fold ext mist_args training_paths_dataframe rank world_size fold s0
  = (Val tt, s) ->
  patch_counter s = Some 0 /\ exists n, steps_per_epoch s = Some n.
Proof.
  intros Hrun.
  assert (H : hoare (fun _ => True)
                (prepare_fold ext mist_args training_paths_dataframe
                              rank world_size fold)
                (fun _ s => patch_counter s = Some 0
                            /\ exists n, steps_per_epoch s = Some n)
                (fun _ _ => True)).
  { unfold prepare_fold, build_fold.
    do 8 (apply hoare_after_inv; [apply inv_True|auto|intros ?]).
    apply hoare_after_inv; [apply inv_True|auto|intros spe].
    eapply hoare_bind with
      (R := fun _ s => exists n, steps_per_epoch s = Some n).
    - destruct spe as [n|].
      + intros s' _. simpl. eauto.
      + apply hoare_after_inv; [apply inv_True|auto|].
        intros n s' _. simpl. eauto.
    - intros _.
      repeat (lazymatch goal with
              | |- hoare _ (bind _ _) _ _ =>
                  apply hoare_after_inv; [inv_conv|auto|intros]
              end).
      intros s' Hs'. simpl. split; [reflexivity|exact Hs']. }
  specialize (H s0 I). rewrite Hrun in H. exact H.
Qed.

(** C9. On rank 0 the epoch loop of a fold does not train. Entered with
    the counter at 0, it begins [m] epochs, a further one only while fewer
    than 50 batches have been read; it reads [min 50 (m * n)] batches and
    writes the first image channel and the label of each to a NIfTI file.
    The counter is carried from epoch to epoch. The calls it logs are
    [model.train], loader reads, prints and image writes -- no optimizer
    step among them -- and the next call is the debugger trap. *)
Theorem rank0_epoch_loop_dumps_batches (world_size fold : nat) (s0 s : state) :
  well_shaped_batches ext ->
  prepare_fold ext mist_args training_paths_dataframe 0 world_size fold s0
  = (Val tt, s) ->
  exists (n m : nat) (s' : state),
    steps_per_epoch s = Some n
    /\ fold_body ext mist_args training_paths_dataframe 0 world_size fold s0
       = (Val tt, s')
    /\ m <= epochs mist_args
    /\ (m < epochs mist_args -> 50 <= m * n)
    /\ (0 < m -> (m - 1) * n < 50)
    /\ patch_counter s' = Some (Nat.min 50 (m * n))
    /\ exists added,
         trace s' = trace s ++ added ++ [ipdb_set_trace]
         /\ forallb dump_event added = true
         /\ forallb (fun e => negb (training_step_event e)) added = true
         /\ count_events is_loader_next added = Nat.min 50 (m * n)
         /\ count_events is_loader_next added <= 50
         /\ count_events is_image_write added = Nat.min 50 (m * n)
         /\ count_events is_label_write added = Nat.min 50 (m * n)
         /\ count_events is_model_train added = m.
Proof.
  intros Hshape Hprep.
  destruct (prepare_fold_post 0 world_size fold s0 s Hprep) as [Hpc [n Hn]].
  destruct (epoch_loop_run fold n Hshape (epochs mist_args) 0 s 0 Hpc)
    as [s' [m [Hloop [Hm [Hstop [Hlast [Hpc' Hd]]]]]]]; [lia|exact Hn|].
  simpl in Hstop, Hlast, Hpc', Hd. rewrite Nat.sub_0_r in Hd.
  destruct Hd as [_ [added [Ht [Hdump [Hnext [Himg [Hlbl Hstart]]]]]]].
  exists n, m, (set_trace (trace s' ++ [ipdb_set_trace]) s').
  split; [exact Hn|]. split.
  { unfold fold_body. rewrite bind_run, Hprep.
    unfold epoch_loop, range. rewrite bind_run, Hloop. reflexivity. }
  split; [exact Hm|]. split; [exact Hstop|]. split; [exact Hlast|].
  split; [exact Hpc'|].
  exists added. split; [simpl; rewrite Ht, app_assoc; reflexivity|].
  split; [exact Hdump|]. split.
  { apply forallb_forall. intros e He.
    rewrite forallb_forall in Hdump. specialize (Hdump e He).
    destruct e as [| | | | | | | | | | | | | | | | |[|]| | | | | | | | | | | | | | | | | | | | | |];
      simpl in *; congruence. }
  split; [exact Hnext|]. split; [rewrite Hnext; lia|].
  split; [exact Himg|]. split; [exact Hlbl|exact Hstart].
Qed.

(** *** The statements below the fold loop (lines 753-920) *)

Local Abbreviation ok := fold_or_training_step_event.

Lemma within_read_pb (n : nat) (s0 : state) (A : Type)
    (Qv : unit -> state -> Prop) :
  pb s0 = None ->
  hoare (within ok n s0) (read_local "pb" (@pb tensor path weights rng))
        Qv (fun _ => within ok n s0).
Proof.
  intros Hnone s Hs. unfold read_local.
  destruct Hs as [Hadd Hpb]. rewrite Hpb, Hnone. split; [exact Hadd|].
  rewrite Hpb. reflexivity.
Qed.

Ltac as_inv :=
  lazymatch goal with
  | |- hoare ?I ?m _ _ => change (inv I m)
  end.

(** Up to the optimizer step no such step is logged; from it on, one. *)
Ltac step_auto :=
  lazymatch goal with
  | |- hoare (within _ 0 _) (bind (emit (optimizer_step _)) _) _ _ =>
      eapply hoare_bind;
      [apply within_optimizer_step; reflexivity | intros; as_inv; inv_auto]
  | |- hoare (within _ 0 _) (bind _ _) _ _ =>
      apply hoare_after_inv;
      [inv_auto
      |intros; eapply within_weaken; [|eassumption]; lia
      |intros; step_auto]
  | |- hoare _ (let _ := _ in _) _ _ => cbv zeta; step_auto
  | |- hoare _ (if ?b then _ else _) _ _ => destruct b; step_auto
  | |- hoare _ (match ?x with _ => _ end) _ _ => destruct x; step_auto
  | |- hoare _ _ _ _ => progress autounfold with run_defs; step_auto
  end.

(** [train_step] steps the optimizer at most once. *)
Lemma call_train_step_within (s0 : state) (e : nat) :
  hoare (within ok 0 s0) (call_train_step ext mist_args e)
        (fun _ => within ok 1 s0) (fun _ => within ok 1 s0).
Proof. step_auto. Qed.

(** The code after a raising read of [pb] is never run. *)
Ltac dead_auto :=
  lazymatch goal with
  | |- hoare _ (bind (read_local "pb"%string _) _) _ _ =>
      eapply hoare_bind;
      [apply within_read_pb; [exact unit|assumption]
      |intros; apply hoare_unreachable]
  | |- hoare _ (bind _ _) _ _ =>
      apply hoare_after_inv; [inv_auto | auto | intros; dead_auto]
  | |- hoare _ (let _ := _ in _) _ _ => cbv zeta; dead_auto
  | |- hoare _ (if ?b then _ else _) _ _ => destruct b; dead_auto
  | |- hoare _ (match ?x with _ => _ end) _ _ => destruct x; dead_auto
  end.

(** Entered with [pb] unbound, the statements after the fold loop raise
    before line 793; until then they log fold or training-step events, with
    at most one optimizer step among them. *)
Lemma after_folds_raises (s0 : state) (rank world_size : nat) :
  pb s0 = None ->
  hoare (within ok 0 s0) (after_folds ext mist_args rank world_size)
        (fun _ _ => False) (fun _ => within ok 1 s0).
Proof.
  intros Hnone. unfold after_folds.
  apply hoare_after_inv;
    [inv_auto|intros; eapply within_weaken; [|eassumption]; lia|].
  intros e. eapply hoare_bind.
  - apply hoare_conseq with (P' := within ok 0 s0)
        (Qv' := fun _ => within ok 1 s0) (Qe' := fun _ => within ok 1 s0);
      [apply call_train_step_within|auto|intros a s H; exact H|auto].
  - intros l. cbv beta. dead_auto.
Qed.

(** [train] as a whole: it always ends by raising, and its log holds fold
    and training-step events only, at most one of them an optimizer
    step. *)
Lemma train_outcome (rank world_size : nat) (g : rng) (steps : option nat)
    (w : weights) :
  let r := train ext mist_args training_paths_dataframe rank world_size
             (initial_state g steps w) in
  is_exc (fst r) = true
  /\ forallb ok (trace (snd r)) = true
  /\ count_events is_optimizer_step (trace (snd r)) <= 1.
Proof.
  set (s0 := initial_state g steps w : state).
  assert (H : hoare (within ok 0 s0)
                (train ext mist_args training_paths_dataframe rank world_size)
                (fun _ _ => False) (fun _ => within ok 1 s0)).
  { unfold train.
    do 4 (apply hoare_after_inv;
          [inv_auto
          |intros; eapply within_weaken; [|eassumption]; lia
          |intros]).
    apply after_folds_raises. reflexivity. }
  specialize (H s0 (within_refl ok 0 s0)). cbv zeta.
  destruct (train ext mist_args training_paths_dataframe rank world_size s0)
    as [[a|e] s']; [contradiction|].
  destruct H as [[added [Ht [Hok Hc]]] _]. simpl in Ht. simpl fst. simpl snd.
  rewrite Ht. auto.
Qed.

Lemma not_training_step_of_fold_event (l : list event) :
  forallb fold_event l = true ->
  forallb (fun e => negb (training_step_event e)) l = true.
Proof.
  intros H. apply forallb_forall. intros e He.
  rewrite forallb_forall in H.
  rewrite (fold_event_not_training_step e (H e He)). reflexivity.
Qed.

(** C1 does not hold of the code. The calls a fold's body logs -- its whole
    epoch loop included -- contain no call of a training step on any rank:
    no alpha schedule, forward or backward pass, optimizer step,
    learning-rate step or reduction. A whole run of [train] steps the
    optimizer at most once, whatever the numbers of folds, epochs and steps
    per epoch. *)
Theorem training_steps_not_in_epoch_loop :
  (forall (rank world_size fold : nat) (s : state),
      exists added,
        trace (snd (fold_body ext mist_args training_paths_dataframe
                              rank world_size fold s))
        = trace s ++ added
        /\ forallb (fun e => negb (training_step_event e)) added = true)
  /\ (forall (rank world_size : nat) (g : rng) (steps : option nat)
             (w : weights),
         count_events is_optimizer_step
           (trace (snd (train ext mist_args training_paths_dataframe
                              rank world_size (initial_state g steps w))))
         <= 1).
Proof.
  split.
  - intros rank world_size fold s.
    pose proof (inv_run _ _ s
                  (fold_body_within fold_event 0 s rank world_size fold
                     (fun e H => H))
                  (within_refl fold_event 0 s)) as [[added [Ht [Hok _]]] _].
    exists added. split; [exact Ht|].
    apply not_training_step_of_fold_event, Hok.
  - intros rank world_size g steps w.
    apply (train_outcome rank world_size g steps w).
Qed.

(** What lines 849-873 do when they are run: a validation mean strictly
    below the best so far is recorded and the model saved once; otherwise
    nothing is saved. *)
Lemma checkpoint_if_improved_run (s : state) (rv : Q) (r0 : rank0_objects)
    (fo : fold_objects path) :
  running_val_loss s = Some rv -> rank0_scope s = Some r0 ->
  fold_scope s = Some fo ->
  let r := checkpoint_if_improved (tensor := tensor) (path := path)
             (weights := weights) (rng := rng) s in
  fst r = Val tt
  /\ if lt_best rv (best_validation_loss r0)
     then trace (snd r)
          = trace s ++ [console_print "Validation loss IMPROVED";
                        torch_save (fo_fold fo)]
          /\ option_map best_validation_loss (rank0_scope (snd r))
             = Some (Finite rv)
     else trace (snd r)
          = trace s ++ [console_print "Validation loss did NOT improve"]
          /\ rank0_scope (snd r) = Some r0.
Proof.
  intros Hrv Hr0 Hfo. unfold checkpoint_if_improved.
  cbv [bind read_local]. rewrite Hrv, Hr0.
  destruct (lt_best rv (best_validation_loss r0)).
  - cbv [emit modify]. simpl. rewrite Hfo. simpl.
    rewrite <- app_assoc. auto.
  - simpl. auto.
Qed.

(** C6 does not hold of the code. No run of [train] writes a checkpoint:
    the comparison with the best validation loss and [torch.save] stand
    below a statement that always raises. *)
Theorem no_checkpoint_is_written (rank world_size : nat) (g : rng)
    (steps : option nat) (w : weights) (fold : nat) :
  let r := train ext mist_args training_paths_dataframe rank world_size
             (initial_state g steps w) in
  is_exc (fst r) = true /\ ~ In (torch_save fold) (trace (snd r)).
Proof.
  destruct (train_outcome rank world_size g steps w) as [Hexc [Hok _]].
  split; [exact Hexc|].
  apply (forallb_not_in ok); [exact Hok|reflexivity].
Qed.

(** C7 does not hold of the code. No run of [train] reaches a barrier: both
    [dist.barrier()] calls stand below the fold loop and below a statement
    that always raises. *)
Theorem no_barrier_is_reached (rank world_size : nat) (g : rng)
    (steps : option nat) (w : weights) :
  let r := train ext mist_args training_paths_dataframe rank world_size
             (initial_state g steps w) in
  is_exc (fst r) = true /\ ~ In dist_barrier (trace (snd r)).
Proof.
  destruct (train_outcome rank world_size g steps w) as [Hexc [Hok _]].
  split; [exact Hexc|].
  apply (forallb_not_in ok); [exact Hok|reflexivity].
Qed.

(** *** More on the split (lines 280-303) and the checks behind it *)

Lemma take_indices_length {A B} (xs : list A) (ys : list B) (idx : list nat) :
  List.length xs = List.length ys ->
  List.length (take_indices xs idx) = List.length (take_indices ys idx).
Proof.
  intros Hlen. unfold take_indices.
  induction idx as [|i idx IH]; simpl; [reflexivity|].
  rewrite !length_app, IH. f_equal.
  destruct (nth_error xs i) as [x|] eqn:Hx, (nth_error ys i) as [y|] eqn:Hy;
    try reflexivity; exfalso.
  - apply nth_error_None in Hy.
    assert (i < List.length xs) by (apply nth_error_Some; congruence). lia.
  - apply nth_error_None in Hx.
    assert (i < List.length ys) by (apply nth_error_Some; congruence). lia.
Qed.

Lemma train_test_split_lengths {A B} (xs : list A) (ys : list B) (p : Q)
    (random_state : option Z) (s s' : state)
    (a b : list A) (c d : list B) :
  train_test_split ext xs ys p random_state s = (Val (a, b, c, d), s') ->
  List.length a = List.length c /\ List.length b = List.length d.
Proof.
  unfold train_test_split.
  destruct (List.length xs =? List.length ys)%nat eqn:Hlen; simpl;
    [|discriminate].
  apply Nat.eqb_eq in Hlen.
  destruct (Ext.validate_shuffle_split ext p (List.length xs))
    as [[n_train n_test]|]; [|discriminate].
  rewrite bind_run.
  destruct (draw_permutation ext random_state (List.length xs) s)
    as [[q|e] s1]; [|discriminate].
  cbv [ret]. intros E. injection E as <- <- <- <- _.
  split; apply take_indices_length; exact Hlen.
Qed.

(** What a successful split hands to the rest of the fold. *)
Lemma split_fold_shape (fold : nat) (s s1 : state) (sp : fold_split path) :
  split_fold ext mist_args training_paths_dataframe fold s = (Val sp, s1) ->
  List.length (train_images sp) = List.length (train_labels sp)
  /\ List.length (val_images sp) = List.length (val_labels sp)
  /\ if use_dtms mist_args
     then exists d, split_train_dtms sp = PyTuple d
                    /\ List.length d = List.length (train_labels sp)
                    /\ 0 < List.length d
                    /\ 0 < List.length (val_images sp)
     else split_train_dtms sp = PyNone.
Proof.
  unfold split_fold. destruct (use_dtms mist_args); run_emit;
    rewrite bind_run;
    match goal with
    | |- context [train_test_split ext ?xs ?ys ?p ?rs ?s0] =>
        pose proof (train_test_split_lengths xs ys p rs s0) as Hlen;
        destruct (train_test_split ext xs ys p rs s0) as [[x|e] s']
    end; try discriminate.
  - destruct x as [[[tr_i va_i] tr_ld] va_ld].
    destruct (Hlen s' _ _ _ _ eq_refl) as [H1 H2].
    cbv [bind unpack_pairs raise ret].
    destruct tr_ld as [|[x1 x2] tr_ld]; [discriminate|].
    destruct va_ld as [|[y1 y2] va_ld]; simpl;
      destruct (List.split tr_ld) as [l1 l2] eqn:E1; [discriminate|].
    destruct (List.split va_ld) as [l3 l4] eqn:E2.
    intros E. injection E as <- _. simpl in *.
    pose proof (length_fst_split tr_ld) as Hl1.
    pose proof (length_snd_split tr_ld) as Hl2.
    pose proof (length_fst_split va_ld) as Hl3.
    rewrite E1 in Hl1, Hl2. rewrite E2 in Hl3. simpl in *.
    split; [lia|]. split; [lia|].
    eexists. split; [reflexivity|]. simpl. lia.
  - destruct x as [[[tr_i va_i] tr_l] va_l].
    destruct (Hlen s' _ _ _ _ eq_refl) as [H1 H2].
    cbv [ret]. intros E. injection E as <- _. simpl. auto.
Qed.

(** A general tactic for invariants: [within] by its own rules, any other
    assertion when the assignment at hand leaves it convertible. A test
    [rank =? 0] known to fail is decided, not split. *)
Lemma inv_draw_permutation (I : state -> Prop) (random_state : option Z)
    (k : nat) :
  (forall s g, I s -> I (set_global_rng g s)) ->
  inv I (draw_permutation ext random_state k).
Proof.
  intros HI. destruct random_state as [seed|]; simpl.
  - apply inv_ret.
  - intros s Hs. destruct (Ext.permutation ext (global_rng s) k) as [p g].
    apply HI, Hs.
Qed.

Ltac inv_any :=
  lazymatch goal with
  | |- inv _ (bind _ _) => apply inv_bind; [inv_any | intros; inv_any]
  | |- inv _ (ret _) => apply inv_ret
  | |- inv _ (raise _) => apply inv_raise
  | |- inv _ (gets _) => apply inv_gets
  | |- inv _ get => apply inv_get
  | |- inv _ (read_local _ _) => apply inv_read_local
  | |- inv _ (subscript _ _) => apply inv_subscript
  | |- inv _ (floordiv _ _) => apply inv_floordiv
  | |- inv _ (pymod _ _) => apply inv_pymod
  | |- inv _ (check_index _ _) => apply inv_check_index
  | |- inv _ (for_each _ _) => apply inv_for_each; intros; inv_any
  | |- inv _ (draw_permutation _ _ _) =>
      first [ apply within_draw_permutation
            | apply inv_draw_permutation; intros ? ? H; exact H ]
  | |- inv _ (emit _) =>
      first [ apply within_emit; [solve [reflexivity | auto] | reflexivity]
            | apply inv_modify; intros ? H; exact H ]
  | |- inv _ (modify _) =>
      first [ apply within_frame; intros; reflexivity
            | apply inv_modify; intros ? H; exact H ]
  | |- inv _ (let _ := _ in _) => cbv zeta; inv_any
  | |- inv _ (if (?r =? 0)%nat then _ else _) =>
      lazymatch goal with
      | H : (r =? 0)%nat = false |- _ => rewrite H; inv_any
      | _ => destruct (r =? 0)%nat; inv_any
      end
  | |- inv _ (if ?b then _ else _) => destruct b; inv_any
  | |- inv _ (match ?x with _ => _ end) => destruct x; inv_any
  | |- inv _ _ => progress autounfold with run_defs; inv_any
  end.

(** The body of a fold, seen from the state the split leaves. *)
Lemma fold_body_after_split (rank world_size fold : nat) (s s1 : state)
    (sp : fold_split path) :
  split_fold ext mist_args training_paths_dataframe fold s = (Val sp, s1) ->
  fold_body ext mist_args training_paths_dataframe rank world_size fold s
  = bind (check_validation_size sp world_size)
      (fun _ => bind (build_fold ext mist_args rank world_size fold sp)
        (fun _ => bind (epoch_loop ext mist_args rank fold)
          (fun _ => emit ipdb_set_trace))) s1.
Proof.
  intros Hsplit. unfold fold_body, prepare_fold. rewrite !bind_run, Hsplit.
  unfold check_validation_size.
  destruct (List.length (val_images sp) <? world_size)%nat; simpl.
  - reflexivity.
  - destruct (build_fold ext mist_args rank world_size fold sp s1)
      as [[a|e] s2]; reflexivity.
Qed.

Lemma prepare_fold_after_split (rank world_size fold : nat) (s s1 : state)
    (sp : fold_split path) :
  split_fold ext mist_args training_paths_dataframe fold s = (Val sp, s1) ->
  prepare_fold ext mist_args training_paths_dataframe rank world_size fold s
  = bind (check_validation_size sp world_size)
      (fun _ => build_fold ext mist_args rank world_size fold sp) s1.
Proof.
  intros Hsplit. unfold prepare_fold. rewrite !bind_run, Hsplit. reflexivity.
Qed.

(** **** The count check of lines 366-382 *)

Lemma split_fold_never_list (fold : nat) :
  hoare (fun _ => True)
        (split_fold ext mist_args training_paths_dataframe fold)
        (fun sp _ => isinstance_list (split_train_dtms sp) = None)
        (fun e _ => RunAux.is_mismatch_error e = false).
Proof.
  intros s _.
  destruct (split_fold ext mist_args training_paths_dataframe fold s)
    as [[sp|e] s1] eqn:E.
  - destruct (split_fold_shape fold s s1 sp E) as [_ [_ H]].
    destruct (use_dtms mist_args).
    + destruct H as [d [-> _]]. reflexivity.
    + rewrite H. reflexivity.
  - assert (H : never_raises RunAux.is_mismatch_error
                  (split_fold ext mist_args training_paths_dataframe fold))
      by exn_auto.
    apply (never_raises_run _ _ s e H). rewrite E. reflexivity.
Qed.

Lemma build_fold_never_mismatch (rank world_size fold : nat)
    (sp : fold_split path) :
  isinstance_list (split_train_dtms sp) = None ->
  never_raises RunAux.is_mismatch_error
    (build_fold ext mist_args rank world_size fold sp).
Proof.
  intros Hnone. unfold build_fold.
  destruct (split_train_dtms sp) as [|d|l]; [| |discriminate Hnone];
    cbn [isinstance_list]; exn_auto.
Qed.

Lemma fold_body_never_mismatch (rank world_size fold : nat) :
  never_raises RunAux.is_mismatch_error
    (fold_body ext mist_args training_paths_dataframe rank world_size fold).
Proof.
  unfold fold_body, prepare_fold.
  apply never_raises_bind; [|intros; exn_auto].
  eapply hoare_bind; [apply split_fold_never_list|].
  intros sp. cbv beta.
  eapply hoare_bind with (R := fun _ _ => isinstance_list (split_train_dtms sp) = None).
  - intros s H. unfold check_validation_size.
    destruct (_ <? _)%nat; simpl; [reflexivity|exact H].
  - intros _ s H. apply (build_fold_never_mismatch rank world_size fold sp H s I).
Qed.

(** X1. No run of [train] raises the count-mismatch error of lines
    374-382: when the check is reached [train_dtms] is [None] or the tuple
    that unpacking left, never a list, so the comparison of the counts of
    images, labels and distance maps is skipped. *)
Theorem count_mismatch_is_never_raised (rank world_size : nat) (s : state) :
  RunAux.raises_mismatch
    (fst (train ext mist_args training_paths_dataframe rank world_size s))
  = false.
Proof.
  assert (H : never_raises RunAux.is_mismatch_error
                (train ext mist_args training_paths_dataframe
                       rank world_size)).
  { unfold train.
    do 3 (apply never_raises_bind; [exn_auto|intros]).
    apply never_raises_bind.
    - apply never_raises_for_each. intros fold.
      apply never_raises_bind; [apply fold_body_never_mismatch|].
      intros. apply never_raises_ret.
    - intros. unfold after_folds. exn_auto. }
  specialize (H s I).
  destruct (train ext mist_args training_paths_dataframe rank world_size s)
    as [[a|e] s']; [reflexivity|exact H].
Qed.

(** X2. With distance maps in use, a split that succeeds hands on as many
    training distance maps as training labels and training images, as many
    validation labels as validation images, and neither subset is empty;
    the maps are held in a tuple. *)
Theorem split_with_dtms_is_aligned (fold : nat) (s s1 : state)
    (sp : fold_split path) :
  use_dtms mist_args = true ->
  split_fold ext mist_args training_paths_dataframe fold s = (Val sp, s1) ->
  exists d,
    split_train_dtms sp = PyTuple d
    /\ List.length (train_images sp) = List.length (train_labels sp)
    /\ List.length (train_labels sp) = List.length d
    /\ List.length (val_images sp) = List.length (val_labels sp)
    /\ 0 < List.length (train_images sp)
    /\ 0 < List.length (val_images sp).
Proof.
  intros Hdtms Hsplit.
  destruct (split_fold_shape fold s s1 sp Hsplit) as [H1 [H2 H3]].
  rewrite Hdtms in H3. destruct H3 as [d [Hd [Hlen [Hpos Hval]]]].
  exists d. repeat split; try assumption; lia.
Qed.

(** **** [steps_per_epoch] (lines 342-350) and [val_steps] (line 314) *)

Lemma inv_returns {A} (I : state -> Prop) (m : M state A) :
  inv I m -> hoare I m (fun _ => I) (fun _ _ => True).
Proof.
  intros H. eapply hoare_conseq; [exact H| | |]; simpl; auto.
Qed.

Ltac prefix_keeps :=
  repeat (lazymatch goal with
          | |- hoare _ (bind _ _) _ _ =>
              apply hoare_after_inv; [inv_any|auto|intros]
          end).

Lemma build_fold_steps (rank world_size fold : nat) (sp : fold_split path)
    (spe0 : option nat) :
  hoare (fun s => steps_per_epoch s = spe0)
        (build_fold ext mist_args rank world_size fold sp)
        (fun _ s =>
           steps_per_epoch s
           = Some (match spe0 with
                   | Some n => n
                   | None => List.length (train_images sp)
                             / batch_size mist_args
                   end))
        (fun _ _ => True).
Proof.
  unfold build_fold.
  do 6 (apply hoare_after_inv; [inv_any|auto|intros ?]).
  eapply hoare_bind with (R := fun spe s => spe = spe0).
  { intros s Hs. exact Hs. }
  intros spe.
  eapply hoare_bind with
    (R := fun _ s =>
            steps_per_epoch s
            = Some (match spe0 with
                    | Some n => n
                    | None => List.length (train_images sp)
                              / batch_size mist_args
                    end)).
  - destruct spe as [n|]; intros s Hs; subst spe0.
    + reflexivity.
    + unfold floordiv, bind.
      destruct (batch_size mist_args =? 0)%nat; simpl; [exact I|reflexivity].
  - intros _. prefix_keeps. as_inv. inv_any.
Qed.

(** X3. A fold that runs through leaves [steps_per_epoch] at the value it
    was given; if none was given, at the number of training images of that
    fold divided by the batch size. The attribute is assigned on the shared
    arguments, so every later fold finds it given and keeps the first
    fold's value, whatever the size of its own training subset. *)
Theorem steps_per_epoch_is_fixed_by_first_fold (rank world_size fold : nat)
    (s s1 s' : state) (sp : fold_split path) :
  split_fold ext mist_args training_paths_dataframe fold s = (Val sp, s1) ->
  fold_body ext mist_args training_paths_dataframe rank world_size fold s
  = (Val tt, s') ->
  steps_per_epoch s'
  = Some (match steps_per_epoch s with
          | Some n => n
          | None => List.length (train_images sp) / batch_size mist_args
          end).
Proof.
  intros Hsplit Hrun.
  rewrite (fold_body_after_split rank world_size fold s s1 sp Hsplit) in Hrun.
  destruct (split_fold_state fold s s1 sp Hsplit) as [_ Hspe].
  assert (H : hoare (fun s0 => steps_per_epoch s0 = steps_per_epoch s)
                (bind (check_validation_size sp world_size)
                   (fun _ => bind (build_fold ext mist_args rank world_size fold sp)
                     (fun _ => bind (epoch_loop ext mist_args rank fold)
                       (fun _ => emit ipdb_set_trace))))
                (fun _ s0 =>
                   steps_per_epoch s0
                   = Some (match steps_per_epoch s with
                           | Some n => n
                           | None => List.length (train_images sp)
                                     / batch_size mist_args
                           end))
                (fun _ _ => True)).
  { apply hoare_after_inv; [inv_any|auto|intros _].
    eapply hoare_bind; [apply build_fold_steps|].
    intros ?. cbv beta. apply inv_returns. inv_any. }
  specialize (H s1 Hspe). rewrite Hrun in H. exact H.
Qed.

Lemma inv_const {A} (P : Prop) (m : M state A) : inv (fun _ => P) m.
Proof. intros s H. destruct (m s) as [[a|e] s']; exact H. Qed.

Lemma build_fold_scope (rank world_size fold : nat) (sp : fold_split path) :
  hoare (fun _ => True)
        (build_fold ext mist_args rank world_size fold sp)
        (fun _ s =>
           world_size <> 0
           /\ fold_scope s
              = Some {| fo_fold := fold;
                        val_steps := List.length (val_images sp) / world_size;
                        train_dtms := split_train_dtms sp |})
        (fun _ _ => True).
Proof.
  unfold build_fold.
  eapply hoare_bind with
    (R := fun vs _ => world_size <> 0
                      /\ vs = List.length (val_images sp) / world_size).
  { intros s _. unfold floordiv.
    destruct (world_size =? 0)%nat eqn:E; simpl; [exact I|].
    apply Nat.eqb_neq in E. auto. }
  intros vs.
  repeat (lazymatch goal with
          | |- hoare _ (bind (modify (set_fold_scope _)) _) _ _ => fail
          | |- hoare _ (bind _ _) _ _ =>
              apply hoare_after_inv; [apply inv_const|auto|intros]
          end).
  intros s [Hws ->]. simpl. auto.
Qed.

(** X4. A fold that is set up gives every worker
    [len(val_images) // world_size] validation steps: at least one, and
    together they cover all but fewer than [world_size] validation
    images. *)
Theorem every_worker_has_a_validation_step (rank world_size fold : nat)
    (s s1 s' : state) (sp : fold_split path) :
  split_fold ext mist_args training_paths_dataframe fold s = (Val sp, s1) ->
  prepare_fold ext mist_args training_paths_dataframe rank world_size fold s
  = (Val tt, s') ->
  exists fo,
    fold_scope s' = Some fo
    /\ fo_fold fo = fold
    /\ val_steps fo = List.length (val_images sp) / world_size
    /\ 1 <= val_steps fo
    /\ val_steps fo * world_size <= List.length (val_images sp)
    /\ List.length (val_images sp) < (val_steps fo + 1) * world_size.
Proof.
  intros Hsplit Hrun.
  rewrite (prepare_fold_after_split rank world_size fold s s1 sp Hsplit) in Hrun.
  rewrite bind_run in Hrun. unfold check_validation_size in Hrun.
  destruct (Nat.ltb_spec (List.length (val_images sp)) world_size) as [Hlt|Hge];
    [discriminate Hrun|]. simpl in Hrun.
  pose proof (build_fold_scope rank world_size fold sp s1 I) as H.
  rewrite Hrun in H. destruct H as [Hws Hfo].
  eexists. split; [exact Hfo|]. simpl.
  split; [reflexivity|]. split; [reflexivity|].
  pose proof (Nat.div_mod_eq (List.length (val_images sp)) world_size) as Hdm.
  pose proof (Nat.mod_upper_bound (List.length (val_images sp)) world_size Hws)
    as Hmod.
  split; [apply Nat.div_str_pos; lia|]. split; nia.
Qed.

(** *** Workers of rank other than 0 (lines 706-813) *)

Lemma epoch_loop_other_rank (rank fold pc : nat) :
  rank <> 0 -> pc < 50 ->
  forall (k a : nat) (s : state),
    patch_counter s = Some pc ->
    exists s',
      for_each (seq a k) (epoch_body ext rank fold) s = (Val tt, s')
      /\ trace s' = trace s ++ repeat model_train k
      /\ data s' = data s
      /\ patch_counter s' = Some pc
      /\ train_loader_position s' = train_loader_position s.
Proof.
  intros Hrank Hpc k.
  assert (Hrk : (rank =? 0)%nat = false) by (apply Nat.eqb_neq; exact Hrank).
  assert (Hge : (50 <=? pc)%nat = false) by (apply Nat.leb_gt; exact Hpc).
  induction k as [|k IH]; intros a s Hs; simpl.
  - exists s. rewrite app_nil_r. auto.
  - rewrite bind_run. unfold epoch_body at 1.
    rewrite bind_run. cbv [modify]. cbv beta iota.
    run_emit. set (s1 := set_trace _ _).
    assert (Hs1 : patch_counter s1 = Some pc) by exact Hs.
    rewrite bind_run, Hrk. cbv [ret]. cbv beta iota.
    rewrite bind_run. unfold read_local. rewrite Hs1, Hge. cbv beta iota.
    destruct (IH (S a) s1 Hs1) as [s' [Hrun [Ht [Hd [Hp Hl]]]]].
    exists s'. split; [exact Hrun|]. split; [|auto].
    rewrite Ht. unfold s1. simpl. rewrite <- app_assoc. reflexivity.
Qed.

(** X5. On a worker of rank other than 0 the epoch loop of a fold does
    nothing but switch the model to training mode once per configured epoch:
    it reads no batch, leaves [data] and the loader where they were and the
    counter at 0, never leaves the loop early, and ends in the debugger. *)
Theorem other_ranks_epoch_loop_is_idle (rank world_size fold : nat)
    (s0 s : state) :
  rank <> 0 ->
  prepare_fold ext mist_args training_paths_dataframe rank world_size fold s0
  = (Val tt, s) ->
  exists s',
    fold_body ext mist_args training_paths_dataframe rank world_size fold s0
    = (Val tt, s')
    /\ trace s'
       = trace s ++ repeat model_train (epochs mist_args) ++ [ipdb_set_trace]
    /\ data s' = data s
    /\ train_loader_position s' = train_loader_position s
    /\ patch_counter s' = Some 0.
Proof.
  intros Hrank Hprep.
  destruct (prepare_fold_post rank world_size fold s0 s Hprep) as [Hpc _].
  destruct (epoch_loop_other_rank rank fold 0 Hrank ltac:(lia)
              (epochs mist_args) 0 s Hpc)
    as [s' [Hrun [Ht [Hd [Hp Hl]]]]].
  exists (set_trace (trace s' ++ [ipdb_set_trace]) s').
  split.
  { unfold fold_body. rewrite bind_run, Hprep.
    unfold epoch_loop, range. rewrite bind_run, Hrun. reflexivity. }
  simpl. rewrite Ht, <- app_assoc. auto.
Qed.

Lemma inv_and {A} (I J : state -> Prop) (m : M state A) :
  inv I m -> inv J m -> inv (fun s => I s /\ J s) m.
Proof.
  intros HI HJ s [Hi Hj]. specialize (HI s Hi). specialize (HJ s Hj).
  destruct (m s) as [[a|e] s']; split; assumption.
Qed.

Local Abbreviation idle s0 :=
  (fun s : state => within RunAux.idle_event 0 s0 s /\ data s = None).

Lemma idle_read_data (s0 : state) (Qv : batch tensor -> state -> Prop) :
  hoare (idle s0)
        (read_local "data" (@data tensor path weights rng))
        Qv (fun _ => idle s0).
Proof.
  intros s [Hw Hd]. unfold read_local. rewrite Hd. split; assumption.
Qed.

(** Without a batch in [data] the statements below the fold loop stop at
    their first use of it. *)
Lemma after_folds_idle (s0 : state) (rank world_size : nat) :
  hoare (idle s0) (after_folds ext mist_args rank world_size)
        (fun _ _ => False) (fun _ => idle s0).
Proof.
  unfold after_folds.
  apply hoare_after_inv; [apply inv_and; inv_any|auto|intros e].
  eapply hoare_bind; [|intros; apply hoare_unreachable].
  unfold call_train_step.
  apply hoare_after_inv; [apply inv_and; inv_any|auto|intros _].
  cbv zeta.
  destruct (use_dtms mist_args);
    (eapply hoare_bind;
     [apply idle_read_data|intros; apply hoare_unreachable]).
Qed.

(** X6. A worker of rank other than 0 never trains. Whatever the
    configuration, its run of [train] ends in an exception with [data]
    still unbound, and all it has called is the set-up of the process group
    and of the folds, [model.train], the debugger and the alpha schedule:
    no batch read, no file written, no forward or backward pass, no
    optimizer step, no reduction. *)
Theorem other_ranks_never_train (rank world_size : nat) (g : rng)
    (steps : option nat) (w : weights) :
  rank <> 0 ->
  let r := train ext mist_args training_paths_dataframe rank world_size
             (initial_state g steps w) in
  is_exc (fst r) = true
  /\ forallb RunAux.idle_event (trace (snd r)) = true
  /\ data (snd r) = None.
Proof.
  intros Hrank.
  assert (Hrk : (rank =? 0)%nat = false) by (apply Nat.eqb_neq; exact Hrank).
  set (s0 := initial_state g steps w : state).
  assert (H : hoare (idle s0)
                (train ext mist_args training_paths_dataframe rank world_size)
                (fun _ _ => False) (fun _ => idle s0)).
  { unfold train.
    do 4 (apply hoare_after_inv; [apply inv_and; inv_any|auto|intros]).
    apply after_folds_idle. }
  specialize (H s0 (conj (within_refl RunAux.idle_event 0 s0) eq_refl)).
  cbv zeta.
  destruct (train ext mist_args training_paths_dataframe rank world_size s0)
    as [[a|e] s']; [contradiction|].
  destruct H as [[[added [Ht [Hok _]]] _] Hd]. simpl in Ht. simpl.
  rewrite Ht. auto.
Qed.

(** *** One training step (lines 448-673) *)

(** The composite loss reads nothing of the interpreter state. *)
Lemma compute_loss_pure {S : Type} (args : mist_arguments)
    (lf : Loss.loss_call tensor -> Q) (vf : tensor -> tensor -> Q)
    (nf : positive -> param -> Q) (ps : list param) (x y : tensor)
    (d : option tensor) (alpha : option Q) (o : Loss.model_output tensor)
    (s : S) :
  Loss.compute_loss args lf vf nf ps x y d alpha o s
  = (fst (Loss.compute_loss args lf vf nf ps x y d alpha o tt), s).
Proof.
  unfold Loss.compute_loss, Loss.supervised_loss, bind, subscript, ret, raise.
  destruct (arg_deep_supervision args), (Loss.deep_supervision o),
    (arg_vae_reg args), (Loss.vae_reg o); reflexivity.
Qed.

(** X7. [train_step] first zeroes the gradients and runs the forward pass.
    If the loss cannot be computed it stops there: no backward pass, no
    call of the optimizer or the scaler, the weights as they were.
    Otherwise it returns the loss after one backward pass and exactly one
    call that steps -- [optimizer.step()], or under mixed precision
    [amp_gradient_scaler.step(optimizer)] -- with clipping before it when
    configured; under mixed precision the gradients are unscaled before
    they are clipped and the scaler is updated after the step. The weights
    are then the optimizer's update, except that under mixed precision a
    step on which the scaler found an inf or a NaN among the gradients
    leaves them as they were. *)
Theorem train_step_outcome (x y : tensor) (d : option tensor)
    (alpha : option Q) (s : state) :
  let w := model_weights s in
  let r := train_step ext mist_args x y d alpha s in
  match fst (Loss.compute_loss mist_args (Ext.loss_fn ext)
               (Ext.vae_loss_fn ext) (Ext.norm ext) (Ext.parameters ext w)
               x y d alpha (Ext.forward ext w x) tt) with
  | Val l =>
      fst r = Val l
      /\ trace (snd r)
         = trace s
           ++ [zero_grad; model_forward; backward (amp mist_args)]
           ++ (if clip_norm mist_args
               then if amp mist_args
                    then [scaler_unscale; clip_grad_norm]
                    else [clip_grad_norm]
               else [])
           ++ [optimizer_step (amp mist_args)]
           ++ (if amp mist_args then [scaler_update] else [])
      /\ model_weights (snd r)
         = (if amp mist_args && Ext.scaler_found_inf ext w l
            then w
            else Ext.optimizer_update ext w l)
  | Exc e =>
      fst r = Exc e
      /\ trace (snd r) = trace s ++ [zero_grad; model_forward]
      /\ model_weights (snd r) = w
  end.
Proof.
  cbv zeta. unfold train_step, forward_and_loss, apply_optimizer.
  destruct (amp mist_args), (clip_norm mist_args);
    cbv [bind emit modify gets ret]; simpl;
    rewrite (@compute_loss_pure state);
    destruct (fst (Loss.compute_loss _ _ _ _ _ _ _ _ _ _ tt)) as [l|e];
    simpl; try destruct (Ext.scaler_found_inf ext (model_weights s) l);
    simpl; rewrite <- ?app_assoc; simpl; auto.
Qed.

(** *** The checkpoint decision (lines 849-873) *)

Lemma lt_best_irrefl (v : Q) : lt_best v (Finite v) = false.
Proof.
  simpl. apply negb_false_iff. apply Qle_bool_iff. apply Qle_refl.
Qed.

Lemma checkpoint_if_improved_state (s : state) (rv : Q)
    (r0 : rank0_objects) (fo : fold_objects path) :
  running_val_loss s = Some rv -> rank0_scope s = Some r0 ->
  fold_scope s = Some fo ->
  let s1 := snd (checkpoint_if_improved (tensor := tensor) (path := path)
                   (weights := weights) (rng := rng) s) in
  running_val_loss s1 = Some rv
  /\ fold_scope s1 = Some fo
  /\ exists r1, rank0_scope s1 = Some r1
                /\ lt_best rv (best_validation_loss r1) = false.
Proof.
  intros Hrv Hr0 Hfo. cbv zeta. unfold checkpoint_if_improved.
  cbv [bind read_local]. rewrite Hrv, Hr0.
  destruct (lt_best rv (best_validation_loss r0)) eqn:Hlt.
  - cbv [emit modify]. cbn -[lt_best]. rewrite Hfo. cbn -[lt_best].
    split; [exact Hrv|]. split; [exact Hfo|].
    eexists. split; [reflexivity|]. apply lt_best_irrefl.
  - cbn -[lt_best]. split; [exact Hrv|]. split; [exact Hfo|].
    exists r0. split; [exact Hr0|exact Hlt].
Qed.

(** X8. The checkpoint decision is strict: run a second time on the same
    validation mean it never saves again and leaves the best-value record
    as the first run left it -- whether the first run saved or not. *)
Theorem checkpoint_is_not_repeated (s : state) (rv : Q) (r0 : rank0_objects)
    (fo : fold_objects path) :
  running_val_loss s = Some rv -> rank0_scope s = Some r0 ->
  fold_scope s = Some fo ->
  let s1 := snd (checkpoint_if_improved (tensor := tensor) (path := path)
                   (weights := weights) (rng := rng) s) in
  let r2 := checkpoint_if_improved s1 in
  fst r2 = Val tt
  /\ trace (snd r2)
     = trace s1 ++ [console_print "Validation loss did NOT improve"]
  /\ rank0_scope (snd r2) = rank0_scope s1.
Proof.
  intros Hrv Hr0 Hfo s1 r2.
  destruct (checkpoint_if_improved_state s rv r0 fo Hrv Hr0 Hfo)
    as [Hrv1 [Hfo1 [r1 [Hr1 Hlt]]]].
  fold s1 in Hrv1, Hfo1, Hr1.
  destruct (checkpoint_if_improved_run s1 rv r1 fo Hrv1 Hr1 Hfo1) as [Hv H].
  rewrite Hlt in H. destruct H as [Ht Hs]. unfold r2.
  split; [exact Hv|]. split; [exact Ht|]. rewrite Hs, Hr1. reflexivity.
Qed.

(** *** Who ends up where in the split (lines 254-303) *)

Lemma nth_error_combine {A B} (xs : list A) (ys : list B) (i : nat) :
  nth_error (combine xs ys) i
  = match nth_error xs i, nth_error ys i with
    | Some x, Some y => Some (x, y)
    | _, _ => None
    end.
Proof.
  revert ys i. induction xs as [|x xs IH]; intros ys i;
    destruct ys as [|y ys], i as [|i]; simpl; try reflexivity.
  - destruct (nth_error xs i); reflexivity.
  - apply IH.
Qed.

Lemma take_indices_pairs {A B} (xs : list A) (ys : list B) (idx : list nat) :
  List.length xs = List.length ys ->
  incl (combine (take_indices xs idx) (take_indices ys idx)) (combine xs ys).
Proof.
  intros Hlen. unfold take_indices.
  induction idx as [|i idx IH]; simpl; [intros ? []|].
  destruct (nth_error xs i) as [x|] eqn:Hx, (nth_error ys i) as [y|] eqn:Hy;
    simpl.
  - apply incl_cons; [|exact IH].
    apply nth_error_In with i. rewrite nth_error_combine, Hx, Hy. reflexivity.
  - exfalso. apply nth_error_None in Hy.
    assert (i < List.length xs) by (apply nth_error_Some; congruence). lia.
  - exfalso. apply nth_error_None in Hx.
    assert (i < List.length ys) by (apply nth_error_Some; congruence). lia.
  - exact IH.
Qed.

Lemma take_indices_incl {A} (xs : list A) (idx : list nat) :
  incl (take_indices xs idx) xs.
Proof.
  unfold take_indices. induction idx as [|i idx IH]; simpl; [intros ? []|].
  destruct (nth_error xs i) as [x|] eqn:Hx; simpl; [|exact IH].
  apply incl_cons; [|exact IH]. apply nth_error_In with i. exact Hx.
Qed.

Lemma take_indices_app {A} (xs : list A) (idx1 idx2 : list nat) :
  take_indices xs (idx1 ++ idx2) = take_indices xs idx1 ++ take_indices xs idx2.
Proof. unfold take_indices. apply flat_map_app. Qed.

Lemma take_indices_NoDup {A} (xs : list A) (idx : list nat) :
  NoDup xs -> NoDup idx -> NoDup (take_indices xs idx).
Proof.
  intros Hxs. unfold take_indices.
  induction idx as [|i idx IH]; intros Hidx; simpl; [constructor|].
  inversion Hidx as [|? ? Hi Hrest]; subst.
  destruct (nth_error xs i) as [x|] eqn:Hx; simpl; [|apply IH; exact Hrest].
  constructor; [|apply IH; exact Hrest].
  intros Hin. apply in_flat_map in Hin. destruct Hin as [j [Hj Hin]].
  destruct (nth_error xs j) as [x'|] eqn:Hxj; [|destruct Hin].
  destruct Hin as [E|[]]. subst x'.
  assert (E : i = j).
  { apply (proj1 (NoDup_nth_error xs) Hxs).
    - apply nth_error_Some. congruence.
    - congruence. }
  subst j. contradiction.
Qed.

Lemma NoDup_app_disjoint {A} (l1 l2 : list A) (a : A) :
  NoDup (l1 ++ l2) -> In a l1 -> In a l2 -> False.
Proof.
  intros H H1 H2. apply in_split in H2. destruct H2 as [m1 [m2 ->]].
  rewrite app_assoc in H. apply NoDup_remove_2 in H.
  apply H. apply in_or_app. left. apply in_or_app. left. exact H1.
Qed.

Lemma split_indices_NoDup (p : list nat) (n_train n_test : nat) :
  NoDup p -> NoDup (firstn n_train (skipn n_test p) ++ firstn n_test p).
Proof.
  intros H.
  assert (H' : NoDup (firstn n_test p ++ skipn n_test p))
    by (rewrite firstn_skipn; exact H).
  assert (Hb : NoDup (firstn n_train (skipn n_test p)
                      ++ skipn n_train (skipn n_test p)))
    by (rewrite firstn_skipn; exact (NoDup_app_remove_l _ _ H')).
  apply NoDup_app.
  - exact (NoDup_app_remove_r _ _ Hb).
  - exact (NoDup_app_remove_r _ _ H').
  - intros a Ha Ha'. apply (NoDup_app_disjoint _ _ a H' Ha').
    rewrite <- (firstn_skipn n_train (skipn n_test p)).
    apply in_or_app. left. exact Ha.
Qed.

Lemma split_fst {A B} (l : list (A * B)) : fst (List.split l) = map fst l.
Proof.
  induction l as [|[a b] l IH]; simpl; [reflexivity|].
  destruct (List.split l); simpl in *. f_equal. exact IH.
Qed.

Lemma split_snd {A B} (l : list (A * B)) : snd (List.split l) = map snd l.
Proof.
  induction l as [|[a b] l IH]; simpl; [reflexivity|].
  destruct (List.split l); simpl in *. f_equal. exact IH.
Qed.

Lemma in_combine_map_fst {A B C} (a : list A) (c : list (B * C))
    (x : A) (l : B) :
  In (x, l) (combine a (map fst c)) -> exists d, In (x, (l, d)) (combine a c).
Proof.
  revert c. induction a as [|x0 a IH]; intros c;
    destruct c as [|[l0 d0] c]; simpl; try contradiction.
  intros [E|H].
  - injection E as <- <-. exists d0. left. reflexivity.
  - destruct (IH c H) as [d Hd]. exists d. right. exact Hd.
Qed.

Lemma in_combine_combine {A B C} (xs : list A) (ys : list B) (zs : list C)
    (x : A) (l : B) (d : C) :
  In (x, (l, d)) (combine xs (combine ys zs)) -> In (x, l) (combine xs ys).
Proof.
  revert ys zs. induction xs as [|x0 xs IH]; intros ys zs;
    destruct ys as [|y ys], zs as [|z zs]; simpl; try contradiction.
  intros [E|H].
  - injection E as <- <- <-. left. reflexivity.
  - right. eapply IH. exact H.
Qed.

Lemma combine_map_fst_snd {B C} (c : list (B * C)) :
  combine (map fst c) (map snd c) = c.
Proof.
  induction c as [|[b d] c IH]; simpl; [reflexivity|]. f_equal. exact IH.
Qed.

(** The four parts [train_test_split] returns are taken at the same
    positions of both sequences: a prefix of a drawn permutation for the
    test part, what follows it for the training part. *)
Lemma train_test_split_parts {A B} (xs : list A) (ys : list B) (p : Q)
    (random_state : option Z) (s s' : state)
    (a b : list A) (c d : list B) :
  train_test_split ext xs ys p random_state s = (Val (a, b, c, d), s') ->
  List.length xs = List.length ys
  /\ exists g n_train n_test,
       let q := fst (Ext.permutation ext g (List.length xs)) in
       a = take_indices xs (firstn n_train (skipn n_test q))
       /\ b = take_indices xs (firstn n_test q)
       /\ c = take_indices ys (firstn n_train (skipn n_test q))
       /\ d = take_indices ys (firstn n_test q).
Proof.
  unfold train_test_split.
  destruct (List.length xs =? List.length ys)%nat eqn:Hlen; simpl;
    [|discriminate].
  apply Nat.eqb_eq in Hlen.
  destruct (Ext.validate_shuffle_split ext p (List.length xs))
    as [[n_train n_test]|]; [|discriminate].
  rewrite bind_run. unfold draw_permutation.
  destruct random_state as [seed|].
  - cbv [ret]. intros E. injection E as <- <- <- <- _.
    split; [exact Hlen|].
    exists (Ext.RandomState ext seed), n_train, n_test. cbv zeta. auto.
  - destruct (Ext.permutation ext (global_rng s) (List.length xs))
      as [q g'] eqn:Hq.
    cbv [ret]. intros E. injection E as <- <- <- <- _.
    split; [exact Hlen|].
    exists (global_rng s), n_train, n_test. cbv zeta. rewrite Hq. auto.
Qed.

Lemma unpack_pairs_run {A B} (l : list (A * B)) (s s' : state)
    (r : list A * list B) :
  unpack_pairs l s = (Val r, s') -> r = (map fst l, map snd l) /\ s' = s.
Proof.
  unfold unpack_pairs. destruct l as [|x l0] eqn:El; [discriminate|].
  rewrite <- El. cbv [ret]. intros E. injection E as <- <-.
  split; [|reflexivity].
  rewrite <- split_fst, <- split_snd. apply surjective_pairing.
Qed.

Lemma split_fold_parts (fold : nat) (s s1 : state) (sp : fold_split path) :
  split_fold ext mist_args training_paths_dataframe fold s = (Val sp, s1) ->
  let ids := map row_id (filter (fun r => negb (row_fold r =? fold)%nat)
                           training_paths_dataframe) in
  let images := Ext.get_numpy_file_paths_list ext "images" ids in
  let labels := Ext.get_numpy_file_paths_list ext "labels" ids in
  let dtms := Ext.get_numpy_file_paths_list ext "dtms" ids in
  exists g n_train n_test,
    let q := fst (Ext.permutation ext g (List.length images)) in
    let ind_train := firstn n_train (skipn n_test q) in
    let ind_test := firstn n_test q in
    train_images sp = take_indices images ind_train
    /\ val_images sp = take_indices images ind_test
    /\ if use_dtms mist_args
       then List.length images = List.length (combine labels dtms)
            /\ train_labels sp
               = map fst (take_indices (combine labels dtms) ind_train)
            /\ val_labels sp
               = map fst (take_indices (combine labels dtms) ind_test)
            /\ split_train_dtms sp
               = PyTuple (map snd (take_indices (combine labels dtms)
                                     ind_train))
       else List.length images = List.length labels
            /\ train_labels sp = take_indices labels ind_train
            /\ val_labels sp = take_indices labels ind_test
            /\ split_train_dtms sp = PyNone.
Proof.
  cbv zeta. unfold split_fold. destruct (use_dtms mist_args); run_emit;
    rewrite bind_run;
    match goal with
    | |- context [train_test_split ext ?xs ?ys ?p ?rs ?s0] =>
        pose proof (train_test_split_parts xs ys p rs s0) as Hparts;
        destruct (train_test_split ext xs ys p rs s0) as [[x|e] s']
    end; try discriminate.
  - destruct x as [[[tr_i va_i] tr_ld] va_ld].
    destruct (Hparts s' _ _ _ _ eq_refl)
      as [Hlen [g [n_train [n_test [Ha [Hb [Hc Hd]]]]]]].
    rewrite bind_run.
    destruct (unpack_pairs tr_ld s') as [[[tr_l tr_d]|e] s2] eqn:E1;
      [|discriminate].
    apply unpack_pairs_run in E1. destruct E1 as [E1 ->].
    injection E1 as -> ->. cbv beta iota. rewrite bind_run.
    destruct (unpack_pairs va_ld s') as [[[va_l va_d]|e] s2] eqn:E2;
      [|discriminate].
    apply unpack_pairs_run in E2. destruct E2 as [E2 ->].
    injection E2 as -> ->. cbv beta iota.
    cbv [ret]. intros E. injection E as <- _.
    cbn [train_images val_images train_labels val_labels split_train_dtms].
    exists g, n_train, n_test. subst.
    repeat split; try reflexivity; assumption.
  - destruct x as [[[tr_i va_i] tr_l] va_l].
    destruct (Hparts s' _ _ _ _ eq_refl)
      as [Hlen [g [n_train [n_test [Ha [Hb [Hc Hd]]]]]]].
    cbv [ret]. intros E. injection E as <- _.
    exists g, n_train, n_test. subst. simpl.
    repeat split; try reflexivity; assumption.
Qed.

(** X18. A split that succeeds keeps every patient's files together: each
    training or validation image is paired with the label that stood at the
    same position of the lists built for the fold, and with distance maps
    in use each training label with the distance map of that position. *)
Theorem split_keeps_pairs (fold : nat) (s s1 : state)
    (sp : fold_split path) :
  split_fold ext mist_args training_paths_dataframe fold s = (Val sp, s1) ->
  let ids := map row_id (filter (fun r => negb (row_fold r =? fold)%nat)
                           training_paths_dataframe) in
  let images := Ext.get_numpy_file_paths_list ext "images" ids in
  let labels := Ext.get_numpy_file_paths_list ext "labels" ids in
  let dtms := Ext.get_numpy_file_paths_list ext "dtms" ids in
  incl (combine (train_images sp) (train_labels sp)) (combine images labels)
  /\ incl (combine (val_images sp) (val_labels sp)) (combine images labels)
  /\ match split_train_dtms sp with
     | PyTuple d | PyList d =>
         incl (combine (train_labels sp) d) (combine labels dtms)
     | PyNone => True
     end.
Proof.
  intros Hsplit. cbv zeta.
  destruct (split_fold_parts fold s s1 sp Hsplit)
    as [g [n_train [n_test [Htr [Hva Hrest]]]]].
  cbv zeta in Htr, Hva, Hrest.
  destruct (use_dtms mist_args).
  - destruct Hrest as [Hlen [Htl [Hvl Hd]]].
    rewrite Htr, Hva, Htl, Hvl, Hd.
    assert (Hthree : forall idx x l,
               In (x, l)
                 (combine
                    (take_indices
                       (Ext.get_numpy_file_paths_list ext "images"
                          (map row_id
                             (filter (fun r => negb (row_fold r =? fold)%nat)
                                training_paths_dataframe))) idx)
                    (map fst
                       (take_indices
                          (combine
                             (Ext.get_numpy_file_paths_list ext "labels"
                                (map row_id
                                   (filter
                                      (fun r => negb (row_fold r =? fold)%nat)
                                      training_paths_dataframe)))
                             (Ext.get_numpy_file_paths_list ext "dtms"
                                (map row_id
                                   (filter
                                      (fun r => negb (row_fold r =? fold)%nat)
                                      training_paths_dataframe)))) idx))) ->
               In (x, l)
                 (combine
                    (Ext.get_numpy_file_paths_list ext "images"
                       (map row_id
                          (filter (fun r => negb (row_fold r =? fold)%nat)
                             training_paths_dataframe)))
                    (Ext.get_numpy_file_paths_list ext "labels"
                       (map row_id
                          (filter (fun r => negb (row_fold r =? fold)%nat)
                             training_paths_dataframe))))).
    { intros idx x l Hin. apply in_combine_map_fst in Hin.
      destruct Hin as [d Hin]. apply (take_indices_pairs _ _ idx Hlen) in Hin.
      eapply in_combine_combine. exact Hin. }
    split; [intros [x l]; apply Hthree|].
    split; [intros [x l]; apply Hthree|].
    rewrite combine_map_fst_snd. apply take_indices_incl.
  - destruct Hrest as [Hlen [Htl [Hvl Hd]]].
    rewrite Htr, Hva, Htl, Hvl, Hd.
    split; [apply take_indices_pairs; exact Hlen|].
    split; [apply take_indices_pairs; exact Hlen|exact I].
Qed.

(** X19. If the generator's permutations have no repeated index and the
    image paths of the fold are pairwise different, a split that succeeds
    puts no image in both subsets and none twice in one: training and
    validation images together are free of duplicates, and all of them are
    images of the fold's list. *)
Theorem split_is_disjoint (fold : nat) (s s1 : state)
    (sp : fold_split path) :
  (forall g n, NoDup (fst (Ext.permutation ext g n))) ->
  let ids := map row_id (filter (fun r => negb (row_fold r =? fold)%nat)
                           training_paths_dataframe) in
  let images := Ext.get_numpy_file_paths_list ext "images" ids in
  NoDup images ->
  split_fold ext mist_args training_paths_dataframe fold s = (Val sp, s1) ->
  NoDup (train_images sp ++ val_images sp)
  /\ incl (train_images sp ++ val_images sp) images.
Proof.
  intros Hperm ids images Himages Hsplit.
  destruct (split_fold_parts fold s s1 sp Hsplit)
    as [g [n_train [n_test [Htr [Hva _]]]]].
  cbv zeta in Htr, Hva. rewrite Htr, Hva, <- take_indices_app.
  split.
  - apply take_indices_NoDup; [exact Himages|].
    apply split_indices_NoDup. apply Hperm.
  - apply take_indices_incl.
Qed.

End Trainer.

End RunFacts.

(** ** Preprocessing *)

Module PreprocessFacts.

Import Preprocess PyFacts.

Section PreprocessDataset.

Variables patient bbox : Type.
Variable fg_bboxes_csv : list bbox.
Variable crop_to_fg : bool.
Variable no_preprocess : bool.

Local Abbreviation state := (Preprocess.state bbox).
Local Abbreviation patient_step :=
  (Preprocess.patient_step fg_bboxes_csv crop_to_fg no_preprocess).
Local Abbreviation preprocess_dataset :=
  (Preprocess.preprocess_dataset (patient := patient)
     fg_bboxes_csv crop_to_fg no_preprocess).

(** The table of bounding boxes is read only under [crop_to_fg], and only
    on the preprocessing path. *)
Lemma fg_bboxes_read_only_when_cropping (df : list patient) (s : state) :
  ~ In read_fg_bboxes_csv (trace s) ->
  In read_fg_bboxes_csv (trace (snd (preprocess_dataset df s))) ->
  crop_to_fg = true /\ no_preprocess = false.
Proof.
  intros Hs Hin.
  destruct crop_to_fg eqn:Hc, no_preprocess eqn:Hn; auto; exfalso;
    revert Hin; apply (inv_run (fun s => ~ In read_fg_bboxes_csv (trace s)));
    try exact Hs;
    unfold Preprocess.preprocess_dataset, Preprocess.patient_step,
      Preprocess.iloc;
    repeat first
      [ apply inv_bind; [|intros]
      | apply inv_for_each; intros
      | apply inv_ret
      | apply inv_raise
      | apply inv_read_local
      | match goal with
        | |- inv _ (Preprocess.emit _) =>
            apply inv_modify; intros s' Hs' Hin'; simpl in Hin';
            apply in_app_or in Hin'; destruct Hin' as [Hin'|[Hin'|[]]];
            [exact (Hs' Hin')|discriminate Hin']
        | |- inv _ (match ?x with _ => _ end) => destruct x
        end ].
Qed.

(** C10. With [no_preprocess] off and [crop_to_fg] off, [fg_bboxes] is
    read without ever having been assigned: on a data frame with at least
    one patient the function stops at the first patient with an unbound
    local, before any example is preprocessed and without the table of
    bounding boxes having been loaded. *)
Theorem fg_bboxes_unbound_without_crop (p : patient) (rest : list patient) :
  no_preprocess = false ->
  crop_to_fg = false ->
  let r := preprocess_dataset (p :: rest) (initial_state bbox) in
  fst r = Exc (UnboundLocalError "fg_bboxes")
  /\ fg_bboxes (snd r) = None
  /\ forallb (fun e => negb (handles_example e)) (trace (snd r)) = true
  /\ ~ In read_fg_bboxes_csv (trace (snd r)).
Proof.
  intros Hn Hc r. unfold r, Preprocess.preprocess_dataset.
  rewrite Hn, Hc. simpl List.length. unfold range. simpl seq.
  cbv [bind Preprocess.emit modify for_each Preprocess.patient_step ret].
  simpl.
  repeat split; try reflexivity.
  intros [H|[H|[H|[H|[]]]]]; discriminate H.
Qed.

Lemma convert_steps (n a : nat) (s : Preprocess.state bbox) :
  for_each (seq a n) (Preprocess.patient_step fg_bboxes_csv crop_to_fg true) s
  = (Val tt, {| trace := trace s ++ map convert_nifti_to_numpy (seq a n);
                fg_bboxes := fg_bboxes s |}).
Proof.
  revert a s. induction n as [|n IH]; intros a s.
  - simpl. rewrite app_nil_r. destruct s; reflexivity.
  - simpl seq. cbn [for_each]. unfold Preprocess.patient_step at 1.
    cbv [bind Preprocess.emit modify ret]. rewrite IH. simpl.
    rewrite <- app_assoc. reflexivity.
Qed.

(** X16. With [no_preprocess] set, every row of the data frame is
    converted, in order, and the function returns; the table of bounding
    boxes is neither loaded nor looked at, whatever [crop_to_fg] says. *)
Theorem no_preprocess_converts_every_patient (df : list patient) :
  let r := Preprocess.preprocess_dataset fg_bboxes_csv crop_to_fg true df
             (initial_state bbox) in
  fst r = Val tt
  /\ trace (snd r)
     = [create_empty_dir "images"; create_empty_dir "labels";
        console_print "Preprocessing dataset";
        get_progress_bar "Converting nifti to npy"]
       ++ map convert_nifti_to_numpy (seq 0 (List.length df))
  /\ fg_bboxes (snd r) = None.
Proof.
  cbv zeta. unfold Preprocess.preprocess_dataset, range.
  cbv [bind Preprocess.emit modify]. rewrite convert_steps. simpl.
  repeat split.
Qed.

Lemma crop_steps (n a : nat) (s : Preprocess.state bbox) :
  let r := for_each (seq a n)
             (Preprocess.patient_step fg_bboxes_csv true false) s in
  let room := List.length fg_bboxes_csv - a in
  fst r = (if n <=? room then Val tt else Exc IndexError)
  /\ trace (snd r)
     = trace s
       ++ flat_map (fun i => [read_fg_bboxes_csv; preprocess_example i])
            (seq a (Nat.min n room))
       ++ (if n <=? room then [] else [read_fg_bboxes_csv]).
Proof.
  revert a s. induction n as [|n IH]; intros a s; cbv zeta.
  - simpl. rewrite app_nil_r. split; reflexivity.
  - simpl seq. cbn [for_each]. unfold Preprocess.patient_step at 1 3.
    cbv [bind Preprocess.emit Preprocess.assign_fg_bboxes modify ret
         read_local Preprocess.iloc]. cbn [fg_bboxes trace fst snd].
    destruct (nth_error fg_bboxes_csv a) as [b|] eqn:Hb.
    + assert (Ha : a < List.length fg_bboxes_csv)
        by (apply nth_error_Some; rewrite Hb; discriminate).
      match goal with
      | |- context [for_each _ _ ?s'] =>
          destruct (IH (S a) s') as [IH1 IH2]
      end.
      cbv [raise]. cbn [fst snd]. rewrite IH1, IH2. cbn [trace].
      replace (List.length fg_bboxes_csv - a)
        with (S (List.length fg_bboxes_csv - S a)) by lia.
      change (S n <=? S ?m) with (n <=? m).
      split; [reflexivity|].
      simpl seq. cbn [flat_map].
      rewrite <- !app_assoc. reflexivity.
    + apply nth_error_None in Hb.
      replace (List.length fg_bboxes_csv - a) with 0 by lia.
      cbv [raise]. cbn [fst snd trace Nat.leb Nat.min seq flat_map app].
      split; reflexivity.
Qed.

(** X17. When preprocessing with [crop_to_fg], the table of bounding boxes
    is loaded again for every patient. The function returns when the table
    has a row for every patient; with a shorter table it raises
    [IndexError] at the first patient without a row, after the patients
    before it have been preprocessed. *)
Theorem cropping_reloads_table_per_patient (df : list patient) :
  let r := Preprocess.preprocess_dataset fg_bboxes_csv true false df
             (initial_state bbox) in
  let rows := List.length fg_bboxes_csv in
  fst r = (if List.length df <=? rows then Val tt else Exc IndexError)
  /\ trace (snd r)
     = [create_empty_dir "images"; create_empty_dir "labels";
        console_print "Preprocessing dataset";
        get_progress_bar "Preprocessing"]
       ++ flat_map (fun i => [read_fg_bboxes_csv; preprocess_example i])
            (seq 0 (Nat.min (List.length df) rows))
       ++ (if List.length df <=? rows then [] else [read_fg_bboxes_csv]).
Proof.
  cbv zeta. unfold Preprocess.preprocess_dataset, range.
  cbv [bind Preprocess.emit modify]. cbn [trace initial_state app].
  match goal with
  | |- context [for_each _ _ ?s'] =>
      destruct (crop_steps (List.length df) 0 s') as [H1 H2]
  end.
  rewrite Nat.sub_0_r in H1, H2.
  destruct (for_each _ _ _) as [r s'] eqn:E. cbn [fst snd] in *.
  rewrite H1, H2.
  destruct (List.length df <=? List.length fg_bboxes_csv); split; reflexivity.
Qed.

End PreprocessDataset.

End PreprocessFacts.

(** ** Runs on explicit inputs *)

Module Runs.

Import Loss Run.
Local Open Scope Q_scope.

(** *** The composite loss *)

(** With a primary loss of 3 and heads losing 2 each, the totals for
    [H = 0], [H = 1] and [H = 3]. *)
Example supervised_loss_H0 :
  exists v,
    fst (supervised_loss (with_deep_supervision true default_arguments)
           Demo.loss_of_prediction 0%nat None None
           (Demo.output_with_heads []) tt) = Val v
    /\ v == 2.
Proof. eexists. split; [reflexivity|]. vm_compute. reflexivity. Qed.

Example supervised_loss_H1 :
  exists v,
    fst (supervised_loss (with_deep_supervision true default_arguments)
           Demo.loss_of_prediction 0%nat None None
           (Demo.output_with_heads [2%nat]) tt) = Val v
    /\ v == 16 # 7.
Proof. eexists. split; [reflexivity|]. vm_compute. reflexivity. Qed.

Example supervised_loss_H3 :
  exists v,
    fst (supervised_loss (with_deep_supervision true default_arguments)
           Demo.loss_of_prediction 0%nat None None
           (Demo.output_with_heads [2%nat; 2%nat; 2%nat]) tt) = Val v
    /\ v == 76 # 31.
Proof. eexists. split; [reflexivity|]. vm_compute. reflexivity. Qed.

Lemma supervised_loss_normalized_witness :
  arg_deep_supervision (with_deep_supervision true default_arguments) = true
  /\ deep_supervision (Demo.output_with_heads [2%nat; 2%nat; 2%nat])
     = Some [2%nat; 2%nat; 2%nat]
  /\ exists total,
       supervised_loss (with_deep_supervision true default_arguments)
         Demo.loss_of_prediction 0%nat None None
         (Demo.output_with_heads [2%nat; 2%nat; 2%nat]) tt
       = (Val total, tt)
       /\ total == (3 + head_sum 3 (fun _ => 2))
                   * (1 / (2 - Qpower 2 (- (Z.of_nat 3 + 1)))).
Proof.
  split; [reflexivity|]. split; [reflexivity|].
  destruct (LossFacts.supervised_loss_normalized nat unit
              (with_deep_supervision true default_arguments)
              Demo.loss_of_prediction 0%nat None None
              (Demo.output_with_heads [2%nat; 2%nat; 2%nat])
              [2%nat; 2%nat; 2%nat] tt eq_refl eq_refl)
    as [total [Hrun Htotal]].
  exists total. split; [exact Hrun|].
  rewrite Htotal. vm_compute. reflexivity.
Defined.

(** With no auxiliary head the listed weights sum to 1, not to
    [2 - 2^-1], and the rescaled weight is 2/3, not 1. *)
Lemma weights_do_not_sum_to_normalizer :
  ~ (weight_sum 0 == 2 - Qpower 2 (- (Z.of_nat 0 + 1)))
  /\ exists w, effective_total_weight 0 = Val w /\ ~ (w == 1).
Proof.
  split.
  - vm_compute. discriminate.
  - eexists. split; [reflexivity|]. vm_compute. discriminate.
Qed.

(** *** The trainer: two workers, one fold, one epoch of two steps *)

Local Close Scope Q_scope.

Local Abbreviation args := (Demo.arguments 1 "dice_ce").

(** Rank 0 writes two batches to files, stops in the debugger, then runs
    the one training step below the fold loop and fails on [pb]: no
    barrier, no validation, no checkpoint. *)
Example train_rank0_run :
  let r := train Demo.ext args Demo.dataframe 0 2 (Demo.start (Some 2)) in
  fst r = Exc (UnboundLocalError "pb")
  /\ trace (snd r)
     = [init_process_group 0 2; cuda_set_device 0;
        console_print "Starting training"; call_train_test_split 0;
        get_training_dataset 0; get_validation_dataset 0; get_loss;
        get_model; convert_sync_batchnorm; model_to 0; wrap_DDP false;
        get_optimizer; get_lr_schedule; new_SummaryWriter 0;
        model_train;
        loader_next train_loader; console_print "myimg.shape";
        image_write (myimage 0 0); image_write (myimage 0 1);
        image_write (mylabel 0);
        loader_next train_loader; console_print "myimg.shape";
        image_write (myimage 1 0); image_write (myimage 1 1);
        image_write (mylabel 1);
        ipdb_set_trace;
        alpha_schedule 0; zero_grad; model_forward; backward false;
        optimizer_step false; lr_scheduler_step; dist_reduce].
Proof. vm_compute. split; reflexivity. Qed.

(** Rank 1 reads no batch at all and fails on [data]. *)
Example train_rank1_run :
  let r := train Demo.ext args Demo.dataframe 1 2 (Demo.start (Some 2)) in
  fst r = Exc (UnboundLocalError "data")
  /\ trace (snd r)
     = [init_process_group 1 2; cuda_set_device 1; call_train_test_split 0;
        get_training_dataset 0; get_validation_dataset 0; get_loss;
        get_model; convert_sync_batchnorm; model_to 1; wrap_DDP false;
        get_optimizer; get_lr_schedule;
        model_train;
        ipdb_set_trace;
        alpha_schedule 0].
Proof. vm_compute. split; reflexivity. Qed.

(** Thirty epochs of three steps on rank 0: the seventeenth epoch brings
    the counter to 50 and is the last one begun. *)
Example rank0_fifty_batches :
  let r := fold_body Demo.ext (Demo.arguments 30 "dice_ce") Demo.dataframe
             0 1 0 (Demo.start (Some 3)) in
  fst r = Val tt
  /\ patch_counter (snd r) = Some 50
  /\ count_events is_model_train (trace (snd r)) = 17
  /\ count_events is_loader_next (trace (snd r)) = 50
  /\ count_events is_label_write (trace (snd r)) = 50
  /\ count_events is_optimizer_step (trace (snd r)) = 0.
Proof. vm_compute. repeat split; reflexivity. Qed.

Lemma well_shaped_demo : well_shaped_batches Demo.ext.
Proof. intros fold pos. simpl. lia. Qed.

Lemma rank0_epoch_loop_dumps_batches_witness :
  let s0 := Demo.start (Some 3) in
  let s := snd (prepare_fold Demo.ext (Demo.arguments 30 "dice_ce")
                  Demo.dataframe 0 1 0 s0) in
  well_shaped_batches Demo.ext
  /\ prepare_fold Demo.ext (Demo.arguments 30 "dice_ce") Demo.dataframe
       0 1 0 s0 = (Val tt, s)
  /\ exists (n m : nat) s',
       steps_per_epoch s = Some n
       /\ fold_body Demo.ext (Demo.arguments 30 "dice_ce") Demo.dataframe
            0 1 0 s0 = (Val tt, s')
       /\ patch_counter s' = Some (Nat.min 50 (m * n)).
Proof.
  intros s0 s.
  assert (Hprep : prepare_fold Demo.ext (Demo.arguments 30 "dice_ce")
                    Demo.dataframe 0 1 0 s0 = (Val tt, s))
    by (vm_compute; reflexivity).
  split; [exact well_shaped_demo|]. split; [exact Hprep|].
  destruct (RunFacts.rank0_epoch_loop_dumps_batches
              nat (string * nat) unit nat Z Demo.ext
              (Demo.arguments 30 "dice_ce") Demo.dataframe 1 0 s0 s
              well_shaped_demo Hprep)
    as [n [m [s' [Hn [Hrun [_ [_ [_ [Hpc _]]]]]]]]].
  exists n, m, s'. split; [exact Hn|]. split; [exact Hrun|exact Hpc].
Defined.

(** *** The checks of a fold *)

(** Two validation images: two workers pass the check, three do not. *)
Example validation_size_at_equality :
  fst (prepare_fold Demo.ext args Demo.dataframe 0 2 0 (Demo.start (Some 2)))
  = Val tt.
Proof. vm_compute. reflexivity. Qed.

Example validation_size_one_less :
  fst (prepare_fold Demo.ext args Demo.dataframe 0 3 0 (Demo.start (Some 2)))
  = Exc (InsufficientValidationSetError 2 3).
Proof. vm_compute. reflexivity. Qed.

Lemma insufficient_validation_set_iff_witness :
  split_fold Demo.ext args Demo.dataframe 0 (Demo.start (Some 2))
  = (Val Demo.split0, Demo.after_split0 (Some 2))
  /\ let r := fold_body Demo.ext args Demo.dataframe 0 3 0
                (Demo.start (Some 2)) in
     fst r = Exc (InsufficientValidationSetError 2 3)
     /\ trace (snd r) = [call_train_test_split 0].
Proof.
  assert (Hsplit : split_fold Demo.ext args Demo.dataframe 0
                     (Demo.start (Some 2))
                   = (Val Demo.split0, Demo.after_split0 (Some 2)))
    by (vm_compute; reflexivity).
  split; [exact Hsplit|].
  apply (proj2 (RunFacts.insufficient_validation_set_iff
                  nat (string * nat) unit nat Z Demo.ext args Demo.dataframe
                  0 3 0 (Demo.start (Some 2)) (Demo.after_split0 (Some 2))
                  Demo.split0 Hsplit)).
  simpl. lia.
Defined.

(** With the boundary loss [bl] and no distance maps the run stops with a
    [ValueError] once both loaders of the fold exist. *)
Lemma boundary_loss_error_after_loaders :
  let r := train Demo.ext (Demo.arguments 1 "bl") Demo.dataframe 0 2
             (Demo.start (Some 2)) in
  fst r = Exc (ValueError
                 "For loss function 'bl', the --use-dtms flag must be enabled.")
  /\ In (get_training_dataset 0) (trace (snd r))
  /\ In (get_validation_dataset 0) (trace (snd r)).
Proof. vm_compute. repeat split; auto 10. Qed.

Lemma boundary_loss_without_dtms_witness :
  str_in (loss (Demo.arguments 1 "bl")) boundary_losses = true
  /\ use_dtms (Demo.arguments 1 "bl") = false
  /\ split_fold Demo.ext (Demo.arguments 1 "bl") Demo.dataframe 0
       (Demo.start (Some 2))
     = (Val Demo.split0, Demo.after_split0 (Some 2))
  /\ 2 <= List.length (val_images Demo.split0)
  /\ 0 < 2
  /\ let r := fold_body Demo.ext (Demo.arguments 1 "bl") Demo.dataframe
                0 2 0 (Demo.start (Some 2)) in
     fst r = Exc (ValueError (use_dtms_message (Demo.arguments 1 "bl")))
     /\ trace (snd r)
        = [call_train_test_split 0; get_training_dataset 0;
           get_validation_dataset 0; get_loss].
Proof.
  assert (Hsplit : split_fold Demo.ext (Demo.arguments 1 "bl") Demo.dataframe
                     0 (Demo.start (Some 2))
                   = (Val Demo.split0, Demo.after_split0 (Some 2)))
    by (vm_compute; reflexivity).
  split; [reflexivity|]. split; [reflexivity|]. split; [exact Hsplit|].
  split; [simpl; lia|]. split; [lia|].
  apply (RunFacts.boundary_loss_without_dtms
           nat (string * nat) unit nat Z Demo.ext (Demo.arguments 1 "bl")
           Demo.dataframe 0 2 0 (Demo.start (Some 2))
           (Demo.after_split0 (Some 2)) Demo.split0).
  - reflexivity.
  - reflexivity.
  - exact Hsplit.
  - simpl. lia.
  - lia.
  - simpl. discriminate.
Defined.

(** The same seed from two different interpreter states. *)
Lemma split_fold_deterministic_witness :
  seed_val args = Some 42%Z
  /\ fst (split_fold Demo.ext args Demo.dataframe 0 (Demo.start None))
     = fst (split_fold Demo.ext args Demo.dataframe 0
              (initial_state 7%Z (Some 5) 1)).
Proof.
  split; [reflexivity|].
  apply (RunFacts.split_fold_deterministic
           nat (string * nat) unit nat Z Demo.ext args Demo.dataframe
           42%Z 0 (Demo.start None) (initial_state 7%Z (Some 5) 1)).
  reflexivity.
Defined.

(** *** Preprocessing: two patients, no cropping *)

Lemma fg_bboxes_unbound_without_crop_witness :
  false = false
  /\ let r := Preprocess.preprocess_dataset (bbox := nat) [] false false
                [0; 1] (Preprocess.initial_state nat) in
     fst r = Exc (UnboundLocalError "fg_bboxes")
     /\ Preprocess.trace (snd r)
        = [Preprocess.create_empty_dir "images";
           Preprocess.create_empty_dir "labels";
           Preprocess.console_print "Preprocessing dataset";
           Preprocess.get_progress_bar "Preprocessing"].
Proof.
  split; [reflexivity|].
  pose proof (PreprocessFacts.fg_bboxes_unbound_without_crop
                nat nat [] false false 0 [1] eq_refl eq_refl) as H.
  cbv zeta in H. destruct H as [Hexc _].
  split; [exact Hexc|reflexivity].
Defined.

End Runs.

(** ** More on the composite loss (lines 466-594) *)

Module LossMore.

Import Loss LossAux LossFacts.
Local Open Scope Q_scope.

Section ComputeLoss.

Variables tensor param : Type.
Variable args : mist_arguments.
Variable loss_fn : loss_call tensor -> Q.
Variable vae_loss_fn : tensor -> tensor -> Q.
Variable norm : positive -> param -> Q.
Variable parameters : list param.

Lemma norm_of_model_parameters_sum (p : positive) :
  norm_of_model_parameters norm parameters p == sum_norms norm p parameters.
Proof.
  unfold norm_of_model_parameters, sum_norms.
  assert (H : forall ps acc,
             fold_left (fun a th => a + norm p th) ps acc
             == acc + fold_right (fun th a => norm p th + a) 0 ps).
  { induction ps as [|th ps IH]; intros acc; simpl.
    - ring.
    - rewrite IH. ring. }
  rewrite H. ring.
Qed.

(** X9. [compute_loss] fails exactly when a term that is switched on does
    not find its key in the model output, with the deep-supervision key
    looked up first. Otherwise it returns the sum of four terms: the
    primary loss (with deep supervision: plus the weighted head losses, all
    rescaled), the VAE loss times its penalty, and the summed 2-norms and
    1-norms of the parameters times their penalties, each only when
    switched on. *)
Theorem compute_loss_total (S : Type) (x label : tensor)
    (dtm : option tensor) (alpha : option Q) (o : model_output tensor)
    (s : S) :
  let r := fst (compute_loss args loss_fn vae_loss_fn norm parameters
                  x label dtm alpha o s) in
  let L := fun p => call_loss args loss_fn label p dtm alpha in
  let H := List.length (heads_of o) in
  match missing_key args o with
  | Some k => r = Exc (KeyError k)
  | None =>
      exists v,
        r = Val v
        /\ v == (if arg_deep_supervision args
                 then (L (prediction o)
                       + head_sum H (fun k => L (nth k (heads_of o)
                                                     (prediction o))))
                      * (1 / (2 - Qpower 2 (- (Z.of_nat H + 1))))
                 else L (prediction o))
                + (if arg_vae_reg args
                   then match vae_reg o with
                        | Some v => vae_penalty args * vae_loss_fn x v
                        | None => 0
                        end
                   else 0)
                + (if l2_reg args
                   then l2_penalty args * sum_norms norm 2 parameters
                   else 0)
                + (if l1_reg args
                   then l1_penalty args * sum_norms norm 1 parameters
                   else 0)
  end.
Proof.
  cbv zeta. unfold missing_key, heads_of, compute_loss, supervised_loss.
  destruct (arg_deep_supervision args), (deep_supervision o) as [heads|];
    cbv [is_none andb bind subscript ret raise]; try reflexivity;
    destruct (arg_vae_reg args), (vae_reg o) as [v|]; try reflexivity;
    cbv beta iota; (eexists; split; [reflexivity|]);
    destruct (l2_reg args), (l1_reg args);
    rewrite ?norm_of_model_parameters_sum;
    try (rewrite (deep_supervision_loop_head_sum tensor args loss_fn label
                    dtm alpha (prediction o) heads));
    unfold c_norm; ring.
Qed.

Lemma head_sum_bounds (H : nat) (L : nat -> Q) (B : Q) :
  (forall k, 0 <= L k /\ L k <= B) ->
  0 <= head_sum H L /\ head_sum H L <= B * (1 - half_pow H).
Proof.
  intros HL. induction H as [|h [IH0 IH1]]; simpl.
  - split; [apply Qle_refl|]. unfold half_pow. simpl.
    setoid_replace (B * (1 - 1)) with 0 by ring. apply Qle_refl.
  - destruct (HL h) as [Hl0 HlB].
    pose proof (half_pow_pos (h + 1)) as Hp.
    replace (h + 1)%nat with (S h) in * by lia.
    split.
    + setoid_replace 0 with (0 + 0) by ring.
      apply Qplus_le_compat; [exact IH0|].
      apply Qmult_le_0_compat; [apply Qlt_le_weak, Hp|exact Hl0].
    + setoid_replace (B * (1 - half_pow (S h)))
        with (B * (1 - half_pow h) + half_pow (S h) * B)
        by (rewrite half_pow_S; ring).
      apply Qplus_le_compat; [exact IH1|].
      apply Qmult_le_l; [exact Hp|exact HlB].
Qed.

(** X10. If every value of the loss function lies between 0 and a bound
    [B], so does the loss before the VAE and parameter-norm terms, with or
    without deep supervision and whatever the number of heads: the
    rescaling keeps the deep-supervised loss within the range of the
    losses it combines. *)
Theorem supervised_loss_bounded (St : Type) (label : tensor)
    (dtm : option tensor) (alpha : option Q) (o : model_output tensor)
    (s : St) (B v : Q) :
  (forall c, 0 <= loss_fn c /\ loss_fn c <= B) ->
  fst (supervised_loss args loss_fn label dtm alpha o s) = Val v ->
  0 <= v /\ v <= B.
Proof.
  intros Hb.
  assert (Hcall : forall p, 0 <= call_loss args loss_fn label p dtm alpha
                            /\ call_loss args loss_fn label p dtm alpha <= B).
  { intros p. unfold call_loss.
    destruct (use_dtms args); [apply Hb|].
    destruct (str_in (loss args) ["cldice"%string]); apply Hb. }
  unfold supervised_loss.
  destruct (arg_deep_supervision args).
  - destruct (deep_supervision o) as [heads|]; simpl; [|discriminate].
    intros E. injection E as <-.
    rewrite (deep_supervision_loop_head_sum tensor args loss_fn label dtm
               alpha (prediction o) heads).
    set (H := List.length heads).
    set (L := fun k => call_loss args loss_fn label
                         (nth k heads (prediction o)) dtm alpha).
    destruct (head_sum_bounds H L B (fun k => Hcall _)) as [Hs0 HsB].
    destruct (Hcall (prediction o)) as [H0 HB].
    pose proof (c_norm_denominator_pos H) as Hd.
    pose proof (half_pow_pos H) as Hp.
    assert (HB0 : 0 <= B) by (eapply Qle_trans; eassumption).
    rewrite c_norm_half_pow.
    assert (Hc : 0 < 1 / (2 - half_pow (S H))).
    { apply Qlt_shift_div_l; [exact Hd|]. rewrite Qmult_0_l. reflexivity. }
    split.
    + apply Qmult_le_0_compat; [|apply Qlt_le_weak, Hc].
      setoid_replace 0 with (0 + 0) by ring.
      apply Qplus_le_compat; assumption.
    + apply Qle_trans
        with ((B + B * (1 - half_pow H)) * (1 / (2 - half_pow (S H)))).
      { apply Qmult_le_compat_r; [|apply Qlt_le_weak, Hc].
        apply Qplus_le_compat; assumption. }
      setoid_replace ((B + B * (1 - half_pow H)) * (1 / (2 - half_pow (S H))))
        with ((B * (2 - half_pow H)) / (2 - half_pow (S H)))
        by (field; intros Hz; rewrite Hz in Hd; discriminate).
      apply Qle_shift_div_r; [exact Hd|].
      rewrite (Qmult_comm B (2 - half_pow H)),
              (Qmult_comm B (2 - half_pow (S H))).
      apply Qmult_le_compat_r; [|exact HB0].
      rewrite half_pow_S.
      setoid_replace (2 - (1 # 2) * half_pow H)
        with ((2 - half_pow H) + (1 # 2) * half_pow H) by ring.
      rewrite <- (Qplus_0_r (2 - half_pow H)) at 1.
      apply Qplus_le_r.
      apply Qmult_le_0_compat; [discriminate|apply Qlt_le_weak, Hp].
  - simpl. intros E. injection E as <-. apply Hcall.
Qed.

End ComputeLoss.

End LossMore.

(** ** The construction of the trainer (lines 44-214) *)

Module InitFacts.

Import Init.

Lemma dict_get_set_same (k : string) (v : json) (d : dict) :
  dict_get k (dict_set k v d) = Some v.
Proof.
  induction d as [|[k' v'] rest IH]; simpl.
  - rewrite String.eqb_refl. reflexivity.
  - destruct (String.eqb k k') eqn:E; simpl.
    + rewrite String.eqb_refl. reflexivity.
    + rewrite E. exact IH.
Qed.

Lemma dict_get_set_other (k k' : string) (v : json) (d : dict) :
  k <> k' -> dict_get k (dict_set k' v d) = dict_get k d.
Proof.
  intros Hne. apply String.eqb_neq in Hne.
  induction d as [|[k0 v0] rest IH]; simpl.
  - rewrite Hne. reflexivity.
  - destruct (String.eqb k' k0) eqn:E; simpl.
    + apply String.eqb_eq in E. subst k0. rewrite Hne. reflexivity.
    + rewrite IH. reflexivity.
Qed.

Section Trainer.

Variable dataframe : Type.
Variable path_join : list string -> string.
Variable path_exists : string -> bool.
Variable read_json_file : string -> outcome json.
Variable read_csv : string -> outcome dataframe.
Variable write_json_file : string -> json -> outcome unit.

Local Abbreviation create :=
  (_create_model_configuration path_join path_exists read_json_file
     write_json_file).
Local Abbreviation init :=
  (Init.init path_join path_exists read_json_file read_csv write_json_file).
Local Abbreviation file_paths_of := (_initialize_file_paths path_join).

Ltac cases H :=
  repeat match type of H with
         | context [match ?x with _ => _ end] =>
             destruct x eqn:?; try discriminate H
         end.

(** What [_create_model_configuration] has done when it returns. *)
Lemma create_returns (args : arguments) (fp : file_paths)
    (ds ds' : data_structures dataframe) (w0 w : list write) :
  create args fp ds w0 = (Ok ds', w) ->
  exists images labels nc ncl cfg p,
    getitem (dataset_description ds) "images" = Ok images
    /\ len images = Ok nc
    /\ getitem (dataset_description ds) "labels" = Ok labels
    /\ len labels = Ok ncl
    /\ model_configuration ds' = Some cfg
    /\ getitem cfg "n_channels" = Ok (of_nat nc)
    /\ getitem cfg "n_classes" = Ok (of_nat ncl)
    /\ getitem cfg "patch_size" = Ok p
    /\ getitem (mist_configuration ds') "patch_size" = Ok p
    /\ dataset_description ds' = dataset_description ds
    /\ w = w0 ++ [(model_configuration_path fp, cfg)]
    /\ (model args = "pretrained"%string ->
        exists loaded,
          read_json_file (pretrained_model_config_path path_join args)
          = Ok loaded
          /\ forall k, k <> "n_channels"%string -> k <> "n_classes"%string ->
                       getitem cfg k = getitem loaded k).
Proof.
  intros H. unfold _create_model_configuration, wbind, lift, wret, wraise in H.
  destruct (getitem (dataset_description ds) "images") as [images|] eqn:Hi;
    [|discriminate H].
  destruct (len images) as [nc|] eqn:Hnc; [|discriminate H].
  destruct (getitem (dataset_description ds) "labels") as [labels|] eqn:Hl;
    [|discriminate H].
  destruct (len labels) as [ncl|] eqn:Hncl; [|discriminate H].
  exists images, labels, nc, ncl.
  destruct (String.eqb (model args) "pretrained") eqn:Hm; simpl negb in H;
    cbv iota in H.
  - (* pretrained *)
    destruct (path_exists (pretrained_model_config_path path_join args));
      [|discriminate H].
    destruct (read_json_file (pretrained_model_config_path path_join args))
      as [loaded|] eqn:Hload; [|discriminate H].
    destruct loaded as [| | | | |d]; simpl in H; try discriminate H.
    set (d' := dict_set "n_classes" (of_nat ncl)
                 (dict_set "n_channels" (of_nat nc) d)) in H.
    destruct (dict_get "patch_size" d') as [p|] eqn:Hp; [|discriminate H].
    destruct (mist_configuration ds) as [| | | | |m] eqn:Hmc; simpl in H;
      try discriminate H.
    destruct (write_json_file (model_configuration_path fp) (JObj d'));
      [|discriminate H].
    injection H as <- <-.
    exists (JObj d'), p. simpl.
    assert (Hget : forall k, k <> "n_channels"%string ->
                             k <> "n_classes"%string ->
                             dict_get k d' = dict_get k d).
    { intros k H1 H2. unfold d'.
      rewrite dict_get_set_other by exact H2.
      apply dict_get_set_other. exact H1. }
    repeat split; try assumption; try reflexivity.
    + unfold d'.
      rewrite dict_get_set_other by discriminate.
      rewrite dict_get_set_same. reflexivity.
    + unfold d'.
      rewrite dict_get_set_same. reflexivity.
    + rewrite Hp. reflexivity.
    + rewrite dict_get_set_same. reflexivity.
    + intros _. exists (JObj d). split; [reflexivity|].
      intros k H1 H2. simpl. rewrite (Hget k H1 H2). reflexivity.
  - (* a new configuration *)
    apply String.eqb_neq in Hm.
    destruct (patch_size args) as [pa|].
    + destruct (mist_configuration ds) as [| | | | |m] eqn:Hmc; simpl in H;
        try discriminate H.
      rewrite dict_get_set_same in H.
      destruct (dict_get "target_spacing" (dict_set "patch_size" pa m))
        as [ts|]; [|discriminate H].
      simpl in H.
      destruct (write_json_file _ _); [|discriminate H].
      injection H as <- <-. eexists. exists pa. simpl.
      rewrite dict_get_set_same.
      repeat split; try assumption; try reflexivity.
      intros Hp. contradiction.
    + destruct (getitem (mist_configuration ds) "patch_size") as [p|] eqn:Hp;
        [|discriminate H].
      destruct (getitem (mist_configuration ds) "target_spacing") as [ts|];
        [|discriminate H].
      simpl in H.
      destruct (write_json_file _ _); [|discriminate H].
      injection H as <- <-. eexists. exists p. simpl.
      repeat split; try assumption; try reflexivity.
      intros Hp'. contradiction.
Qed.

(** What [__init__] hands on from [_create_model_configuration]. *)
Lemma init_returns (args : arguments) (t : trainer dataframe)
    (w0 w : list write) :
  init args w0 = (Ok t, w) ->
  exists dd mc0 df,
    read_json_file (data args) = Ok dd
    /\ create args (file_paths_of args)
         {| dataset_description := dd; mist_configuration := mc0;
            training_paths_dataframe := df; model_configuration := None |} w0
       = (Ok (structures t), w)
    /\ paths t = file_paths_of args.
Proof.
  intros H. unfold Init.init, _initialize_data_structures, require_file in H.
  cbv zeta in H. unfold wbind, lift, wret, wraise in H.
  destruct (path_exists _); [|discriminate H].
  destruct (path_exists _); [|discriminate H].
  destruct (path_exists _); [|discriminate H].
  simpl dataset_description_path in H.
  destruct (read_json_file (data args)) as [dd|]; [|discriminate H].
  destruct (read_json_file _) as [mc0|]; [|discriminate H].
  destruct (read_csv _) as [df|]; [|discriminate H].
  match type of H with
  | context [_create_model_configuration ?a ?b ?c ?d ?e ?f ?g w0] =>
      destruct (_create_model_configuration a b c d e f g w0)
        as [[ds'|e'] w1] eqn:Hc; [|discriminate H]
  end.
  exists dd, mc0, df. split; [reflexivity|].
  destruct (use_config_class_weights args).
  - destruct (getitem (mist_configuration ds') "class_weights");
      [|discriminate H].
    injection H as <- <-. simpl. auto.
  - injection H as <- <-. simpl. auto.
Qed.

(** X11. A trainer that has been constructed trains on the patch size its
    model was configured with: the [patch_size] of the MIST configuration
    and of the model configuration are the same value, for a new model
    (with or without a patch size given by the user) and for a pretrained
    one. *)
Theorem init_patch_sizes_agree (args : arguments) (t : trainer dataframe)
    (w0 w : list write) :
  init args w0 = (Ok t, w) ->
  exists p cfg,
    getitem (mist_configuration (structures t)) "patch_size" = Ok p
    /\ model_configuration (structures t) = Some cfg
    /\ getitem cfg "patch_size" = Ok p.
Proof.
  intros H. destruct (init_returns args t w0 w H) as [dd [mc0 [df [_ [Hc _]]]]].
  destruct (create_returns _ _ _ _ _ _ Hc)
    as [images [labels [nc [ncl [cfg [p H']]]]]].
  exists p, cfg. tauto.
Qed.

(** X12. The numbers of channels and of classes in the model configuration
    are always the numbers of entries of [images] and of [labels] in the
    dataset description that was read -- also for a pretrained model, whose
    stored numbers are overwritten. *)
Theorem init_channels_and_classes (args : arguments) (t : trainer dataframe)
    (w0 w : list write) :
  init args w0 = (Ok t, w) ->
  exists dd images labels nc ncl cfg,
    read_json_file (data args) = Ok dd
    /\ getitem dd "images" = Ok images /\ len images = Ok nc
    /\ getitem dd "labels" = Ok labels /\ len labels = Ok ncl
    /\ model_configuration (structures t) = Some cfg
    /\ getitem cfg "n_channels" = Ok (of_nat nc)
    /\ getitem cfg "n_classes" = Ok (of_nat ncl).
Proof.
  intros H. destruct (init_returns args t w0 w H) as [dd [mc0 [df [Hd [Hc _]]]]].
  destruct (create_returns _ _ _ _ _ _ Hc)
    as [images [labels [nc [ncl [cfg [p H']]]]]].
  simpl in H'. exists dd, images, labels, nc, ncl, cfg. tauto.
Qed.

(** X13. For a pretrained model the constructor keeps the stored model
    configuration: every key other than [n_channels] and [n_classes] has
    the value read from the pretrained model's file, and the patch size of
    the MIST configuration is replaced by the stored one -- the patch size
    and the architecture options given by the user play no part. *)
Theorem pretrained_configuration_is_kept (args : arguments)
    (t : trainer dataframe) (w0 w : list write) :
  model args = "pretrained"%string ->
  init args w0 = (Ok t, w) ->
  exists loaded cfg,
    read_json_file (pretrained_model_config_path path_join args) = Ok loaded
    /\ model_configuration (structures t) = Some cfg
    /\ (forall k, k <> "n_channels"%string -> k <> "n_classes"%string ->
                  getitem cfg k = getitem loaded k)
    /\ getitem (mist_configuration (structures t)) "patch_size"
       = getitem loaded "patch_size".
Proof.
  intros Hm H.
  destruct (init_returns args t w0 w H) as [dd [mc0 [df [_ [Hc _]]]]].
  destruct (create_returns _ _ _ _ _ _ Hc)
    as [images [labels [nc [ncl [cfg [p
         [_ [_ [_ [_ [Hcfg [_ [_ [Hp [Hmp [_ [_ Hpre]]]]]]]]]]]]]]]]].
  destruct (Hpre Hm) as [loaded [Hload Hkeys]].
  exists loaded, cfg. split; [exact Hload|]. split; [exact Hcfg|].
  split; [exact Hkeys|].
  rewrite Hmp, <- Hp. apply Hkeys; discriminate.
Qed.

(** X14. If one of the three input files -- the dataset description,
    [config.json] and [train_paths.csv] under the results directory -- is
    missing, the constructor raises [FileNotFoundError] naming the first
    missing one, before anything is read or written; the model
    configuration file is not among those required. *)
Theorem init_requires_inputs (args : arguments) (w0 : list write)
    (p : string) :
  find (fun q => negb (path_exists q))
       [dataset_description_path (file_paths_of args);
        mist_configuration_path (file_paths_of args);
        training_paths_dataframe_path (file_paths_of args)]
  = Some p ->
  init args w0 = (Err (FileNotFoundError ("File not found: " ++ p)), w0).
Proof.
  unfold Init.init, _initialize_data_structures, require_file.
  cbv zeta. unfold wbind, wraise, wret. simpl.
  destruct (path_exists (data args)); simpl.
  - destruct (path_exists (path_join [results args; "config.json"%string]));
      simpl.
    + destruct (path_exists
                  (path_join [results args; "train_paths.csv"%string]));
        simpl; [discriminate|].
      intros E. injection E as <-. reflexivity.
    + intros E. injection E as <-. reflexivity.
  - intros E. injection E as <-. reflexivity.
Qed.

(** X15. The constructor writes at most one file, the model configuration
    under the results directory, and when it returns, what it wrote is the
    model configuration the trainer holds. *)
Theorem init_writes_the_model_configuration (args : arguments)
    (w0 : list write) :
  let r := init args w0 in
  exists ws,
    snd r = w0 ++ ws
    /\ List.length ws <= 1
    /\ forallb (fun x => String.eqb (fst x)
                           (model_configuration_path (file_paths_of args)))
               ws = true
    /\ match fst r with
       | Ok t => option_map (fun cfg =>
                               [(model_configuration_path (file_paths_of args),
                                 cfg)])
                   (model_configuration (structures t)) = Some ws
       | Err _ => True
       end.
Proof.
  cbv zeta. unfold Init.init, _initialize_data_structures, require_file,
    _create_model_configuration.
  cbv zeta. unfold wbind, lift, wraise, wret.
  repeat (cbv beta iota; simpl;
          match goal with
          | |- context [match ?x with _ => _ end] =>
              lazymatch type of x with
              | prod _ _ => fail
              | _ => destruct x eqn:?
              end
          end);
    cbv beta iota; simpl;
    first [ exists []; rewrite app_nil_r; simpl; repeat split; auto; fail
          | eexists; split; [reflexivity|]; simpl;
            rewrite ?String.eqb_refl; repeat split; auto ].
Qed.

End Trainer.

End InitFacts.

(** ** Further runs on explicit inputs *)

Module MoreRuns.

Import Run.

Local Abbreviation args := (Demo.arguments 1 "dice_ce").

(** *** The split with distance maps *)

Lemma split_with_dtms_is_aligned_witness :
  use_dtms DemoMore.arguments_with_dtms = true
  /\ exists sp s1 d,
       split_fold Demo.ext DemoMore.arguments_with_dtms Demo.dataframe 0
         (Demo.start (Some 2)) = (Val sp, s1)
       /\ split_train_dtms sp = PyTuple d
       /\ List.length (train_labels sp) = List.length d.
Proof.
  split; [reflexivity|].
  assert (Hs : exists sp s1,
             split_fold Demo.ext DemoMore.arguments_with_dtms Demo.dataframe 0
               (Demo.start (Some 2)) = (Val sp, s1))
    by (eexists; eexists; vm_compute; reflexivity).
  destruct Hs as [sp [s1 Hs]].
  destruct (RunFacts.split_with_dtms_is_aligned
              nat (string * nat) unit nat Z Demo.ext
              DemoMore.arguments_with_dtms Demo.dataframe 0
              (Demo.start (Some 2)) s1 sp eq_refl Hs)
    as [d [Hd [_ [Hlen _]]]].
  exists sp, s1, d. split; [exact Hs|]. split; [exact Hd|exact Hlen].
Defined.

(** Every training pair of fold 0 is a pair of the fold's lists. *)
Lemma split_keeps_pairs_witness :
  split_fold Demo.ext args Demo.dataframe 0 (Demo.start (Some 2))
  = (Val Demo.split0, Demo.after_split0 (Some 2))
  /\ incl (combine (train_images Demo.split0) (train_labels Demo.split0))
          (combine (map (pair "images"%string) [1; 2; 3; 4; 6; 7; 8; 9])
                   (map (pair "labels"%string) [1; 2; 3; 4; 6; 7; 8; 9])).
Proof.
  assert (Hsplit : split_fold Demo.ext args Demo.dataframe 0
                     (Demo.start (Some 2))
                   = (Val Demo.split0, Demo.after_split0 (Some 2)))
    by (vm_compute; reflexivity).
  split; [exact Hsplit|].
  exact (proj1 (RunFacts.split_keeps_pairs
                  nat (string * nat) unit nat Z Demo.ext args Demo.dataframe
                  0 (Demo.start (Some 2)) (Demo.after_split0 (Some 2))
                  Demo.split0 Hsplit)).
Defined.

Lemma demo_permutation_NoDup (g : Z) (n : nat) :
  NoDup (fst (Ext.permutation Demo.ext g n)).
Proof. simpl. apply NoDup_rev. apply seq_NoDup. Qed.

Lemma demo_images_NoDup :
  NoDup (Ext.get_numpy_file_paths_list Demo.ext "images"
           (map row_id (filter (fun r => negb (row_fold r =? 0)%nat)
                          Demo.dataframe))).
Proof.
  vm_compute.
  repeat (constructor;
          [intros H; repeat (destruct H as [H|H]; [discriminate H|]); exact H|]).
  constructor.
Qed.

Lemma split_is_disjoint_witness :
  (forall g n, NoDup (fst (Ext.permutation Demo.ext g n)))
  /\ split_fold Demo.ext args Demo.dataframe 0 (Demo.start (Some 2))
     = (Val Demo.split0, Demo.after_split0 (Some 2))
  /\ NoDup (train_images Demo.split0 ++ val_images Demo.split0).
Proof.
  assert (Hsplit : split_fold Demo.ext args Demo.dataframe 0
                     (Demo.start (Some 2))
                   = (Val Demo.split0, Demo.after_split0 (Some 2)))
    by (vm_compute; reflexivity).
  split; [exact demo_permutation_NoDup|]. split; [exact Hsplit|].
  exact (proj1 (RunFacts.split_is_disjoint
                  nat (string * nat) unit nat Z Demo.ext args Demo.dataframe
                  0 (Demo.start (Some 2)) (Demo.after_split0 (Some 2))
                  Demo.split0 demo_permutation_NoDup demo_images_NoDup
                  Hsplit)).
Defined.

(** *** Steps per epoch and validation steps *)

(** Six training images in batches of two: three steps per epoch. *)
Lemma steps_per_epoch_is_fixed_by_first_fold_witness :
  split_fold Demo.ext args Demo.dataframe 0 (Demo.start None)
  = (Val Demo.split0, Demo.after_split0 None)
  /\ let r := fold_body Demo.ext args Demo.dataframe 1 2 0 (Demo.start None) in
     fst r = Val tt /\ steps_per_epoch (snd r) = Some 3.
Proof.
  assert (Hsplit : split_fold Demo.ext args Demo.dataframe 0 (Demo.start None)
                   = (Val Demo.split0, Demo.after_split0 None))
    by (vm_compute; reflexivity).
  assert (Hrun : fold_body Demo.ext args Demo.dataframe 1 2 0 (Demo.start None)
                 = (Val tt, snd (fold_body Demo.ext args Demo.dataframe 1 2 0
                                   (Demo.start None))))
    by (vm_compute; reflexivity).
  split; [exact Hsplit|]. cbv zeta. split; [rewrite Hrun; reflexivity|].
  rewrite (RunFacts.steps_per_epoch_is_fixed_by_first_fold
             nat (string * nat) unit nat Z Demo.ext args Demo.dataframe
             1 2 0 (Demo.start None) (Demo.after_split0 None) _ Demo.split0
             Hsplit Hrun).
  reflexivity.
Defined.

(** Two validation images on two workers: one validation step each. *)
Lemma every_worker_has_a_validation_step_witness :
  split_fold Demo.ext args Demo.dataframe 0 (Demo.start (Some 2))
  = (Val Demo.split0, Demo.after_split0 (Some 2))
  /\ let r := prepare_fold Demo.ext args Demo.dataframe 0 2 0
                (Demo.start (Some 2)) in
     fst r = Val tt
     /\ exists fo, fold_scope (snd r) = Some fo /\ val_steps fo = 1.
Proof.
  assert (Hsplit : split_fold Demo.ext args Demo.dataframe 0
                     (Demo.start (Some 2))
                   = (Val Demo.split0, Demo.after_split0 (Some 2)))
    by (vm_compute; reflexivity).
  assert (Hrun : prepare_fold Demo.ext args Demo.dataframe 0 2 0
                   (Demo.start (Some 2))
                 = (Val tt, snd (prepare_fold Demo.ext args Demo.dataframe
                                   0 2 0 (Demo.start (Some 2)))))
    by (vm_compute; reflexivity).
  split; [exact Hsplit|]. cbv zeta. split; [rewrite Hrun; reflexivity|].
  destruct (RunFacts.every_worker_has_a_validation_step
              nat (string * nat) unit nat Z Demo.ext args Demo.dataframe
              0 2 0 (Demo.start (Some 2)) (Demo.after_split0 (Some 2)) _
              Demo.split0 Hsplit Hrun)
    as [fo [Hfo [_ [Hsteps _]]]].
  exists fo. split; [exact Hfo|]. rewrite Hsteps. reflexivity.
Defined.

(** *** The worker of rank 1 *)

Lemma other_ranks_epoch_loop_is_idle_witness :
  1 <> 0
  /\ let s := snd (prepare_fold Demo.ext args Demo.dataframe 1 2 0
                     (Demo.start (Some 2))) in
     exists s',
       fold_body Demo.ext args Demo.dataframe 1 2 0 (Demo.start (Some 2))
       = (Val tt, s')
       /\ trace s' = trace s ++ [model_train; ipdb_set_trace]
       /\ patch_counter s' = Some 0.
Proof.
  split; [lia|]. cbv zeta.
  assert (Hprep : prepare_fold Demo.ext args Demo.dataframe 1 2 0
                    (Demo.start (Some 2))
                  = (Val tt, snd (prepare_fold Demo.ext args Demo.dataframe
                                    1 2 0 (Demo.start (Some 2)))))
    by (vm_compute; reflexivity).
  destruct (RunFacts.other_ranks_epoch_loop_is_idle
              nat (string * nat) unit nat Z Demo.ext args Demo.dataframe
              1 2 0 (Demo.start (Some 2)) _ ltac:(lia) Hprep)
    as [s' [Hrun [Ht [_ [_ Hpc]]]]].
  exists s'. split; [exact Hrun|]. split; [exact Ht|exact Hpc].
Defined.

Lemma other_ranks_never_train_witness :
  1 <> 0
  /\ let r := train Demo.ext args Demo.dataframe 1 2 (Demo.start (Some 2)) in
     is_exc (fst r) = true
     /\ forallb RunAux.idle_event (trace (snd r)) = true
     /\ data (snd r) = None.
Proof.
  split; [lia|].
  apply (RunFacts.other_ranks_never_train
           nat (string * nat) unit nat Z Demo.ext args Demo.dataframe
           1 2 0%Z (Some 2) 0).
  lia.
Defined.

(** *** The boundary-loss check without a batch size *)

(** With no [steps_per_epoch] given and a batch size of 0 the fold stops at
    line 345, before the check of the loss function. *)
Example boundary_loss_batch_size_zero :
  let r := fold_body Demo.ext DemoMore.arguments_bl_batch0 Demo.dataframe
             0 2 0 (Demo.start None) in
  fst r = Exc ZeroDivisionError
  /\ trace (snd r)
     = [call_train_test_split 0; get_training_dataset 0;
        get_validation_dataset 0].
Proof. vm_compute. split; reflexivity. Qed.

(** With no worker it stops at line 314, before the loaders. *)
Example boundary_loss_no_worker :
  let r := fold_body Demo.ext (Demo.arguments 1 "bl") Demo.dataframe
             0 0 0 (Demo.start (Some 2)) in
  fst r = Exc ZeroDivisionError
  /\ trace (snd r) = [call_train_test_split 0].
Proof. vm_compute. split; reflexivity. Qed.

(** *** One training step under mixed precision *)

(** The scaler finds an overflow: its [step] is called, the weights stay. *)
Example train_step_skipped_on_overflow :
  let r := train_step DemoMore.ext_overflow DemoMore.arguments_amp
             1 1 None None (Demo.start (Some 2)) in
  fst r = Val 1%Q
  /\ trace (snd r)
     = [zero_grad; model_forward; backward true; scaler_unscale;
        clip_grad_norm; optimizer_step true; scaler_update]
  /\ model_weights (snd r) = 0.
Proof. vm_compute. repeat split; reflexivity. Qed.

(** Without an overflow the same step updates them. *)
Example train_step_updates_weights :
  let r := train_step Demo.ext DemoMore.arguments_amp
             1 1 None None (Demo.start (Some 2)) in
  fst r = Val 1%Q /\ model_weights (snd r) = 1.
Proof. vm_compute. split; reflexivity. Qed.

(** *** The checkpoint decision *)

(** The first run saves (the record was infinite), the second does not. *)
Lemma checkpoint_is_not_repeated_witness :
  running_val_loss DemoMore.after_validation = Some (Qmake 1 2)
  /\ let s1 := snd (checkpoint_if_improved DemoMore.after_validation) in
     trace s1 = [console_print "Validation loss IMPROVED"; torch_save 0]
     /\ fst (checkpoint_if_improved s1) = Val tt
     /\ trace (snd (checkpoint_if_improved s1))
        = trace s1 ++ [console_print "Validation loss did NOT improve"].
Proof.
  split; [reflexivity|]. cbv zeta. split; [vm_compute; reflexivity|].
  destruct (RunFacts.checkpoint_is_not_repeated
              nat (string * nat) nat Z DemoMore.after_validation
              (Qmake 1 2) _ _ eq_refl eq_refl eq_refl)
    as [Hv [Ht _]].
  split; [exact Hv|exact Ht].
Defined.

(** *** The bound on the supervised loss *)

Lemma supervised_loss_bounded_witness :
  (forall c : Loss.loss_call nat,
      (0 <= Ext.loss_fn Demo.ext c)%Q /\ (Ext.loss_fn Demo.ext c <= 1)%Q)
  /\ exists v,
       fst (Loss.supervised_loss (with_deep_supervision true default_arguments)
              (Ext.loss_fn Demo.ext) 0 None None
              (Demo.output_with_heads [2; 2; 2]) tt) = Val v
       /\ (0 <= v)%Q /\ (v <= 1)%Q.
Proof.
  assert (Hb : forall c : Loss.loss_call nat,
             (0 <= Ext.loss_fn Demo.ext c)%Q
             /\ (Ext.loss_fn Demo.ext c <= 1)%Q)
    by (intros c; split; vm_compute; discriminate).
  split; [exact Hb|].
  eexists. split; [vm_compute; reflexivity|].
  apply (LossMore.supervised_loss_bounded
           nat (with_deep_supervision true default_arguments)
           (Ext.loss_fn Demo.ext) unit 0 None None
           (Demo.output_with_heads [2; 2; 2]) tt 1%Q _ Hb).
  vm_compute. reflexivity.
Defined.

(** *** The construction of the trainer *)

Import Init.

(** A new model: the patch size of the command line replaces that of
    [config.json] and goes into the model configuration. *)
Lemma init_patch_sizes_agree_witness :
  exists t w,
    DemoMore.init DemoMore.new_model [] = (Ok t, w)
    /\ getitem (mist_configuration (structures t)) "patch_size"
       = Ok (JArr [of_nat 128; of_nat 128; of_nat 128])
    /\ exists cfg,
         model_configuration (structures t) = Some cfg
         /\ getitem cfg "patch_size"
            = Ok (JArr [of_nat 128; of_nat 128; of_nat 128]).
Proof.
  assert (Hrun : exists t w, DemoMore.init DemoMore.new_model [] = (Ok t, w))
    by (eexists; eexists; vm_compute; reflexivity).
  destruct Hrun as [t [w Hrun]].
  assert (Hp : fst (DemoMore.init DemoMore.new_model [])
               = Ok t) by (rewrite Hrun; reflexivity).
  destruct (InitFacts.init_patch_sizes_agree
              (list string) DemoMore.path_join DemoMore.path_exists
              DemoMore.read_json_file DemoMore.read_csv
              DemoMore.write_json_file DemoMore.new_model t [] w Hrun)
    as [p [cfg [Hmc [Hcfg Hps]]]].
  exists t, w. split; [exact Hrun|].
  assert (E : p = JArr [of_nat 128; of_nat 128; of_nat 128]).
  { vm_compute in Hp. injection Hp as <-. vm_compute in Hmc.
    injection Hmc as <-. reflexivity. }
  rewrite E in Hmc, Hps.
  split; [exact Hmc|]. exists cfg. split; [exact Hcfg|exact Hps].
Defined.

(** Two image types and three labels, against the 4 and 5 the pretrained
    configuration holds. *)
Lemma init_channels_and_classes_witness :
  exists t w cfg,
    DemoMore.init DemoMore.pretrained_model [] = (Ok t, w)
    /\ model_configuration (structures t) = Some cfg
    /\ getitem cfg "n_channels" = Ok (of_nat 2)
    /\ getitem cfg "n_classes" = Ok (of_nat 3).
Proof.
  assert (Hrun : exists t w,
             DemoMore.init DemoMore.pretrained_model [] = (Ok t, w))
    by (eexists; eexists; vm_compute; reflexivity).
  destruct Hrun as [t [w Hrun]].
  destruct (InitFacts.init_channels_and_classes
              (list string) DemoMore.path_join DemoMore.path_exists
              DemoMore.read_json_file DemoMore.read_csv
              DemoMore.write_json_file DemoMore.pretrained_model t [] w Hrun)
    as [dd [images [labels [nc [ncl [cfg
         [Hdd [Hi [Hnc [Hl [Hncl [Hcfg [Hch Hcl]]]]]]]]]]]]].
  exists t, w, cfg. split; [exact Hrun|]. split; [exact Hcfg|].
  vm_compute in Hdd. injection Hdd as <-.
  vm_compute in Hi. injection Hi as <-.
  vm_compute in Hl. injection Hl as <-.
  vm_compute in Hnc. injection Hnc as <-.
  vm_compute in Hncl. injection Hncl as <-.
  split; [exact Hch|exact Hcl].
Defined.

(** The stored patch size 96 wins over the 128 of the command line and the
    64 of [config.json]; [pocket] stays as stored. *)
Lemma pretrained_configuration_is_kept_witness :
  model DemoMore.pretrained_model = "pretrained"%string
  /\ exists t w cfg,
       DemoMore.init DemoMore.pretrained_model [] = (Ok t, w)
       /\ model_configuration (structures t) = Some cfg
       /\ getitem cfg "pocket" = Ok (JBool true)
       /\ getitem (mist_configuration (structures t)) "patch_size"
          = Ok (JArr [of_nat 96; of_nat 96; of_nat 96]).
Proof.
  split; [reflexivity|].
  assert (Hrun : exists t w,
             DemoMore.init DemoMore.pretrained_model [] = (Ok t, w))
    by (eexists; eexists; vm_compute; reflexivity).
  destruct Hrun as [t [w Hrun]].
  destruct (InitFacts.pretrained_configuration_is_kept
              (list string) DemoMore.path_join DemoMore.path_exists
              DemoMore.read_json_file DemoMore.read_csv
              DemoMore.write_json_file DemoMore.pretrained_model t [] w
              eq_refl Hrun)
    as [loaded [cfg [Hload [Hcfg [Hkeys Hps]]]]].
  exists t, w, cfg. split; [exact Hrun|]. split; [exact Hcfg|].
  vm_compute in Hload. injection Hload as <-.
  split.
  - rewrite Hkeys by discriminate. reflexivity.
  - rewrite Hps. reflexivity.
Defined.

(** Without [train_paths.csv] nothing is read or written. *)
Lemma init_requires_inputs_witness :
  DemoMore.path_exists_without_csv "results/train_paths.csv" = false
  /\ Init.init DemoMore.path_join DemoMore.path_exists_without_csv
       DemoMore.read_json_file DemoMore.read_csv DemoMore.write_json_file
       DemoMore.new_model []
     = (Err (FileNotFoundError "File not found: results/train_paths.csv"), []).
Proof.
  split; [reflexivity|].
  apply (InitFacts.init_requires_inputs
           (list string) DemoMore.path_join
           DemoMore.path_exists_without_csv DemoMore.read_json_file
           DemoMore.read_csv DemoMore.write_json_file DemoMore.new_model []
           "results/train_paths.csv").
  vm_compute. reflexivity.
Defined.

End MoreRuns.
